(** * Engineering team management backend: derivation, scoping and workload

    A shallow embedding of the Express/Mongoose backend:
    - [models/Assignment.js], [models/Project.js], [models/User.js]:
      the documents, their validators and their [pre("save")] /
      [post("save")] middleware;
    - [routes/assignments.js], [routes/projects.js], [routes/users.js],
      [routes/engineers.js], [routes/auth.js]: the handlers, as functions
      from the stored collections and a request to a response and the new
      collections, and the order in which each router registers its routes;
    - [server.js]: the connection to the database, with its retries.

    Conventions.
    - A JavaScript [Number] is an exact rational ([Q]); [===] on numbers is
      [Qeq_bool], [Math.round] is [floor (x + 1/2)].
    - A [Date] is its epoch time in milliseconds ([Z]); [new Date()] is the
      argument [now] of the function that calls it.
    - An [ObjectId] is the string it prints as; identifiers are taken to be
      well formed.
    - A request body is a finite map from keys to JSON values; a key that
      is absent reads as [undefined].  A value is cast to a path of a schema
      when it has the JSON shape of the path (a string for a [String], a
      number for a [Number] or a [Date], an array for an array); the
      further conversions of Mongoose (a numeric string for a number, a
      date string) are not modelled and count as a cast failure.
    - [save()] validates the document, runs [pre("save")], writes, then
      runs [post("save")].  [findByIdAndUpdate] casts and validates the
      fields of the update ([runValidators]) and writes them; it runs no
      [save] middleware.
    - The handlers are modelled from the point where [protect] (and
      [isAdmin] / [isAdminOrManager]) has let the request through, so
      [req.user] is the authenticated caller. *)

From Stdlib Require Import QArith Qround Qminmax ZArith Lia Lqa Ascii.
From stdpp Require Import base strings gmap list pretty.

Open Scope Q_scope.
Open Scope string_scope.

(** ** JavaScript values *)

Module JS.

Definition Number := Q.
Definition Date := Z.
Definition ObjectId := string.

(** [a === b] on numbers. *)
Definition eqb (a b : Number) : bool := Qeq_bool a b.
(** [a <= b], [a < b], [a > b] on numbers. *)
Definition leb (a b : Number) : bool := Qle_bool a b.
Definition ltb (a b : Number) : bool := negb (Qle_bool b a).
Definition gtb (a b : Number) : bool := ltb b a.

(** [Math.round]: the nearest integer, a tie going up. *)
Definition Math_round (x : Number) : Z := Qfloor (x + (1 # 2)).
(** [Math.max] and [Math.min] of two numbers. *)
Definition Math_max (a b : Number) : Number := Qmax a b.
Definition Math_min (a b : Number) : Number := Qmin a b.

(** [x || 0] on a number: [0] is the only falsy rational. *)
Definition or_zero (x : Number) : Number := if eqb x 0 then 0 else x.

(** [s.trim()], over the ASCII white space. *)
Definition is_space (c : ascii) : bool :=
  let n := nat_of_ascii c in
  (Nat.eqb n 32 || (Nat.leb 9 n && Nat.leb n 13))%bool.

Fixpoint trim_start (s : string) : string :=
  match s with
  | String c r => if is_space c then trim_start r else s
  | EmptyString => EmptyString
  end.

Fixpoint trim_end (s : string) : string :=
  match s with
  | String c r =>
      match trim_end r with
      | EmptyString => if is_space c then EmptyString else String c EmptyString
      | r' => String c r'
      end
  | EmptyString => EmptyString
  end.

Definition trim (s : string) : string := trim_end (trim_start s).

(** JSON values of a request body. *)
#[warnings="-register-all"]
Inductive Value :=
| Null
| Bool (b : bool)
| Num (q : Number)
| Str (s : string)
| Arr (l : list Value)
| Obj (l : list (string * Value)).

(** A body: [body !! k = None] is [body[k] === undefined]. *)
Abbreviation Body := (gmap string Value).

(** Truthiness of [body[k]]. *)
Definition truthy (v : option Value) : bool :=
  match v with
  | None | Some Null => false
  | Some (Bool b) => b
  | Some (Num q) => negb (eqb q 0)
  | Some (Str s) => negb (String.eqb s "")
  | Some (Arr _) | Some (Obj _) => true
  end.

(** [obj[k]] on a JSON object literal. *)
Fixpoint field (k : string) (l : list (string * Value)) : option Value :=
  match l with
  | [] => None
  | (k', v) :: r => if String.eqb k k' then Some v else field k r
  end.

(** [ks.forEach(k => { if (body[k] !== undefined) out[k] = body[k] })]. *)
Definition pick (ks : list string) (body : Body) : Body :=
  foldl (fun out k =>
           match body !! k with
           | Some v => <[k := v]> out
           | None => out
           end) ∅ ks.

End JS.

(** ** Mongoose errors and HTTP responses *)

Inductive MongooseError :=
| ValidationError (paths : list string)
| CastError (path : string).

(** The result of a store operation that can throw. *)
Abbreviation Result A := (MongooseError + A)%type.

Definition bind {A B} (r : Result A) (k : A -> Result B) : Result B :=
  match r with
  | inl e => inl e
  | inr a => k a
  end.

Notation "'let*' x := r 'in' k" := (bind r (fun x => k))
  (at level 10, x name, r at level 100, k at level 200).

(** [res.status(code).json({ success, message, data })]; the [errors]
    array of a validation failure lists the messages of the [paths]. *)
Record Response (D : Type) := mkResponse {
  code : nat;
  success : bool;
  message : string;
  data : option D;
}.
Arguments mkResponse {D}.
Arguments code {D}.
Arguments success {D}.
Arguments message {D}.
Arguments data {D}.

Definition fail {D} (c : nat) (m : string) : Response D :=
  mkResponse c false m None.

Definition ok {D} (c : nat) (m : string) (d : D) : Response D :=
  mkResponse c true m (Some d).

(** The [catch] block shared by the writing handlers. *)
Definition on_error {D} (e : MongooseError) : Response D :=
  match e with
  | ValidationError _ => fail 400 "Validation error"
  | CastError _ => fail 500 "Server error"
  end.

(** The [catch] block of the handlers that map every error to 500. *)
Definition server_error {D} : Response D := fail 500 "Server error".

(** [req.user]. *)
Record Caller := mkCaller {
  caller_id : JS.ObjectId;
  caller_role : string;
}.

(** ** Schema helpers *)

Module Schema.

(** A validator: the path is reported when the test fails. *)
Definition check (path : string) (holds : bool) : list string :=
  if holds then [] else [path].

Definition oneOf (enum : list string) (s : string) : bool :=
  bool_decide (s ∈ enum).

Definition maxlength (n : nat) (s : string) : bool :=
  Nat.leb (String.length s) n.

(** [required] on a string path. *)
Definition required (s : string) : bool := negb (String.eqb s "").

(** Casts of a JSON value to the type of a path.  A value is accepted in
    the JSON shape of its path; any other shape is a cast failure. *)
Definition castString (path : string) (v : JS.Value) : Result string :=
  match v with
  | JS.Str s => inr s
  | _ => inl (CastError path)
  end.

Definition castTrimmed (path : string) (v : JS.Value) : Result string :=
  let* s := castString path v in inr (JS.trim s).

Definition castNumber (path : string) (v : JS.Value) : Result JS.Number :=
  match v with
  | JS.Num q => inr q
  | _ => inl (CastError path)
  end.

Definition castBoolean (path : string) (v : JS.Value) : Result bool :=
  match v with
  | JS.Bool b => inr b
  | _ => inl (CastError path)
  end.

(** A date arrives as its epoch milliseconds: [new Date(q)] drops the
    fraction of [q]. *)
Definition castDate (path : string) (v : JS.Value) : Result JS.Date :=
  match v with
  | JS.Num q => inr (if JS.leb 0 q then Qfloor q else Qceiling q)
  | _ => inl (CastError path)
  end.

Fixpoint castEach {A} (f : JS.Value -> Result A) (l : list JS.Value)
  : Result (list A) :=
  match l with
  | [] => inr []
  | v :: r => let* x := f v in let* xs := castEach f r in inr (x :: xs)
  end.

Definition castArray {A} (path : string) (f : JS.Value -> Result A)
    (v : JS.Value) : Result (list A) :=
  match v with
  | JS.Arr l => castEach f l
  | _ => inl (CastError path)
  end.

(** The cast of [update[path]], when the update has the path. *)
Definition castPath {A} (update : JS.Body) (path : string)
    (f : string -> JS.Value -> Result A) : Result (option A) :=
  match update !! path with
  | None => inr None
  | Some v => let* x := f path v in inr (Some x)
  end.

(** A validator on a path of an update: absent paths are not validated. *)
Definition checkSet {A} (path : string) (f : A -> bool) (x : option A)
  : list string :=
  match x with
  | None => []
  | Some a => check path (f a)
  end.

(** [$set] of one path. *)
Definition assign {A T} (x : option A) (set : A -> T -> T) (doc : T) : T :=
  match x with
  | None => doc
  | Some a => set a doc
  end.

End Schema.

(** ** models/Assignment.js

    The paths the routes below read or write.  [tags], [comments],
    [attachments], [startDate], [isActive] and the timestamps have no part
    in them and are left out. *)

Module TimeEntry.

Record t := mk {
  date : JS.Date;
  hours : JS.Number;
  description : string;
}.

(** The validators of one element of [timeEntries]. *)
Definition valid (e : t) : bool :=
  (JS.leb (1 # 4) (hours e) && JS.leb (hours e) 24
   && Schema.maxlength 200 (description e))%bool.

(** The cast of one element of a [timeEntries] array in an update. *)
Definition cast (v : JS.Value) : Result t :=
  match v with
  | JS.Obj l =>
      match JS.field "date" l, JS.field "hours" l with
      | Some d, Some h =>
          let* d' := Schema.castDate "timeEntries.date" d in
          let* h' := Schema.castNumber "timeEntries.hours" h in
          let* s' := match JS.field "description" l with
                | None => inr ""
                | Some s => Schema.castTrimmed "timeEntries.description" s
                end in
          inr (mk d' h' s')
      | _, _ => inl (ValidationError ["timeEntries"])
      end
  | _ => inl (CastError "timeEntries")
  end.

End TimeEntry.

Module Assignment.

Record t := mk {
  _id : JS.ObjectId;
  title : string;
  description : string;
  project : JS.ObjectId;
  assignee : JS.ObjectId;
  assignedBy : JS.ObjectId;
  status : string;
  priority : string;
  progress : JS.Number;
  estimatedHours : JS.Number;
  actualHours : JS.Number;
  deadline : JS.Date;
  completedAt : option JS.Date;
  timeEntries : list TimeEntry.t;
}.

Definition status_enum : list string :=
  ["pending"; "active"; "in-progress"; "completed"; "cancelled"; "on-hold"].
Definition priority_enum : list string := ["low"; "medium"; "high"; "urgent"].

Definition set_title (x : string) (a : t) : t :=
  mk (_id a) x (description a) (project a) (assignee a) (assignedBy a)
     (status a) (priority a) (progress a) (estimatedHours a) (actualHours a)
     (deadline a) (completedAt a) (timeEntries a).
Definition set_description (x : string) (a : t) : t :=
  mk (_id a) (title a) x (project a) (assignee a) (assignedBy a)
     (status a) (priority a) (progress a) (estimatedHours a) (actualHours a)
     (deadline a) (completedAt a) (timeEntries a).
Definition set_project (x : JS.ObjectId) (a : t) : t :=
  mk (_id a) (title a) (description a) x (assignee a) (assignedBy a)
     (status a) (priority a) (progress a) (estimatedHours a) (actualHours a)
     (deadline a) (completedAt a) (timeEntries a).
Definition set_assignee (x : JS.ObjectId) (a : t) : t :=
  mk (_id a) (title a) (description a) (project a) x (assignedBy a)
     (status a) (priority a) (progress a) (estimatedHours a) (actualHours a)
     (deadline a) (completedAt a) (timeEntries a).
Definition set_assignedBy (x : JS.ObjectId) (a : t) : t :=
  mk (_id a) (title a) (description a) (project a) (assignee a) x
     (status a) (priority a) (progress a) (estimatedHours a) (actualHours a)
     (deadline a) (completedAt a) (timeEntries a).
Definition set_status (x : string) (a : t) : t :=
  mk (_id a) (title a) (description a) (project a) (assignee a) (assignedBy a)
     x (priority a) (progress a) (estimatedHours a) (actualHours a)
     (deadline a) (completedAt a) (timeEntries a).
Definition set_priority (x : string) (a : t) : t :=
  mk (_id a) (title a) (description a) (project a) (assignee a) (assignedBy a)
     (status a) x (progress a) (estimatedHours a) (actualHours a)
     (deadline a) (completedAt a) (timeEntries a).
Definition set_progress (x : JS.Number) (a : t) : t :=
  mk (_id a) (title a) (description a) (project a) (assignee a) (assignedBy a)
     (status a) (priority a) x (estimatedHours a) (actualHours a)
     (deadline a) (completedAt a) (timeEntries a).
Definition set_estimatedHours (x : JS.Number) (a : t) : t :=
  mk (_id a) (title a) (description a) (project a) (assignee a) (assignedBy a)
     (status a) (priority a) (progress a) x (actualHours a)
     (deadline a) (completedAt a) (timeEntries a).
Definition set_actualHours (x : JS.Number) (a : t) : t :=
  mk (_id a) (title a) (description a) (project a) (assignee a) (assignedBy a)
     (status a) (priority a) (progress a) (estimatedHours a) x
     (deadline a) (completedAt a) (timeEntries a).
Definition set_deadline (x : JS.Date) (a : t) : t :=
  mk (_id a) (title a) (description a) (project a) (assignee a) (assignedBy a)
     (status a) (priority a) (progress a) (estimatedHours a) (actualHours a)
     x (completedAt a) (timeEntries a).
Definition set_completedAt (x : JS.Date) (a : t) : t :=
  mk (_id a) (title a) (description a) (project a) (assignee a) (assignedBy a)
     (status a) (priority a) (progress a) (estimatedHours a) (actualHours a)
     (deadline a) (Some x) (timeEntries a).
Definition set_timeEntries (x : list TimeEntry.t) (a : t) : t :=
  mk (_id a) (title a) (description a) (project a) (assignee a) (assignedBy a)
     (status a) (priority a) (progress a) (estimatedHours a) (actualHours a)
     (deadline a) (completedAt a) x.

(** The virtual [totalLoggedHours], and the sum the save hook stores:
    [timeEntries.reduce((total, entry) => total + entry.hours, 0)]. *)
Definition totalLoggedHours (a : t) : JS.Number :=
  foldl (fun total entry => total + TimeEntry.hours entry) 0 (timeEntries a).

(** The virtual [efficiency]. *)
Definition efficiency (a : t) : Z :=
  if JS.eqb (estimatedHours a) 0 then 0%Z
  else JS.Math_round
         (estimatedHours a
          / JS.Math_max (totalLoggedHours a) (estimatedHours a) * 100).

(** The validators of the document, run by [save()]. *)
Definition invalid_paths (now : JS.Date) (a : t) : list string :=
  Schema.check "title"
    (Schema.required (title a) && Schema.maxlength 100 (title a))
  ++ Schema.check "description"
       (Schema.required (description a) && Schema.maxlength 1000 (description a))
  ++ Schema.check "status" (Schema.oneOf status_enum (status a))
  ++ Schema.check "priority" (Schema.oneOf priority_enum (priority a))
  ++ Schema.check "progress"
       (JS.leb 0 (progress a) && JS.leb (progress a) 100)
  ++ Schema.check "estimatedHours" (JS.leb (1 # 2) (estimatedHours a))
  ++ Schema.check "actualHours" (JS.leb 0 (actualHours a))
  ++ Schema.check "deadline" (Z.ltb now (deadline a))
  ++ Schema.check "timeEntries" (forallb TimeEntry.valid (timeEntries a)).

(** [AssignmentSchema.pre("save")]; [modifiedTimeEntries] is
    [this.isModified("timeEntries")] and [now] is [new Date()]. *)
Definition pre_save (now : JS.Date) (modifiedTimeEntries : bool) (a : t) : t :=
  let a1 :=
    if modifiedTimeEntries then set_actualHours (totalLoggedHours a) a else a in
  let a2 :=
    if (JS.eqb (progress a1) 100 && negb (String.eqb (status a1) "completed"))%bool
    then set_completedAt now (set_status "completed" a1)
    else a1 in
  if (JS.gtb (progress a2) 0
      && (String.eqb (status a2) "pending" || String.eqb (status a2) "active"))%bool
  then set_status "in-progress" a2
  else a2.

(** The update of [findByIdAndUpdate], after the cast. *)
Record Update := mkUpdate {
  u_title : option string;
  u_description : option string;
  u_project : option JS.ObjectId;
  u_assignee : option JS.ObjectId;
  u_assignedBy : option JS.ObjectId;
  u_status : option string;
  u_priority : option string;
  u_progress : option JS.Number;
  u_estimatedHours : option JS.Number;
  u_actualHours : option JS.Number;
  u_deadline : option JS.Date;
  u_completedAt : option JS.Date;
  u_timeEntries : option (list TimeEntry.t);
}.

(** The cast of an update: the paths of the schema are cast, every other
    key of the update is dropped (strict mode). *)
Definition castUpdate (update : JS.Body) : Result Update :=
  let* x1 := Schema.castPath update "title" Schema.castTrimmed in
  let* x2 := Schema.castPath update "description" Schema.castTrimmed in
  let* x3 := Schema.castPath update "project" Schema.castString in
  let* x4 := Schema.castPath update "assignee" Schema.castString in
  let* x5 := Schema.castPath update "assignedBy" Schema.castString in
  let* x6 := Schema.castPath update "status" Schema.castString in
  let* x7 := Schema.castPath update "priority" Schema.castString in
  let* x8 := Schema.castPath update "progress" Schema.castNumber in
  let* x9 := Schema.castPath update "estimatedHours" Schema.castNumber in
  let* x10 := Schema.castPath update "actualHours" Schema.castNumber in
  let* x11 := Schema.castPath update "deadline" Schema.castDate in
  let* x12 := Schema.castPath update "completedAt" Schema.castDate in
  let* x13 := Schema.castPath update "timeEntries"
           (fun p => Schema.castArray p TimeEntry.cast) in
  inr (mkUpdate x1 x2 x3 x4 x5 x6 x7 x8 x9 x10 x11 x12 x13).

(** The update validators ([runValidators: true]): the validators of the
    paths the update sets. *)
Definition invalid_update (now : JS.Date) (u : Update) : list string :=
  Schema.checkSet "title"
    (fun s => Schema.required s && Schema.maxlength 100 s) (u_title u)
  ++ Schema.checkSet "description"
       (fun s => Schema.required s && Schema.maxlength 1000 s) (u_description u)
  ++ Schema.checkSet "status" (Schema.oneOf status_enum) (u_status u)
  ++ Schema.checkSet "priority" (Schema.oneOf priority_enum) (u_priority u)
  ++ Schema.checkSet "progress"
       (fun p => JS.leb 0 p && JS.leb p 100) (u_progress u)
  ++ Schema.checkSet "estimatedHours" (JS.leb (1 # 2)) (u_estimatedHours u)
  ++ Schema.checkSet "actualHours" (JS.leb 0) (u_actualHours u)
  ++ Schema.checkSet "deadline" (Z.ltb now) (u_deadline u)
  ++ Schema.checkSet "timeEntries" (forallb TimeEntry.valid) (u_timeEntries u).

(** [$set] of the paths of the update. *)
Definition applyUpdate (u : Update) (a : t) : t :=
  Schema.assign (u_timeEntries u) set_timeEntries
  (Schema.assign (u_completedAt u) set_completedAt
  (Schema.assign (u_deadline u) set_deadline
  (Schema.assign (u_actualHours u) set_actualHours
  (Schema.assign (u_estimatedHours u) set_estimatedHours
  (Schema.assign (u_progress u) set_progress
  (Schema.assign (u_priority u) set_priority
  (Schema.assign (u_status u) set_status
  (Schema.assign (u_assignedBy u) set_assignedBy
  (Schema.assign (u_assignee u) set_assignee
  (Schema.assign (u_project u) set_project
  (Schema.assign (u_description u) set_description
  (Schema.assign (u_title u) set_title a)))))))))))).

(** The virtual [daysUntilDeadline]:
    [Math.ceil((deadline - now) / (1000 * 60 * 60 * 24))]. *)
Definition daysUntilDeadline (now : JS.Date) (a : t) : Z :=
  Qceiling (inject_Z (deadline a - now) / (1000 * 60 * 60 * 24)).

End Assignment.

(** ** models/Project.js

    [technologies], [milestones], [attachments], [isActive] and the
    timestamps are left out. *)

Module TeamMember.

Record t := mk {
  user : JS.ObjectId;
  role : string;
  hoursPerWeek : JS.Number;
}.

(** The validators of one element of [teamMembers]. *)
Definition valid (m : t) : bool :=
  (Schema.required (role m) && JS.leb 1 (hoursPerWeek m)
   && JS.leb (hoursPerWeek m) 60)%bool.

(** The cast of one element of a [teamMembers] array in an update;
    [hoursPerWeek] defaults to 40. *)
Definition cast (v : JS.Value) : Result t :=
  match v with
  | JS.Obj l =>
      match JS.field "user" l, JS.field "role" l with
      | Some u, Some r =>
          let* u' := Schema.castString "teamMembers.user" u in
          let* r' := Schema.castTrimmed "teamMembers.role" r in
          let* h' := match JS.field "hoursPerWeek" l with
                | None => inr 40
                | Some h => Schema.castNumber "teamMembers.hoursPerWeek" h
                end in
          inr (mk u' r' h')
      | _, _ => inl (ValidationError ["teamMembers"])
      end
  | _ => inl (CastError "teamMembers")
  end.

End TeamMember.

Module Project.

Record t := mk {
  _id : JS.ObjectId;
  name : string;
  description : string;
  status : string;
  priority : string;
  progress : JS.Number;
  deadline : JS.Date;
  budget : JS.Number;
  budgetUsed : JS.Number;
  manager : JS.ObjectId;
  teamMembers : list TeamMember.t;
}.

Definition status_enum : list string :=
  ["planning"; "active"; "on-hold"; "completed"; "cancelled"].

Definition set_status (x : string) (p : t) : t :=
  mk (_id p) (name p) (description p) x (priority p) (progress p)
     (deadline p) (budget p) (budgetUsed p) (manager p) (teamMembers p).
Definition set_progress (x : JS.Number) (p : t) : t :=
  mk (_id p) (name p) (description p) (status p) (priority p) x
     (deadline p) (budget p) (budgetUsed p) (manager p) (teamMembers p).

(** [ProjectSchema.pre("save")]. *)
Definition pre_save (p : t) : t :=
  if (JS.eqb (progress p) 100 && negb (String.eqb (status p) "completed"))%bool
  then set_status "completed" p
  else if (JS.gtb (progress p) 0 && String.eqb (status p) "planning")%bool
  then set_status "active" p
  else p.

Definition priority_enum : list string := ["low"; "medium"; "high"; "urgent"].

Definition set_teamMembers (x : list TeamMember.t) (p : t) : t :=
  mk (_id p) (name p) (description p) (status p) (priority p) (progress p)
     (deadline p) (budget p) (budgetUsed p) (manager p) x.

(** The virtuals [teamSize], [budgetRemaining] and [daysUntilDeadline]. *)
Definition teamSize (p : t) : nat := length (teamMembers p).
Definition budgetRemaining (p : t) : JS.Number := budget p - budgetUsed p.
Definition daysUntilDeadline (now : JS.Date) (p : t) : Z :=
  Qceiling (inject_Z (deadline p - now) / (1000 * 60 * 60 * 24)).

(** The validators of the document, run by [save()]. *)
Definition invalid_paths (now : JS.Date) (p : t) : list string :=
  Schema.check "name" (Schema.required (name p) && Schema.maxlength 100 (name p))
  ++ Schema.check "description"
       (Schema.required (description p) && Schema.maxlength 1000 (description p))
  ++ Schema.check "status" (Schema.oneOf status_enum (status p))
  ++ Schema.check "priority" (Schema.oneOf priority_enum (priority p))
  ++ Schema.check "progress" (JS.leb 0 (progress p) && JS.leb (progress p) 100)
  ++ Schema.check "deadline" (Z.ltb now (deadline p))
  ++ Schema.check "budget" (JS.leb 0 (budget p))
  ++ Schema.check "budgetUsed" (JS.leb 0 (budgetUsed p))
  ++ Schema.check "teamMembers" (forallb TeamMember.valid (teamMembers p)).

Definition set_name (x : string) (p : t) : t :=
  mk (_id p) x (description p) (status p) (priority p) (progress p)
     (deadline p) (budget p) (budgetUsed p) (manager p) (teamMembers p).
Definition set_description (x : string) (p : t) : t :=
  mk (_id p) (name p) x (status p) (priority p) (progress p)
     (deadline p) (budget p) (budgetUsed p) (manager p) (teamMembers p).
Definition set_priority (x : string) (p : t) : t :=
  mk (_id p) (name p) (description p) (status p) x (progress p)
     (deadline p) (budget p) (budgetUsed p) (manager p) (teamMembers p).
Definition set_deadline (x : JS.Date) (p : t) : t :=
  mk (_id p) (name p) (description p) (status p) (priority p) (progress p)
     x (budget p) (budgetUsed p) (manager p) (teamMembers p).
Definition set_budget (x : JS.Number) (p : t) : t :=
  mk (_id p) (name p) (description p) (status p) (priority p) (progress p)
     (deadline p) x (budgetUsed p) (manager p) (teamMembers p).
Definition set_budgetUsed (x : JS.Number) (p : t) : t :=
  mk (_id p) (name p) (description p) (status p) (priority p) (progress p)
     (deadline p) (budget p) x (manager p) (teamMembers p).
Definition set_manager (x : JS.ObjectId) (p : t) : t :=
  mk (_id p) (name p) (description p) (status p) (priority p) (progress p)
     (deadline p) (budget p) (budgetUsed p) x (teamMembers p).

(** The update of [findByIdAndUpdate], after the cast. *)
Record Update := mkUpdate {
  u_name : option string;
  u_description : option string;
  u_status : option string;
  u_priority : option string;
  u_progress : option JS.Number;
  u_deadline : option JS.Date;
  u_budget : option JS.Number;
  u_budgetUsed : option JS.Number;
  u_manager : option JS.ObjectId;
  u_teamMembers : option (list TeamMember.t);
}.

(** The cast of an update: the paths of the schema are cast, every other
    key of the update is dropped (strict mode). *)
Definition castUpdate (update : JS.Body) : Result Update :=
  let* x1 := Schema.castPath update "name" Schema.castTrimmed in
  let* x2 := Schema.castPath update "description" Schema.castTrimmed in
  let* x3 := Schema.castPath update "status" Schema.castString in
  let* x4 := Schema.castPath update "priority" Schema.castString in
  let* x5 := Schema.castPath update "progress" Schema.castNumber in
  let* x6 := Schema.castPath update "deadline" Schema.castDate in
  let* x7 := Schema.castPath update "budget" Schema.castNumber in
  let* x8 := Schema.castPath update "budgetUsed" Schema.castNumber in
  let* x9 := Schema.castPath update "manager" Schema.castString in
  let* x10 := Schema.castPath update "teamMembers"
           (fun p => Schema.castArray p TeamMember.cast) in
  inr (mkUpdate x1 x2 x3 x4 x5 x6 x7 x8 x9 x10).

(** The update validators ([runValidators: true]): the validators of the
    paths the update sets. *)
Definition invalid_update (now : JS.Date) (u : Update) : list string :=
  Schema.checkSet "name"
    (fun s => Schema.required s && Schema.maxlength 100 s) (u_name u)
  ++ Schema.checkSet "description"
       (fun s => Schema.required s && Schema.maxlength 1000 s) (u_description u)
  ++ Schema.checkSet "status" (Schema.oneOf status_enum) (u_status u)
  ++ Schema.checkSet "priority" (Schema.oneOf priority_enum) (u_priority u)
  ++ Schema.checkSet "progress"
       (fun p => JS.leb 0 p && JS.leb p 100) (u_progress u)
  ++ Schema.checkSet "deadline" (Z.ltb now) (u_deadline u)
  ++ Schema.checkSet "budget" (JS.leb 0) (u_budget u)
  ++ Schema.checkSet "budgetUsed" (JS.leb 0) (u_budgetUsed u)
  ++ Schema.checkSet "teamMembers" (forallb TeamMember.valid) (u_teamMembers u).

(** [$set] of the paths of the update. *)
Definition applyUpdate (u : Update) (p : t) : t :=
  Schema.assign (u_teamMembers u) set_teamMembers
  (Schema.assign (u_manager u) set_manager
  (Schema.assign (u_budgetUsed u) set_budgetUsed
  (Schema.assign (u_budget u) set_budget
  (Schema.assign (u_deadline u) set_deadline
  (Schema.assign (u_progress u) set_progress
  (Schema.assign (u_priority u) set_priority
  (Schema.assign (u_status u) set_status
  (Schema.assign (u_description u) set_description
  (Schema.assign (u_name u) set_name p))))))))).

End Project.

(** ** models/User.js

    The profile, role and capacity paths.  The e-mail address, the password
    and the login bookkeeping belong to the credential side and are left
    out. *)

Module User.

Record t := mk {
  _id : JS.ObjectId;
  firstName : string;
  lastName : string;
  role : string;
  department : string;
  experienceLevel : string;
  skills : list string;
  hourlyRate : option JS.Number;
  availability : JS.Number;
  location : option string;
  phone : option string;
  utilization : JS.Number;
  efficiency : JS.Number;
  isActive : bool;
}.

Definition role_enum : list string := ["admin"; "manager"; "engineer"].
Definition department_enum : list string :=
  ["Frontend"; "Backend"; "Full Stack"; "DevOps"; "AI/ML"; "Mobile"; "QA";
   "Design"].
Definition experienceLevel_enum : list string :=
  ["junior"; "mid"; "senior"; "lead"; "principal"].

Definition set_firstName (x : string) (u : t) : t :=
  mk (_id u) x (lastName u) (role u) (department u) (experienceLevel u)
     (skills u) (hourlyRate u) (availability u) (location u) (phone u)
     (utilization u) (efficiency u) (isActive u).
Definition set_lastName (x : string) (u : t) : t :=
  mk (_id u) (firstName u) x (role u) (department u) (experienceLevel u)
     (skills u) (hourlyRate u) (availability u) (location u) (phone u)
     (utilization u) (efficiency u) (isActive u).
Definition set_role (x : string) (u : t) : t :=
  mk (_id u) (firstName u) (lastName u) x (department u) (experienceLevel u)
     (skills u) (hourlyRate u) (availability u) (location u) (phone u)
     (utilization u) (efficiency u) (isActive u).
Definition set_department (x : string) (u : t) : t :=
  mk (_id u) (firstName u) (lastName u) (role u) x (experienceLevel u)
     (skills u) (hourlyRate u) (availability u) (location u) (phone u)
     (utilization u) (efficiency u) (isActive u).
Definition set_experienceLevel (x : string) (u : t) : t :=
  mk (_id u) (firstName u) (lastName u) (role u) (department u) x
     (skills u) (hourlyRate u) (availability u) (location u) (phone u)
     (utilization u) (efficiency u) (isActive u).
Definition set_skills (x : list string) (u : t) : t :=
  mk (_id u) (firstName u) (lastName u) (role u) (department u)
     (experienceLevel u) x (hourlyRate u) (availability u) (location u)
     (phone u) (utilization u) (efficiency u) (isActive u).
Definition set_hourlyRate (x : JS.Number) (u : t) : t :=
  mk (_id u) (firstName u) (lastName u) (role u) (department u)
     (experienceLevel u) (skills u) (Some x) (availability u) (location u)
     (phone u) (utilization u) (efficiency u) (isActive u).
Definition set_availability (x : JS.Number) (u : t) : t :=
  mk (_id u) (firstName u) (lastName u) (role u) (department u)
     (experienceLevel u) (skills u) (hourlyRate u) x (location u)
     (phone u) (utilization u) (efficiency u) (isActive u).
Definition set_location (x : string) (u : t) : t :=
  mk (_id u) (firstName u) (lastName u) (role u) (department u)
     (experienceLevel u) (skills u) (hourlyRate u) (availability u) (Some x)
     (phone u) (utilization u) (efficiency u) (isActive u).
Definition set_phone (x : string) (u : t) : t :=
  mk (_id u) (firstName u) (lastName u) (role u) (department u)
     (experienceLevel u) (skills u) (hourlyRate u) (availability u)
     (location u) (Some x) (utilization u) (efficiency u) (isActive u).
Definition set_utilization (x : JS.Number) (u : t) : t :=
  mk (_id u) (firstName u) (lastName u) (role u) (department u)
     (experienceLevel u) (skills u) (hourlyRate u) (availability u)
     (location u) (phone u) x (efficiency u) (isActive u).
Definition set_efficiency (x : JS.Number) (u : t) : t :=
  mk (_id u) (firstName u) (lastName u) (role u) (department u)
     (experienceLevel u) (skills u) (hourlyRate u) (availability u)
     (location u) (phone u) (utilization u) x (isActive u).
Definition set_isActive (x : bool) (u : t) : t :=
  mk (_id u) (firstName u) (lastName u) (role u) (department u)
     (experienceLevel u) (skills u) (hourlyRate u) (availability u)
     (location u) (phone u) (utilization u) (efficiency u) x.

(** The paths that neither self-update route writes. *)
Definition protected (u : t) :=
  (_id u, role u, hourlyRate u, utilization u, efficiency u, isActive u).

(** The [match] of [phone]: [/^[+]?[1-9][\d]{0,15}$/]. *)
Definition is_digit (c : ascii) : bool :=
  let n := nat_of_ascii c in (Nat.leb 48 n && Nat.leb n 57)%bool.

Definition phone_digits (s : string) : bool :=
  match s with
  | String c r =>
      (is_digit c && negb (Ascii.eqb c "0")
       && forallb is_digit (String.list_ascii_of_string r)
       && Nat.leb (String.length r) 15)%bool
  | EmptyString => false
  end.

Definition phone_match (s : string) : bool :=
  match s with
  | String "+" r => phone_digits r
  | _ => phone_digits s
  end.

Definition valid_name (s : string) : bool :=
  (Schema.required s && Schema.maxlength 50 s)%bool.
Definition valid_availability (x : JS.Number) : bool :=
  (JS.leb 1 x && JS.leb x 60)%bool.
Definition valid_percent (x : JS.Number) : bool :=
  (JS.leb 0 x && JS.leb x 100)%bool.

(** The validators of the document, run by [save()]. *)
Definition invalid_paths (u : t) : list string :=
  Schema.check "firstName" (valid_name (firstName u))
  ++ Schema.check "lastName" (valid_name (lastName u))
  ++ Schema.check "role" (Schema.oneOf role_enum (role u))
  ++ Schema.check "department" (Schema.oneOf department_enum (department u))
  ++ Schema.check "experienceLevel"
       (Schema.oneOf experienceLevel_enum (experienceLevel u))
  ++ Schema.checkSet "hourlyRate" (JS.leb 0) (hourlyRate u)
  ++ Schema.check "availability" (valid_availability (availability u))
  ++ Schema.checkSet "location" (Schema.maxlength 100) (location u)
  ++ Schema.checkSet "phone" phone_match (phone u)
  ++ Schema.check "utilization" (valid_percent (utilization u))
  ++ Schema.check "efficiency" (valid_percent (efficiency u)).

(** The update of [findByIdAndUpdate], after the cast. *)
Record Update := mkUpdate {
  u_firstName : option string;
  u_lastName : option string;
  u_role : option string;
  u_department : option string;
  u_experienceLevel : option string;
  u_skills : option (list string);
  u_hourlyRate : option JS.Number;
  u_availability : option JS.Number;
  u_location : option string;
  u_phone : option string;
  u_utilization : option JS.Number;
  u_efficiency : option JS.Number;
  u_isActive : option bool;
}.

Definition castUpdate (update : JS.Body) : Result Update :=
  let* x1 := Schema.castPath update "firstName" Schema.castTrimmed in
  let* x2 := Schema.castPath update "lastName" Schema.castTrimmed in
  let* x3 := Schema.castPath update "role" Schema.castString in
  let* x4 := Schema.castPath update "department" Schema.castString in
  let* x5 := Schema.castPath update "experienceLevel" Schema.castString in
  let* x6 := Schema.castPath update "skills"
           (fun p => Schema.castArray p (Schema.castTrimmed p)) in
  let* x7 := Schema.castPath update "hourlyRate" Schema.castNumber in
  let* x8 := Schema.castPath update "availability" Schema.castNumber in
  let* x9 := Schema.castPath update "location" Schema.castTrimmed in
  let* x10 := Schema.castPath update "phone" Schema.castTrimmed in
  let* x11 := Schema.castPath update "utilization" Schema.castNumber in
  let* x12 := Schema.castPath update "efficiency" Schema.castNumber in
  let* x13 := Schema.castPath update "isActive" Schema.castBoolean in
  inr (mkUpdate x1 x2 x3 x4 x5 x6 x7 x8 x9 x10 x11 x12 x13).

(** The update validators ([runValidators: true]). *)
Definition invalid_update (u : Update) : list string :=
  Schema.checkSet "firstName" valid_name (u_firstName u)
  ++ Schema.checkSet "lastName" valid_name (u_lastName u)
  ++ Schema.checkSet "role" (Schema.oneOf role_enum) (u_role u)
  ++ Schema.checkSet "department" (Schema.oneOf department_enum) (u_department u)
  ++ Schema.checkSet "experienceLevel"
       (Schema.oneOf experienceLevel_enum) (u_experienceLevel u)
  ++ Schema.checkSet "hourlyRate" (JS.leb 0) (u_hourlyRate u)
  ++ Schema.checkSet "availability" valid_availability (u_availability u)
  ++ Schema.checkSet "location" (Schema.maxlength 100) (u_location u)
  ++ Schema.checkSet "phone" phone_match (u_phone u)
  ++ Schema.checkSet "utilization" valid_percent (u_utilization u)
  ++ Schema.checkSet "efficiency" valid_percent (u_efficiency u).

Definition applyUpdate (u : Update) (d : t) : t :=
  Schema.assign (u_isActive u) set_isActive
  (Schema.assign (u_efficiency u) set_efficiency
  (Schema.assign (u_utilization u) set_utilization
  (Schema.assign (u_phone u) set_phone
  (Schema.assign (u_location u) set_location
  (Schema.assign (u_availability u) set_availability
  (Schema.assign (u_hourlyRate u) set_hourlyRate
  (Schema.assign (u_skills u) set_skills
  (Schema.assign (u_experienceLevel u) set_experienceLevel
  (Schema.assign (u_department u) set_department
  (Schema.assign (u_role u) set_role
  (Schema.assign (u_lastName u) set_lastName
  (Schema.assign (u_firstName u) set_firstName d)))))))))))).

End User.

(** ** The collections and the Mongoose operations on them *)

Record Store := mkStore {
  users : list User.t;
  projects : list Project.t;
  assignments : list Assignment.t;
}.

Definition with_users (us : list User.t) (s : Store) : Store :=
  mkStore us (projects s) (assignments s).
Definition with_projects (ps : list Project.t) (s : Store) : Store :=
  mkStore (users s) ps (assignments s).
Definition with_assignments (xs : list Assignment.t) (s : Store) : Store :=
  mkStore (users s) (projects s) xs.

Module Db.

Section Collection.
Context {A : Type} (id_of : A -> JS.ObjectId).

(** [Model.findById(id)]. *)
Definition findById (id : JS.ObjectId) (l : list A) : option A :=
  List.find (fun d => String.eqb (id_of d) id) l.

(** The write of a document over the stored one with its [_id]. *)
Fixpoint replaceOne (d : A) (l : list A) : list A :=
  match l with
  | [] => []
  | x :: r =>
      if String.eqb (id_of x) (id_of d) then d :: r else x :: replaceOne d r
  end.

End Collection.

(** [Model.updateMany(filter, update)] and [Model.countDocuments(filter)]. *)
Definition updateMany {A} (f : A -> bool) (set : A -> A) (l : list A) : list A :=
  map (fun d => if f d then set d else d) l.

Definition countDocuments {A} (f : A -> bool) (l : list A) : nat :=
  length (List.filter f l).

(** [Model.findByIdAndDelete(id)]: the document with the [_id] goes. *)
Fixpoint deleteOne {A} (id_of : A -> JS.ObjectId) (id : JS.ObjectId)
    (l : list A) : list A :=
  match l with
  | [] => []
  | x :: r => if String.eqb (id_of x) id then r else x :: deleteOne id_of id r
  end.

(** [Model.deleteMany(filter)]. *)
Definition deleteMany {A} (f : A -> bool) (l : list A) : list A :=
  List.filter (fun d => negb (f d)) l.

(** The write of a new document. *)
Definition insert {A} (d : A) (l : list A) : list A := l ++ [d].

End Db.

Module Models.

(** [Assignment.find({ project: id })]. *)
Definition Assignment_find_project (id : JS.ObjectId) (s : Store)
  : list Assignment.t :=
  List.filter (fun a => String.eqb (Assignment.project a) id) (assignments s).

(** [project.save({ validateBeforeSave: false })]. *)
Definition Project_save_unvalidated (p : Project.t) (s : Store) : Store :=
  with_projects (Db.replaceOne Project._id (Project.pre_save p) (projects s)) s.

(** [ProjectSchema.methods.updateProgress], on the document [p]. *)
Definition Project_updateProgress (p : Project.t) (s : Store) : Store :=
  let assignments := Assignment_find_project (Project._id p) s in
  let p' :=
    if Nat.eqb (length assignments) 0 then Project.set_progress 0 p
    else
      let totalProgress :=
        foldl (fun sum assignment => sum + Assignment.progress assignment)
              0 assignments in
      Project.set_progress
        (inject_Z (JS.Math_round
                     (totalProgress / inject_Z (Z.of_nat (length assignments)))))
        p in
  Project_save_unvalidated p' s.

(** [AssignmentSchema.post("save")]. *)
Definition Assignment_post_save (a : Assignment.t) (s : Store) : Store :=
  match Db.findById Project._id (Assignment.project a) (projects s) with
  | Some project => Project_updateProgress project s
  | None => s
  end.

(** The part of [assignment.save()] after the validation: [pre("save")],
    the write, [post("save")]. *)
Definition Assignment_write (now : JS.Date) (modifiedTimeEntries : bool)
    (a : Assignment.t) (s : Store) : Assignment.t * Store :=
  let a' := Assignment.pre_save now modifiedTimeEntries a in
  let s' :=
    with_assignments (Db.replaceOne Assignment._id a' (assignments s)) s in
  (a', Assignment_post_save a' s').

(** [assignment.save()]: the saved document and the new collections. *)
Definition Assignment_save (now : JS.Date) (modifiedTimeEntries : bool)
    (a : Assignment.t) (s : Store) : Result (Assignment.t * Store) :=
  match Assignment.invalid_paths now a with
  | [] => inr (Assignment_write now modifiedTimeEntries a s)
  | paths => inl (ValidationError paths)
  end.

(** [Assignment.findByIdAndUpdate(id, update, { new: true,
    runValidators: true })]. *)
Definition Assignment_findByIdAndUpdate (now : JS.Date) (id : JS.ObjectId)
    (update : JS.Body) (s : Store) : Result (option Assignment.t * Store) :=
  let* u := Assignment.castUpdate update in
  match Assignment.invalid_update now u with
  | [] =>
      match Db.findById Assignment._id id (assignments s) with
      | Some a =>
          let a' := Assignment.applyUpdate u a in
          inr (Some a',
               with_assignments
                 (Db.replaceOne Assignment._id a' (assignments s)) s)
      | None => inr (None, s)
      end
  | paths => inl (ValidationError paths)
  end.

(** [Project.findByIdAndUpdate(id, { progress })], without validators. *)
Definition Project_findByIdAndUpdate_progress (id : JS.ObjectId)
    (progress : JS.Number) (s : Store) : Store :=
  match Db.findById Project._id id (projects s) with
  | Some p =>
      with_projects
        (Db.replaceOne Project._id (Project.set_progress progress p)
           (projects s)) s
  | None => s
  end.

(** [user.save()]. *)
Definition User_save (u : User.t) (s : Store) : Result Store :=
  match User.invalid_paths u with
  | [] => inr (with_users (Db.replaceOne User._id u (users s)) s)
  | paths => inl (ValidationError paths)
  end.

(** [User.findByIdAndUpdate(id, update, { new: true, runValidators: true })]. *)
Definition User_findByIdAndUpdate (id : JS.ObjectId) (update : JS.Body)
    (s : Store) : Result (option User.t * Store) :=
  let* u := User.castUpdate update in
  match User.invalid_update u with
  | [] =>
      match Db.findById User._id id (users s) with
      | Some d =>
          let d' := User.applyUpdate u d in
          inr (Some d', with_users (Db.replaceOne User._id d' (users s)) s)
      | None => inr (None, s)
      end
  | paths => inl (ValidationError paths)
  end.

(** [User.findOne({ _id: id, role: "engineer", isActive: true })]. *)
Definition User_findEngineer (id : JS.ObjectId) (s : Store) : option User.t :=
  List.find
    (fun u => String.eqb (User._id u) id && String.eqb (User.role u) "engineer"
              && User.isActive u)%bool
    (users s).

(** [project.save()]: validation, [pre("save")], the write. *)
Definition Project_save (now : JS.Date) (p : Project.t) (s : Store)
  : Result (Project.t * Store) :=
  match Project.invalid_paths now p with
  | [] =>
      let p' := Project.pre_save p in
      inr (p', with_projects (Db.replaceOne Project._id p' (projects s)) s)
  | paths => inl (ValidationError paths)
  end.

(** [Assignment.create(doc)]: the save of a new document. *)
Definition Assignment_create (now : JS.Date) (a : Assignment.t) (s : Store)
  : Result (Assignment.t * Store) :=
  match Assignment.invalid_paths now a with
  | [] =>
      let a' := Assignment.pre_save now true a in
      inr (a', Assignment_post_save a'
                 (with_assignments (Db.insert a' (assignments s)) s))
  | paths => inl (ValidationError paths)
  end.

(** [Project.findByIdAndUpdate(id, update, { new: true,
    runValidators: true })]. *)
Definition Project_findByIdAndUpdate (now : JS.Date) (id : JS.ObjectId)
    (update : JS.Body) (s : Store) : Result (option Project.t * Store) :=
  let* u := Project.castUpdate update in
  match Project.invalid_update now u with
  | [] =>
      match Db.findById Project._id id (projects s) with
      | Some p =>
          let p' := Project.applyUpdate u p in
          inr (Some p',
               with_projects (Db.replaceOne Project._id p' (projects s)) s)
      | None => inr (None, s)
      end
  | paths => inl (ValidationError paths)
  end.

(** [Project.create(doc)]: the save of a new document. *)
Definition Project_create (now : JS.Date) (p : Project.t) (s : Store)
  : Result (Project.t * Store) :=
  match Project.invalid_paths now p with
  | [] =>
      let p' := Project.pre_save p in
      inr (p', with_projects (Db.insert p' (projects s)) s)
  | paths => inl (ValidationError paths)
  end.

End Models.

(** ** routes/assignments.js *)

Module AssignmentsRoutes.

(** [GET /api/assignments/:id]. *)
Definition get_by_id (caller : Caller) (id : JS.ObjectId) (s : Store)
  : Response Assignment.t :=
  match Db.findById Assignment._id id (assignments s) with
  | None => fail 404 "Assignment not found"
  | Some assignment =>
      if String.eqb (caller_role caller) "engineer" then
        (* [assignment.assignee] is populated: [null] when the user is gone *)
        match Db.findById User._id (Assignment.assignee assignment) (users s) with
        | None => server_error
        | Some assignee =>
            if negb (String.eqb (User._id assignee) (caller_id caller))
            then fail 403 "Not authorized to access this assignment"
            else ok 200 "" assignment
        end
      else ok 200 "" assignment
  end.

(** The cascade of [PUT /api/assignments/:id] on the populated project of
    the updated assignment. *)
Definition update_project_progress (assignment : Assignment.t) (s : Store)
  : Store :=
  match Db.findById Project._id (Assignment.project assignment) (projects s) with
  | None => s
  | Some project =>
      let projectId := Project._id project in
      let assignments := Models.Assignment_find_project projectId s in
      let totalProgress :=
        foldl (fun sum a => sum + JS.or_zero (Assignment.progress a))
              0 assignments in
      let averageProgress :=
        if Nat.ltb 0 (length assignments)
        then inject_Z (JS.Math_round
                         (totalProgress / inject_Z (Z.of_nat (length assignments))))
        else 0 in
      Models.Project_findByIdAndUpdate_progress projectId averageProgress s
  end.

Definition allowedFields : list string := ["progress"; "status"; "actualHours"].

(** [PUT /api/assignments/:id]. *)
Definition put (now : JS.Date) (caller : Caller) (id : JS.ObjectId)
    (body : JS.Body) (s : Store) : Response Assignment.t * Store :=
  match Db.findById Assignment._id id (assignments s) with
  | None => (fail 404 "Assignment not found", s)
  | Some assignment =>
      let canUpdate :=
        (String.eqb (caller_role caller) "admin"
         || String.eqb (Assignment.assignedBy assignment) (caller_id caller)
         || String.eqb (Assignment.assignee assignment) (caller_id caller))%bool in
      if negb canUpdate
      then (fail 403 "Not authorized to update this assignment", s)
      else
        let updateFields :=
          if String.eqb (caller_role caller) "engineer"
          then JS.pick allowedFields body
          else body in
        match Models.Assignment_findByIdAndUpdate now id updateFields s with
        | inl e => (on_error e, s)
        | inr (None, s') => (server_error, s')
        | inr (Some assignment', s') =>
            (ok 200 "Assignment updated successfully" assignment',
             update_project_progress assignment' s')
        end
  end.

(** [new Date(date)] and [Number.parseFloat(hours)] on the values of the
    body. *)
Definition toDate (v : option JS.Value) : Result JS.Date :=
  match v with
  | Some v => Schema.castDate "timeEntries.date" v
  | None => inl (CastError "timeEntries.date")
  end.

Definition parseFloat (v : option JS.Value) : Result JS.Number :=
  match v with
  | Some v => Schema.castNumber "timeEntries.hours" v
  | None => inl (CastError "timeEntries.hours")
  end.

(** [description || ""]. *)
Definition description_or_empty (v : option JS.Value) : Result string :=
  if JS.truthy v then
    match v with
    | Some v => Schema.castTrimmed "timeEntries.description" v
    | None => inr ""
    end
  else inr "".

(** [POST /api/assignments/:id/time-entries]. *)
Definition post_time_entries (now : JS.Date) (caller : Caller)
    (id : JS.ObjectId) (body : JS.Body) (s : Store)
  : Response (list TimeEntry.t) * Store :=
  let date := body !! "date" in
  let hours := body !! "hours" in
  let description := body !! "description" in
  if (negb (JS.truthy date) || negb (JS.truthy hours))%bool
  then (fail 400 "Date and hours are required", s)
  else
    match Db.findById Assignment._id id (assignments s) with
    | None => (fail 404 "Assignment not found", s)
    | Some assignment =>
        if negb (String.eqb (Assignment.assignee assignment) (caller_id caller))
        then (fail 403 "Only the assignee can log time for this assignment", s)
        else
          let saved :=
            let* d := toDate date in
            let* h := parseFloat hours in
            let* t := description_or_empty description in
            Models.Assignment_save now true
              (Assignment.set_timeEntries
                 (Assignment.timeEntries assignment ++ [TimeEntry.mk d h t])
                 assignment) s in
          match saved with
          | inl _ => (server_error, s)
          | inr (assignment', s') =>
              (ok 201 "Time entry added successfully"
                  (Assignment.timeEntries assignment'), s')
          end
    end.

(** [req.query] of the list routes: the filters the request may carry. *)
Record ListQuery := mkListQuery {
  q_status : option string;
  q_project : option string;
  q_assignee : option string;
}.

(** [if (req.query.k)]. *)
Definition given (v : option string) : bool :=
  match v with
  | Some x => negb (String.eqb x "")
  | None => false
  end.

(** The [project] condition of a query: [{ $in: ids }] or one id. *)
Inductive ProjectFilter :=
| InProjects (ids : list JS.ObjectId)
| IsProject (id : JS.ObjectId).

(** The [query] object of [GET /api/assignments]. *)
Record Query := mkQuery {
  query_assignee : option JS.ObjectId;
  query_project : option ProjectFilter;
  query_status : option string;
}.

(** [Project.find({ manager: id }).map(p => p._id)]. *)
Definition managedProjects (id : JS.ObjectId) (s : Store) : list JS.ObjectId :=
  map Project._id
    (List.filter (fun p => String.eqb (Project.manager p) id) (projects s)).

(** The query [GET /api/assignments] builds: the scope of the role first,
    then the filters of the request, each overwriting the condition on its
    path. *)
Definition build_query (caller : Caller) (rq : ListQuery) (s : Store) : Query :=
  let assignee0 :=
    if String.eqb (caller_role caller) "engineer"
    then Some (caller_id caller) else None in
  let project0 :=
    if String.eqb (caller_role caller) "manager"
    then Some (InProjects (managedProjects (caller_id caller) s)) else None in
  mkQuery
    (if given (q_assignee rq) then q_assignee rq else assignee0)
    (if given (q_project rq) then IsProject <$> q_project rq else project0)
    (if given (q_status rq) then q_status rq else None).

(** Whether a document satisfies the query. *)
Definition matches (q : Query) (a : Assignment.t) : bool :=
  (match query_assignee q with
   | Some id => String.eqb (Assignment.assignee a) id
   | None => true
   end
   && match query_project q with
      | Some (InProjects ids) => existsb (String.eqb (Assignment.project a)) ids
      | Some (IsProject id) => String.eqb (Assignment.project a) id
      | None => true
      end
   && match query_status q with
      | Some st => String.eqb (Assignment.status a) st
      | None => true
      end)%bool.

(** [GET /api/assignments]: the documents of the answer.  The answer lists
    them by creation time, which the documents here do not carry; they are
    given in stored order. *)
Definition get_list (caller : Caller) (rq : ListQuery) (s : Store)
  : Response (list Assignment.t) :=
  ok 200 "" (List.filter (matches (build_query caller rq s)) (assignments s)).

(** [DELETE /api/assignments/:id]. *)
Definition delete_assignment (caller : Caller) (id : JS.ObjectId) (s : Store)
  : Response unit * Store :=
  match Db.findById Assignment._id id (assignments s) with
  | None => (fail 404 "Assignment not found", s)
  | Some assignment =>
      let denied : option bool :=
        if String.eqb (caller_role caller) "manager" then
          match Db.findById Project._id (Assignment.project assignment)
                  (projects s) with
          | None => None
          | Some project =>
              Some (negb (String.eqb (Project.manager project) (caller_id caller)))
          end
        else Some false in
      match denied with
      | None => (server_error, s)
      | Some true =>
          (fail 403 "You can only delete assignments from projects you manage", s)
      | Some false =>
          (mkResponse 200 true "Assignment deleted successfully" None,
           with_assignments (Db.deleteOne Assignment._id id (assignments s)) s)
      end
  end.

(** The document [POST /api/assignments] hands to [Assignment.create]: the
    values of the body on their paths and the defaults of the schema on the
    others; [None] when a value does not cast or a required number or date
    is missing.  [fresh] is the [_id] the driver generates. *)
Definition new_assignment (fresh : JS.ObjectId) (caller : Caller)
    (project assignee : JS.ObjectId) (body : JS.Body) : option Assignment.t :=
  let text k :=
    match body !! k with
    | None => Some ""
    | Some (JS.Str x) => Some (JS.trim x)
    | Some _ => None
    end in
  let priority :=
    if JS.truthy (body !! "priority") then
      match body !! "priority" with
      | Some (JS.Str x) => Some x
      | _ => None
      end
    else Some "medium" in
  match text "title", text "description", priority,
        body !! "estimatedHours", body !! "deadline" with
  | Some title, Some description, Some priority,
    Some (JS.Num estimatedHours), Some (JS.Num deadline) =>
      Some (Assignment.mk fresh title description project assignee
              (caller_id caller) "active" priority 0 estimatedHours 0
              (if JS.leb 0 deadline then Qfloor deadline else Qceiling deadline)
              None [])
  | _, _, _, _, _ => None
  end.

(** The [_id] in [body[k]], as [findById] takes it. *)
Definition body_id (body : JS.Body) (k : string) : Result (option JS.ObjectId) :=
  match body !! k with
  | None | Some JS.Null => inr None
  | Some (JS.Str id) => inr (Some id)
  | Some _ => inl (CastError k)
  end.

(** [POST /api/assignments]. *)
Definition post (now : JS.Date) (fresh : JS.ObjectId) (caller : Caller)
    (body : JS.Body) (s : Store) : Response Assignment.t * Store :=
  match body_id body "project" with
  | inl _ => (server_error, s)
  | inr project =>
      match project ≫= fun id => Db.findById Project._id id (projects s) with
      | None => (fail 404 "Project not found", s)
      | Some projectExists =>
          match body_id body "assignee" with
          | inl _ => (server_error, s)
          | inr assignee =>
              match assignee ≫= fun id => Db.findById User._id id (users s) with
              | None => (fail 404 "Assignee not found", s)
              | Some assigneeUser =>
                  if (String.eqb (caller_role caller) "manager"
                      && negb (String.eqb (Project.manager projectExists)
                                 (caller_id caller)))%bool
                  then
                    (fail 403
                       "You can only create assignments for projects you manage",
                     s)
                  else
                    match new_assignment fresh caller (Project._id projectExists)
                            (User._id assigneeUser) body with
                    | None => (fail 400 "Validation error", s)
                    | Some doc =>
                        match Models.Assignment_create now doc s with
                        | inl e => (on_error e, s)
                        | inr (assignment, s') =>
                            (ok 201 "Assignment created successfully" assignment,
                             s')
                        end
                    end
              end
          end
      end
  end.

(** [POST /api/assignments/:id/comments].  The documents here do not keep
    the comments, so the answer, which lists them, carries no data; the
    stored comments are taken to be valid.  The save is the one of the
    document with the comment pushed: [timeEntries] is not modified. *)
Definition post_comment (now : JS.Date) (caller : Caller) (id : JS.ObjectId)
    (body : JS.Body) (s : Store) : Response unit * Store :=
  let text := body !! "text" in
  if negb (JS.truthy text)
  then (fail 400 "Comment text is required", s)
  else
    match text with
    | Some (JS.Str text) =>
        if Nat.eqb (String.length (JS.trim text)) 0
        then (fail 400 "Comment text is required", s)
        else
          match Db.findById Assignment._id id (assignments s) with
          | None => (fail 404 "Assignment not found", s)
          | Some assignment =>
              if (String.eqb (caller_role caller) "engineer"
                  && negb (String.eqb (Assignment.assignee assignment)
                             (caller_id caller)))%bool
              then (fail 403 "Not authorized to comment on this assignment", s)
              else
                let saved :=
                  if Schema.maxlength 500 (JS.trim text)
                  then Models.Assignment_save now false assignment s
                  else inl (ValidationError ["comments.text"]) in
                match saved with
                | inl _ => (server_error, s)
                | inr (_, s') =>
                    (mkResponse 201 true "Comment added successfully" None, s')
                end
          end
    | _ => (server_error, s)   (* [text.trim] is not a function *)
    end.

(** The [$group] stage of [GET /api/assignments/stats/overview]. *)
Record Overview := mkOverview {
  totalAssignments : nat;
  activeAssignments : nat;
  completedAssignments : nat;
  totalEstimatedHours : JS.Number;
  totalActualHours : JS.Number;
  averageProgress : JS.Number;
}.

(** [{ $sum: "$path" }] and [{ $avg: "$path" }] over the matched
    documents. *)
Definition sum_of {A} (f : A -> JS.Number) (l : list A) : JS.Number :=
  foldl (fun acc d => acc + f d) 0 l.

Definition avg_of {A} (f : A -> JS.Number) (l : list A) : JS.Number :=
  sum_of f l / inject_Z (Z.of_nat (length l)).

(** The [matchQuery] of the statistics: the scope of the role. *)
Definition stats_query (caller : Caller) (s : Store) : Query :=
  if String.eqb (caller_role caller) "engineer"
  then mkQuery (Some (caller_id caller)) None None
  else if String.eqb (caller_role caller) "manager"
  then mkQuery None (Some (InProjects (managedProjects (caller_id caller) s)))
         None
  else mkQuery None None None.

(** [Assignment.aggregate([{ $match }, { $group: { _id: null, ... } }])]:
    one group, or none when nothing matches. *)
Definition aggregate (l : list Assignment.t) : option Overview :=
  match l with
  | [] => None
  | _ =>
      Some (mkOverview
              (length l)
              (Db.countDocuments
                 (fun a => String.eqb (Assignment.status a) "active") l)
              (Db.countDocuments
                 (fun a => String.eqb (Assignment.status a) "completed") l)
              (sum_of Assignment.estimatedHours l)
              (sum_of Assignment.actualHours l)
              (avg_of Assignment.progress l))
  end.

(** [GET /api/assignments/stats/overview]. *)
Definition get_stats (caller : Caller) (s : Store) : Response Overview :=
  let stats :=
    aggregate (List.filter (matches (stats_query caller s)) (assignments s)) in
  ok 200 ""
    match stats with
    | Some result => result
    | None => mkOverview 0 0 0 0 0 0
    end.

End AssignmentsRoutes.

(** ** routes/projects.js *)

Module ProjectsRoutes.

(** [project.teamMembers.some(member => member.user._id.toString() ===
    req.user.id)] over the populated members; [None] is the [TypeError] on
    a member whose user is gone. *)
Fixpoint isTeamMember (us : list User.t) (uid : JS.ObjectId)
    (members : list TeamMember.t) : option bool :=
  match members with
  | [] => Some false
  | member :: rest =>
      match Db.findById User._id (TeamMember.user member) us with
      | None => None
      | Some u =>
          if String.eqb (User._id u) uid then Some true
          else isTeamMember us uid rest
      end
  end.

(** [GET /api/projects/:id]. *)
Definition get_by_id (caller : Caller) (id : JS.ObjectId) (s : Store)
  : Response Project.t :=
  match Db.findById Project._id id (projects s) with
  | None => fail 404 "Project not found"
  | Some project =>
      let denied : option bool :=
        if String.eqb (caller_role caller) "manager" then
          match Db.findById User._id (Project.manager project) (users s) with
          | None => None
          | Some m => Some (negb (String.eqb (User._id m) (caller_id caller)))
          end
        else Some false in
      match denied with
      | None => server_error
      | Some true => fail 403 "Not authorized to access this project"
      | Some false =>
          if String.eqb (caller_role caller) "engineer" then
            match isTeamMember (users s) (caller_id caller)
                    (Project.teamMembers project) with
            | None => server_error
            | Some false => fail 403 "Not authorized to access this project"
            | Some true => ok 200 "" project
            end
          else ok 200 "" project
      end
  end.

(** [Assignment.find({ assignee: id }).distinct("project")]. *)
Definition assignedProjects (id : JS.ObjectId) (s : Store) : list JS.ObjectId :=
  remove_dups
    (map Assignment.project
       (List.filter (fun a => String.eqb (Assignment.assignee a) id)
          (assignments s))).

(** The [query] object of [GET /api/projects]. *)
Record Query := mkQuery {
  query_manager : option JS.ObjectId;
  query_id : option (list JS.ObjectId);
  query_status : option string;
}.

Definition build_query (caller : Caller) (status : option string) (s : Store)
  : Query :=
  mkQuery
    (if String.eqb (caller_role caller) "manager"
     then Some (caller_id caller) else None)
    (if String.eqb (caller_role caller) "engineer"
     then Some (assignedProjects (caller_id caller) s) else None)
    (if AssignmentsRoutes.given status then status else None).

Definition matches (q : Query) (p : Project.t) : bool :=
  (match query_manager q with
   | Some id => String.eqb (Project.manager p) id
   | None => true
   end
   && match query_id q with
      | Some ids => existsb (String.eqb (Project._id p)) ids
      | None => true
      end
   && match query_status q with
      | Some st => String.eqb (Project.status p) st
      | None => true
      end)%bool.

(** [GET /api/projects]: the documents of the answer, in stored order (the
    answer lists them by creation time). *)
Definition get_list (caller : Caller) (status : option string) (s : Store)
  : Response (list Project.t) :=
  ok 200 "" (List.filter (matches (build_query caller status s)) (projects s)).

(** The check shared by the writing routes: a manager may only touch the
    projects they manage. *)
Definition not_own (caller : Caller) (project : Project.t) : bool :=
  (String.eqb (caller_role caller) "manager"
   && negb (String.eqb (Project.manager project) (caller_id caller)))%bool.

(** [DELETE /api/projects/:id]. *)
Definition delete_project (caller : Caller) (id : JS.ObjectId) (s : Store)
  : Response unit * Store :=
  match Db.findById Project._id id (projects s) with
  | None => (fail 404 "Project not found", s)
  | Some project =>
      if not_own caller project
      then (fail 403 "You can only delete projects you manage", s)
      else
        (mkResponse 200 true
           "Project and related assignments deleted successfully" None,
         with_projects (Db.deleteOne Project._id id (projects s))
           (with_assignments
              (Db.deleteMany (fun a => String.eqb (Assignment.project a) id)
                 (assignments s)) s))
  end.

(** The member [POST /api/projects/:id/team-members] pushes:
    [{ user: userId, role, hoursPerWeek: hoursPerWeek || 40 }]. *)
Definition new_member (body : JS.Body) : Result TeamMember.t :=
  let* user :=
    match body !! "userId" with
    | Some v => Schema.castString "teamMembers.user" v
    | None => inl (ValidationError ["teamMembers.user"])
    end in
  let* role :=
    match body !! "role" with
    | Some v => Schema.castTrimmed "teamMembers.role" v
    | None => inl (ValidationError ["teamMembers.role"])
    end in
  let* hoursPerWeek :=
    if JS.truthy (body !! "hoursPerWeek") then
      match body !! "hoursPerWeek" with
      | Some v => Schema.castNumber "teamMembers.hoursPerWeek" v
      | None => inr 40
      end
    else inr 40 in
  inr (TeamMember.mk user role hoursPerWeek).

(** [project.teamMembers.find(member => member.user.toString() === userId)]. *)
Definition existingMember (body : JS.Body) (project : Project.t) : bool :=
  match body !! "userId" with
  | Some (JS.Str userId) =>
      existsb (fun member => String.eqb (TeamMember.user member) userId)
        (Project.teamMembers project)
  | _ => false
  end.

(** [POST /api/projects/:id/team-members]. *)
Definition add_team_member (now : JS.Date) (caller : Caller) (id : JS.ObjectId)
    (body : JS.Body) (s : Store) : Response (list TeamMember.t) * Store :=
  match Db.findById Project._id id (projects s) with
  | None => (fail 404 "Project not found", s)
  | Some project =>
      if not_own caller project
      then (fail 403 "You can only modify projects you manage", s)
      else if existingMember body project
      then (fail 400 "User is already a team member", s)
      else
        let saved :=
          let* member := new_member body in
          Models.Project_save now
            (Project.set_teamMembers (Project.teamMembers project ++ [member])
               project) s in
        match saved with
        | inl _ => (server_error, s)
        | inr (project', s') =>
            (ok 200 "Team member added successfully"
                (Project.teamMembers project'), s')
        end
  end.

(** [DELETE /api/projects/:id/team-members/:userId]. *)
Definition remove_team_member (now : JS.Date) (caller : Caller)
    (id userId : JS.ObjectId) (s : Store)
  : Response (list TeamMember.t) * Store :=
  match Db.findById Project._id id (projects s) with
  | None => (fail 404 "Project not found", s)
  | Some project =>
      if not_own caller project
      then (fail 403 "You can only modify projects you manage", s)
      else
        match Models.Project_save now
                (Project.set_teamMembers
                   (List.filter
                      (fun member =>
                         negb (String.eqb (TeamMember.user member) userId))
                      (Project.teamMembers project))
                   project) s with
        | inl _ => (server_error, s)
        | inr (project', s') =>
            (ok 200 "Team member removed successfully"
                (Project.teamMembers project'), s')
        end
  end.

(** [PUT /api/projects/:id]. *)
Definition put (now : JS.Date) (caller : Caller) (id : JS.ObjectId)
    (body : JS.Body) (s : Store) : Response Project.t * Store :=
  match Db.findById Project._id id (projects s) with
  | None => (fail 404 "Project not found", s)
  | Some project =>
      if not_own caller project
      then (fail 403 "You can only update projects you manage", s)
      else
        match Models.Project_findByIdAndUpdate now id body s with
        | inl e => (on_error e, s)
        | inr (project', s') =>
            (mkResponse 200 true "Project updated successfully" project', s')
        end
  end.

(** The [$group] stage of [GET /api/projects/stats/overview]. *)
Record Overview := mkOverview {
  totalProjects : nat;
  activeProjects : nat;
  completedProjects : nat;
  totalBudget : JS.Number;
  totalBudgetUsed : JS.Number;
  averageProgress : JS.Number;
}.

(** The [matchQuery] of the statistics: the scope of the role. *)
Definition stats_query (caller : Caller) (s : Store) : Query :=
  if String.eqb (caller_role caller) "manager"
  then mkQuery (Some (caller_id caller)) None None
  else if String.eqb (caller_role caller) "engineer"
  then mkQuery None (Some (assignedProjects (caller_id caller) s)) None
  else mkQuery None None None.

(** [Project.aggregate([{ $match }, { $group: { _id: null, ... } }])]. *)
Definition aggregate (l : list Project.t) : option Overview :=
  match l with
  | [] => None
  | _ =>
      Some (mkOverview
              (length l)
              (Db.countDocuments
                 (fun p => String.eqb (Project.status p) "active") l)
              (Db.countDocuments
                 (fun p => String.eqb (Project.status p) "completed") l)
              (AssignmentsRoutes.sum_of Project.budget l)
              (AssignmentsRoutes.sum_of Project.budgetUsed l)
              (AssignmentsRoutes.avg_of Project.progress l))
  end.

(** [GET /api/projects/stats/overview]. *)
Definition get_stats (caller : Caller) (s : Store) : Response Overview :=
  let stats :=
    aggregate (List.filter (matches (stats_query caller s)) (projects s)) in
  ok 200 ""
    match stats with
    | Some result => result
    | None => mkOverview 0 0 0 0 0 0
    end.

(** The document [POST /api/projects] hands to [Project.create]: the values
    of the body on their paths and the defaults of the schema on the
    others; [None] when a value does not cast or a required number or date
    is missing.  [fresh] is the [_id] the driver generates. *)
Definition new_project (fresh : JS.ObjectId) (manager : JS.ObjectId)
    (body : JS.Body) : option Project.t :=
  let text k :=
    match body !! k with
    | None => Some ""
    | Some (JS.Str x) => Some (JS.trim x)
    | Some _ => None
    end in
  let priority :=
    if JS.truthy (body !! "priority") then
      match body !! "priority" with
      | Some (JS.Str x) => Some x
      | _ => None
      end
    else Some "medium" in
  let teamMembers :=
    if JS.truthy (body !! "teamMembers") then
      match body !! "teamMembers" with
      | Some (JS.Arr l) =>
          match Schema.castEach TeamMember.cast l with
          | inr members => Some members
          | inl _ => None
          end
      | _ => None
      end
    else Some [] in
  match text "name", text "description", priority,
        body !! "deadline", body !! "budget", teamMembers with
  | Some name, Some description, Some priority,
    Some (JS.Num deadline), Some (JS.Num budget), Some teamMembers =>
      Some (Project.mk fresh name description "planning" priority 0
              (if JS.leb 0 deadline then Qfloor deadline else Qceiling deadline)
              budget 0 manager teamMembers)
  | _, _, _, _, _, _ => None
  end.

(** [POST /api/projects]. *)
Definition post (now : JS.Date) (fresh : JS.ObjectId) (caller : Caller)
    (body : JS.Body) (s : Store) : Response Project.t * Store :=
  let manager : option JS.ObjectId :=
    if String.eqb (caller_role caller) "admin" then
      if JS.truthy (body !! "manager") then
        match body !! "manager" with
        | Some (JS.Str m) => Some m
        | _ => None
        end
      else Some (caller_id caller)
    else Some (caller_id caller) in
  match manager ≫= fun m => new_project fresh m body with
  | None => (fail 400 "Validation error", s)
  | Some doc =>
      match Models.Project_create now doc s with
      | inl e => (on_error e, s)
      | inr (project, s') =>
          (ok 201 "Project created successfully" project, s')
      end
  end.

End ProjectsRoutes.

(** ** routes/users.js *)

Module UsersRoutes.

Definition allowedFields : list string :=
  ["firstName"; "lastName"; "phone"; "location"; "skills"; "availability"].

(** [PUT /api/users/:id]. *)
Definition put (caller : Caller) (id : JS.ObjectId) (body : JS.Body)
    (s : Store) : Response User.t * Store :=
  match Db.findById User._id id (users s) with
  | None => (fail 404 "User not found", s)
  | Some _ =>
      let canUpdate :=
        (String.eqb (caller_role caller) "admin"
         || String.eqb (caller_id caller) id)%bool in
      if negb canUpdate
      then (fail 403 "Not authorized to update this user", s)
      else
        let updateFields :=
          if (String.eqb (caller_role caller) "engineer"
              && String.eqb (caller_id caller) id)%bool
          then JS.pick allowedFields body
          else delete "password" body in
        match Models.User_findByIdAndUpdate id updateFields s with
        | inl e => (on_error e, s)
        | inr (user, s') =>
            (mkResponse 200 true "User updated successfully" user, s')
        end
  end.

(** [DELETE /api/users/:id]. *)
Definition delete_user (caller : Caller) (id : JS.ObjectId) (s : Store)
  : Response unit * Store :=
  match Db.findById User._id id (users s) with
  | None => (fail 404 "User not found", s)
  | Some user =>
      let lastAdmin :=
        if String.eqb (User.role user) "admin" then
          let adminCount :=
            Db.countDocuments
              (fun u => String.eqb (User.role u) "admin" && User.isActive u)%bool
              (users s) in
          Nat.leb adminCount 1
        else false in
      if lastAdmin
      then (fail 400 "Cannot delete the last admin user", s)
      else
        match Models.User_save (User.set_isActive false user) s with
        | inl _ => (server_error, s)
        | inr s' =>
            (mkResponse 200 true "User deactivated successfully" None,
             with_assignments
               (Db.updateMany
                  (fun a =>
                     String.eqb (Assignment.assignee a) id
                     && Schema.oneOf ["active"; "in-progress"]
                          (Assignment.status a))%bool
                  (Assignment.set_status "cancelled")
                  (assignments s')) s')
        end
  end.

End UsersRoutes.

(** ** routes/auth.js *)

Module AuthRoutes.

(** The keys [PUT /api/auth/profile] takes from [req.body]. *)
Definition profileFields : list string :=
  ["firstName"; "lastName"; "phone"; "location"; "skills"; "availability";
   "department"; "experienceLevel"].

(** [if (body[k]) user[k] = body[k]] on one path: the value is cast by the
    setter of the path. *)
Definition set_if_truthy {A} (body : JS.Body) (path : string)
    (cast : string -> JS.Value -> Result A) (set : A -> User.t -> User.t)
    (user : User.t) : Result User.t :=
  if JS.truthy (body !! path) then
    match body !! path with
    | Some v => let* x := cast path v in inr (set x user)
    | None => inr user
    end
  else inr user.

(** [PUT /api/auth/profile]. *)
Definition put_profile (caller : Caller) (body : JS.Body) (s : Store)
  : Response User.t * Store :=
  match Db.findById User._id (caller_id caller) (users s) with
  | None => (fail 404 "User not found", s)
  | Some user =>
      let saved :=
        let* u1 := set_if_truthy body "firstName" Schema.castTrimmed
                     User.set_firstName user in
        let* u2 := set_if_truthy body "lastName" Schema.castTrimmed
                     User.set_lastName u1 in
        let* u3 := set_if_truthy body "phone" Schema.castTrimmed
                     User.set_phone u2 in
        let* u4 := set_if_truthy body "location" Schema.castTrimmed
                     User.set_location u3 in
        let* u5 := set_if_truthy body "skills"
                     (fun p => Schema.castArray p (Schema.castTrimmed p))
                     User.set_skills u4 in
        let* u6 := set_if_truthy body "availability" Schema.castNumber
                     User.set_availability u5 in
        let* u7 := set_if_truthy body "department" Schema.castString
                     User.set_department u6 in
        let* u8 := set_if_truthy body "experienceLevel" Schema.castString
                     User.set_experienceLevel u7 in
        let* s' := Models.User_save u8 s in
        inr (u8, s') in
      match saved with
      | inl e => (on_error e, s)
      | inr (user', s') => (ok 200 "Profile updated successfully" user', s')
      end
  end.

End AuthRoutes.

(** ** routes/engineers.js *)

Module EngineersRoutes.

(** [Math.max(0, Math.min(100, x))]. *)
Definition clamp (x : JS.Number) : JS.Number :=
  JS.Math_max 0 (JS.Math_min 100 x).

(** [if (body[path] !== undefined) engineer[path] = clamp(body[path])]. *)
Definition set_metric (body : JS.Body) (path : string)
    (set : JS.Number -> User.t -> User.t) (engineer : User.t)
  : Result User.t :=
  match body !! path with
  | None => inr engineer
  | Some v => let* x := Schema.castNumber path v in inr (set (clamp x) engineer)
  end.

Record Metrics := mkMetrics {
  m_id : JS.ObjectId;
  m_utilization : JS.Number;
  m_efficiency : JS.Number;
}.

(** [PUT /api/engineers/:id/metrics]. *)
Definition put_metrics (caller : Caller) (id : JS.ObjectId) (body : JS.Body)
    (s : Store) : Response Metrics * Store :=
  match Models.User_findEngineer id s with
  | None => (fail 404 "Engineer not found", s)
  | Some engineer =>
      let saved :=
        let* e1 := set_metric body "utilization" User.set_utilization engineer in
        let* e2 := set_metric body "efficiency" User.set_efficiency e1 in
        let* s' := Models.User_save e2 s in
        inr (e2, s') in
      match saved with
      | inl _ => (server_error, s)
      | inr (engineer', s') =>
          (ok 200 "Engineer metrics updated successfully"
              (mkMetrics (User._id engineer') (User.utilization engineer')
                         (User.efficiency engineer')), s')
      end
  end.

Record Recommendation := mkRecommendation {
  r_type : string;
  r_message : string;
}.

Record CurrentWorkload := mkCurrentWorkload {
  activeAssignments : nat;
  totalEstimatedHours : JS.Number;
  availableHours : JS.Number;
  utilizationPercentage : Z;
  isOverloaded : bool;
}.

Record WorkloadAnalysis := mkWorkloadAnalysis {
  currentWorkload : CurrentWorkload;
  overdueAssignments : list Assignment.t;
  recommendations : list Recommendation;
}.

(** The workload of an engineer over the active assignments: the
    [currentWorkload], [overdueAssignments] and [recommendations] of the
    answer.  The schema keeps [availability] at 1 or more. *)
Definition workload (now : JS.Date) (engineer : User.t)
    (activeAssignments : list Assignment.t) : WorkloadAnalysis :=
  let totalEstimatedHours :=
    foldl (fun sum a => sum + JS.or_zero (Assignment.estimatedHours a))
          0 activeAssignments in
  let utilizationPercentage :=
    totalEstimatedHours / User.availability engineer * 100 in
  let overdueAssignments :=
    List.filter (fun a => Z.ltb (Assignment.deadline a) now) activeAssignments in
  mkWorkloadAnalysis
    (mkCurrentWorkload
       (length activeAssignments)
       totalEstimatedHours
       (JS.Math_max 0 (User.availability engineer - totalEstimatedHours))
       (JS.Math_round utilizationPercentage)
       (JS.gtb utilizationPercentage 100))
    overdueAssignments
    ((if JS.gtb utilizationPercentage 100 then
        [mkRecommendation "warning"
           "Engineer is overloaded. Consider redistributing assignments."]
      else if JS.ltb utilizationPercentage 50 then
        [mkRecommendation "info"
           "Engineer has capacity for additional assignments."]
      else [])
     ++ (if Nat.ltb 0 (length overdueAssignments) then
           [mkRecommendation "urgent"
              (pretty (length overdueAssignments)
               +:+ " assignment(s) are overdue.")]
         else [])).

(** [GET /api/engineers/:id/workload]. *)
Definition get_workload (now : JS.Date) (caller : Caller) (id : JS.ObjectId)
    (s : Store) : Response WorkloadAnalysis :=
  match Models.User_findEngineer id s with
  | None => fail 404 "Engineer not found"
  | Some engineer =>
      if (String.eqb (caller_role caller) "engineer"
          && negb (String.eqb (caller_id caller) id))%bool
      then fail 403 "Not authorized to view this workload analysis"
      else
        let activeAssignments :=
          List.filter
            (fun a =>
               String.eqb (Assignment.assignee a) id
               && Schema.oneOf ["active"; "in-progress"] (Assignment.status a))%bool
            (assignments s) in
        (* [a.project.name] on the populated project of each assignment *)
        if forallb
             (fun a =>
                bool_decide
                  (is_Some (Db.findById Project._id (Assignment.project a)
                              (projects s))))
             activeAssignments
        then ok 200 "" (workload now engineer activeAssignments)
        else server_error
  end.

End EngineersRoutes.

(** ** models/User.js: the login bookkeeping

    The paths [loginAttempts], [lockUntil] and [lastLogin] of a user, and
    the methods that write them.  One call sees one time [now]. *)

Module UserLogin.

Record t := mk {
  loginAttempts : Z;
  lockUntil : option JS.Date;
  lastLogin : option JS.Date;
}.

(** [process.env] after [Number.parseInt]: [None] is [NaN]. *)
Record Env := mkEnv {
  MAX_LOGIN_ATTEMPTS : option Z;
  LOCKOUT_TIME : option Z;
}.

(** [Number.parseInt(v) || d]. *)
Definition or_default (v : option Z) (d : Z) : Z :=
  match v with
  | None | Some 0%Z => d
  | Some n => n
  end.

(** The virtual [isLocked]. *)
Definition isLocked (now : JS.Date) (u : t) : bool :=
  match lockUntil u with
  | Some l => Z.ltb now l
  | None => false
  end.

(** [UserSchema.methods.incLoginAttempts]. *)
Definition incLoginAttempts (env : Env) (now : JS.Date) (u : t) : t :=
  let maxAttempts := or_default (MAX_LOGIN_ATTEMPTS env) 5 in
  let lockoutTime := or_default (LOCKOUT_TIME env) 30 in
  if match lockUntil u with
     | Some l => Z.ltb l now
     | None => false
     end
  then mk 1 None (lastLogin u)
  else
    mk (loginAttempts u + 1)
       (if (Z.leb maxAttempts (loginAttempts u + 1) && negb (isLocked now u))%bool
        then Some (now + lockoutTime * 60 * 1000)%Z
        else lockUntil u)
       (lastLogin u).

(** [UserSchema.methods.updateLastLogin]. *)
Definition updateLastLogin (now : JS.Date) (u : t) : t := mk 0 None (Some now).

(** A run of failed attempts, one at each of the times. *)
Definition failures (env : Env) (times : list JS.Date) (u : t) : t :=
  foldl (fun u now => incLoginAttempts env now u) u times.

End UserLogin.

(** ** routes/auth.js: login

    An account is a user with the e-mail address, the password hash and the
    login bookkeeping.  [bcrypt.compare] and the signing of the token are
    parameters, and so is [savedPassword], the hash that
    [UserSchema.pre("save")] leaves in [password] when [updateLastLogin]
    saves the document. *)

Module AuthLogin.

Record Account := mkAccount {
  email : string;
  password : string;
  user : User.t;
  login : UserLogin.t;
}.

Definition set_login (l : UserLogin.t) (a : Account) : Account :=
  mkAccount (email a) (password a) (user a) l.

(** [s.toLowerCase()], over the ASCII letters. *)
Definition lower (c : ascii) : ascii :=
  let n := nat_of_ascii c in
  if (Nat.leb 65 n && Nat.leb n 90)%bool then ascii_of_nat (n + 32) else c.

Fixpoint toLowerCase (s : string) : string :=
  match s with
  | String c r => String (lower c) (toLowerCase r)
  | EmptyString => EmptyString
  end.

(** [User.findOne({ email })]. *)
Definition findOne (e : string) (accounts : list Account) : option Account :=
  List.find (fun a => String.eqb (email a) e) accounts.

(** The write of [updateLastLogin] on the account with the e-mail address. *)
Fixpoint write (a : Account) (accounts : list Account) : list Account :=
  match accounts with
  | [] => []
  | x :: r => if String.eqb (email x) (email a) then a :: r else x :: write a r
  end.

Record Session := mkSession {
  token : string;
  session_user : JS.ObjectId;
}.

Section Login.
Context (matchPassword : string -> string -> bool)
        (getSignedJwtToken : User.t -> string)
        (savedPassword : string -> string).

(** [POST /api/auth/login].  [email.toLowerCase()] and [bcrypt.compare]
    throw on a value that is not a string. *)
Definition post_login (now : JS.Date) (body : JS.Body)
    (accounts : list Account) : Response Session * list Account :=
  if (negb (JS.truthy (body !! "email"))
      || negb (JS.truthy (body !! "password")))%bool
  then (fail 400 "Please provide email and password", accounts)
  else
    match body !! "email" with
    | Some (JS.Str e) =>
        match findOne (toLowerCase e) accounts with
        | None => (fail 401 "Invalid credentials", accounts)
        | Some account =>
            if negb (User.isActive (user account))
            then (fail 401 "Account has been deactivated", accounts)
            else
              match body !! "password" with
              | Some (JS.Str pw) =>
                  if negb (matchPassword pw (password account))
                  then (fail 401 "Invalid credentials", accounts)
                  else
                    (ok 200 "Login successful"
                        (mkSession (getSignedJwtToken (user account))
                           (User._id (user account))),
                     write (mkAccount (email account)
                              (savedPassword (password account)) (user account)
                              (UserLogin.updateLastLogin now (login account)))
                       accounts)
              | _ => (fail 500 "Server error during login", accounts)
              end
        end
    | _ => (fail 500 "Server error during login", accounts)
    end.

(** [User.findById(id)] on the accounts, and the write of a saved account
    over the stored one with its [_id]. *)
Definition findById (id : JS.ObjectId) (accounts : list Account)
  : option Account :=
  List.find (fun a => String.eqb (User._id (user a)) id) accounts.

Fixpoint write_id (a : Account) (accounts : list Account) : list Account :=
  match accounts with
  | [] => []
  | x :: r =>
      if String.eqb (User._id (user x)) (User._id (user a)) then a :: r
      else x :: write_id a r
  end.

(** [PUT /api/auth/change-password].  [hashPassword] is the hash that
    [UserSchema.pre("save")] stores for a modified password; the save
    validates the new password ([minlength] 6) with the document.
    [bcrypt.compare] throws on a value that is not a string. *)
Definition put_change_password (hashPassword : string -> string)
    (caller : Caller) (body : JS.Body) (accounts : list Account)
  : Response unit * list Account :=
  if (negb (JS.truthy (body !! "currentPassword"))
      || negb (JS.truthy (body !! "newPassword")))%bool
  then (fail 400 "Please provide current password and new password", accounts)
  else
    match findById (caller_id caller) accounts, body !! "currentPassword" with
    | Some account, Some (JS.Str currentPassword) =>
        if negb (matchPassword currentPassword (password account))
        then (fail 400 "Current password is incorrect", accounts)
        else
          match body !! "newPassword" with
          | Some (JS.Str newPassword) =>
              match (Schema.check "password"
                       (Nat.leb 6 (String.length newPassword))
                     ++ User.invalid_paths (user account))%list with
              | [] =>
                  (mkResponse 200 true "Password changed successfully" None,
                   write_id (mkAccount (email account)
                               (hashPassword newPassword) (user account)
                               (login account)) accounts)
              | _ => (server_error, accounts)
              end
          | _ => (server_error, accounts)
          end
    | _, _ => (server_error, accounts)   (* [user] is [null], or no string *)
    end.

End Login.

End AuthLogin.

(** ** server.js: the connection to the database *)

Module Server.

Inductive Connection :=
| Connected (retries : nat)
| Exited
| NotConnected.

Definition maxRetries : nat := 5.

(** The [while] loop of [connectDB] from a count of [retries];
    [connects i] tells whether the call of [mongoose.connect] after [i]
    failures succeeds.  The answer carries the waits before the retries,
    in milliseconds. *)
Fixpoint connectFrom (connects : nat -> bool) (fuel retries : nat)
  : Connection * list Z :=
  match fuel with
  | O => (NotConnected, [])
  | S fuel' =>
      if connects retries then (Connected retries, [])
      else
        let retries' := S retries in
        if Nat.eqb retries' maxRetries then (Exited, [])
        else
          let '(c, waits) := connectFrom connects fuel' retries' in
          (c, (2 ^ Z.of_nat retries' * 1000)%Z :: waits)
  end.

(** [connectDB]. *)
Definition connectDB (connects : nat -> bool) : Connection * list Z :=
  connectFrom connects maxRetries 0.

End Server.

(** ** The routers

    The routes of a router in the order they are registered: Express hands
    a request to the first route whose method and path match, and the
    handlers here all answer, so no later route sees the request.  A path
    is the list of its segments below the mount point. *)

Module Express.

Inductive Method := GET | POST | PUT | DELETE.

Inductive Segment :=
| Lit (s : string)
| Param (name : string).

Definition Route := (Method * list Segment)%type.

Definition method_eqb (a b : Method) : bool :=
  match a, b with
  | GET, GET | POST, POST | PUT, PUT | DELETE, DELETE => true
  | _, _ => false
  end.

(** A literal matches itself, a parameter any segment. *)
Fixpoint matchPath (pattern : list Segment) (path : list string) : bool :=
  match pattern, path with
  | [], [] => true
  | Lit s :: pattern', x :: path' => String.eqb s x && matchPath pattern' path'
  | Param _ :: pattern', x :: path' => matchPath pattern' path'
  | _, _ => false
  end.

Definition dispatch (router : list Route) (m : Method) (path : list string)
  : option Route :=
  List.find (fun r => method_eqb (fst r) m && matchPath (snd r) path)%bool
    router.

(** [routes/users.js]. *)
Definition users : list Route :=
  [(GET, []); (GET, [Param "id"]); (POST, []); (PUT, [Param "id"]);
   (DELETE, [Param "id"]); (GET, [Lit "stats"; Lit "overview"]);
   (GET, [Lit "available-engineers"])].

(** [routes/engineers.js]. *)
Definition engineers : list Route :=
  [(GET, []); (GET, [Lit "overview"]); (PUT, [Lit "post"]);
   (GET, [Param "id"]); (PUT, [Param "id"; Lit "metrics"]);
   (GET, [Param "id"; Lit "workload"]); (POST, [Lit "post"])].

(** [routes/assignments.js]. *)
Definition assignments : list Route :=
  [(GET, []); (GET, [Param "id"]); (POST, []); (PUT, [Param "id"]);
   (DELETE, [Param "id"]); (POST, [Param "id"; Lit "comments"]);
   (POST, [Param "id"; Lit "time-entries"]);
   (GET, [Lit "stats"; Lit "overview"])].

(** [routes/projects.js]. *)
Definition projects : list Route :=
  [(GET, []); (GET, [Param "id"]); (POST, []); (PUT, [Param "id"]);
   (DELETE, [Param "id"]); (POST, [Param "id"; Lit "team-members"]);
   (DELETE, [Param "id"; Lit "team-members"; Param "userId"]);
   (GET, [Lit "stats"; Lit "overview"])].

End Express.

(** ** The derivations as the specification words them *)

Module Spec.

Definition sum (l : list JS.Number) : JS.Number := foldr Qplus 0 l.

(** The arithmetic mean of a list of numbers. *)
Definition mean (l : list JS.Number) : JS.Number :=
  sum l / inject_Z (Z.of_nat (length l)).


Definition projectVisible (caller : Caller) (p : Project.t) : bool :=
  if String.eqb (caller_role caller) "admin" then true
  else if String.eqb (caller_role caller) "manager" then
    String.eqb (Project.manager p) (caller_id caller)
  else existsb (fun m => String.eqb (TeamMember.user m) (caller_id caller))
               (Project.teamMembers p).


End Spec.

(** The value [updateProgress] assigns to [this.progress], as a function of
    the assignments it fetched. *)
Definition progressOf (assignments : list Assignment.t) : JS.Number :=
  if Nat.eqb (length assignments) 0 then 0
  else inject_Z (JS.Math_round
                   (foldl (fun sum assignment => sum + Assignment.progress assignment)
                          0 assignments
                    / inject_Z (Z.of_nat (length assignments)))).



(** ** Sample documents *)

Module Sample.

Definition alex : User.t :=
  User.mk "u1" "Alex" "Rodriguez" "engineer" "Frontend" "senior"
    ["React"] None 40 None None 0 0 true.

Definition sarah : User.t :=
  User.mk "m1" "Sarah" "Chen" "manager" "Full Stack" "lead"
    [] None 40 None None 0 0 true.

Definition root : User.t :=
  User.mk "r1" "Ada" "Admin" "admin" "Backend" "principal"
    [] None 40 None None 0 0 true.

Definition maya : User.t :=
  User.mk "u2" "Maya" "Patel" "engineer" "Backend" "mid"
    [] None 40 None None 0 0 true.

Definition portal : Project.t :=
  Project.mk "p1" "Portal" "Customer portal" "planning" "high" 0
    2000000%Z 50000 0 "m1" [TeamMember.mk "u1" "Developer" 40].

Definition task (id : JS.ObjectId) (assignee : JS.ObjectId)
    (status : string) (progress estimatedHours : JS.Number) : Assignment.t :=
  Assignment.mk id "Build" "Build the page" "p1" assignee "m1" status "medium"
    progress estimatedHours 0 1000000%Z None [].

Definition store : Store :=
  mkStore [alex; sarah; root; maya] [portal] [task "a1" "u1" "active" 0 25].

(** Two assignments of the portal, at 33 and 50 percent. *)
Definition store2 : Store :=
  mkStore [alex; sarah; root; maya] [portal]
    [task "a1" "u1" "active" 33 25; task "a2" "u1" "in-progress" 50 20].

Definition alex_caller : Caller := mkCaller "u1" "engineer".
Definition maya_caller : Caller := mkCaller "u2" "engineer".
Definition sarah_caller : Caller := mkCaller "m1" "manager".
Definition root_caller : Caller := mkCaller "r1" "admin".

End Sample.

(** * Properties *)

(** ** Collections *)

Section CollectionFacts.
Context {A : Type} (id_of : A -> JS.ObjectId).

Lemma findById_id (id : JS.ObjectId) (l : list A) (d : A) :
  Db.findById id_of id l = Some d -> id_of d = id.
Proof.
  unfold Db.findById. intros H.
  apply find_some in H as [_ H]. now apply String.eqb_eq in H.
Qed.

Lemma findById_In (id : JS.ObjectId) (l : list A) (d : A) :
  Db.findById id_of id l = Some d -> In d l.
Proof.
  unfold Db.findById. intros H. now apply find_some in H.
Qed.

(** A write is read back: the stored document with the [_id] of [d] is [d]
    after [d] is written, when the collection had a document with that
    [_id]. *)
Lemma findById_replaceOne (d : A) (l : list A) :
  is_Some (Db.findById id_of (id_of d) l) ->
  Db.findById id_of (id_of d) (Db.replaceOne id_of d l) = Some d.
Proof.
  induction l as [|x r IH]; simpl.
  - intros [? H]. discriminate H.
  - destruct (String.eqb (id_of x) (id_of d)) eqn:E; simpl.
    + now rewrite String.eqb_refl.
    + rewrite E. exact IH.
Qed.

(** A write leaves the documents with another [_id] as they are. *)
Lemma findById_replaceOne_other (id : JS.ObjectId) (d : A) (l : list A) :
  id <> id_of d ->
  Db.findById id_of id (Db.replaceOne id_of d l) = Db.findById id_of id l.
Proof.
  intros Hne. induction l as [|x r IH]; simpl; [reflexivity|].
  destruct (String.eqb (id_of x) (id_of d)) eqn:E; simpl.
  - apply String.eqb_eq in E.
    assert (String.eqb (id_of d) id = false) as ->
      by (apply String.eqb_neq; congruence).
    assert (String.eqb (id_of x) id = false) as ->
      by (apply String.eqb_neq; congruence).
    reflexivity.
  - destruct (String.eqb (id_of x) id); [reflexivity | exact IH].
Qed.

(** Writing the same document twice is writing it once. *)
Lemma replaceOne_twice (d : A) (l : list A) :
  Db.replaceOne id_of d (Db.replaceOne id_of d l) = Db.replaceOne id_of d l.
Proof.
  induction l as [|x r IH]; simpl; [reflexivity|].
  destruct (String.eqb (id_of x) (id_of d)) eqn:E; simpl.
  - now rewrite String.eqb_refl.
  - rewrite E. now rewrite IH.
Qed.

(** Writing back the document that is stored changes nothing. *)
Lemma replaceOne_stored (id : JS.ObjectId) (d : A) (l : list A) :
  Db.findById id_of id l = Some d -> Db.replaceOne id_of d l = l.
Proof.
  induction l as [|x r IH]; simpl; [reflexivity|].
  destruct (String.eqb (id_of x) id) eqn:E.
  - intros [= ->]. now rewrite String.eqb_refl.
  - intros H. pose proof (findById_id _ _ _ H) as Hid.
    assert (String.eqb (id_of x) (id_of d) = false) as ->.
    { apply String.eqb_neq. apply String.eqb_neq in E. congruence. }
    now rewrite IH.
Qed.

End CollectionFacts.

(** ** Numbers *)

Lemma eqb_Qeq (a b : JS.Number) : JS.eqb a b = true <-> a == b.
Proof. apply Qeq_bool_iff. Qed.

Lemma leb_Qle (a b : JS.Number) : JS.leb a b = true <-> a <= b.
Proof. apply Qle_bool_iff. Qed.

Lemma gtb_Qlt (a b : JS.Number) : JS.gtb a b = true <-> b < a.
Proof.
  unfold JS.gtb, JS.ltb. rewrite negb_true_iff.
  split; intros H.
  - apply Qnot_le_lt. intros Hle. apply Qle_bool_iff in Hle. congruence.
  - apply not_true_is_false. intros Hle. apply Qle_bool_iff in Hle.
    now apply Qlt_not_le in H.
Qed.

Lemma or_zero_Qeq (x : JS.Number) : JS.or_zero x == x.
Proof.
  unfold JS.or_zero. destruct (JS.eqb x 0) eqn:E; [|reflexivity].
  apply eqb_Qeq in E. now rewrite E.
Qed.


Lemma Math_round_Qeq (x y : JS.Number) :
  x == y -> JS.Math_round x = JS.Math_round y.
Proof. intros H. unfold JS.Math_round. now rewrite H. Qed.

(** The left-to-right [reduce] of a sum is the sum. *)
Lemma reduce_sum {A} (f : A -> JS.Number) (l : list A) (z : JS.Number) :
  foldl (fun sum a => sum + f a) z l == z + Spec.sum (map f l).
Proof.
  revert z. induction l as [|x r IH]; intros z; simpl.
  - lra.
  - rewrite IH. lra.
Qed.

Lemma reduce_sum_or_zero {A} (f : A -> JS.Number) (l : list A) (z : JS.Number) :
  foldl (fun sum a => sum + JS.or_zero (f a)) z l == z + Spec.sum (map f l).
Proof.
  revert z. induction l as [|x r IH]; intros z; simpl.
  - lra.
  - rewrite IH, or_zero_Qeq. lra.
Qed.

(** ** The save middleware *)

Lemma assignment_pre_save_progress (now : JS.Date) (m : bool) (a : Assignment.t) :
  Assignment.progress (Assignment.pre_save now m a) = Assignment.progress a.
Proof.
  unfold Assignment.pre_save.
  destruct m; simpl;
    repeat match goal with |- context [if ?b then _ else _] => destruct b end;
    reflexivity.
Qed.

Lemma assignment_pre_save_timeEntries (now : JS.Date) (m : bool)
    (a : Assignment.t) :
  Assignment.timeEntries (Assignment.pre_save now m a) = Assignment.timeEntries a.
Proof.
  unfold Assignment.pre_save.
  destruct m; simpl;
    repeat match goal with |- context [if ?b then _ else _] => destruct b end;
    reflexivity.
Qed.

Lemma assignment_pre_save_id (now : JS.Date) (m : bool) (a : Assignment.t) :
  Assignment._id (Assignment.pre_save now m a) = Assignment._id a.
Proof.
  unfold Assignment.pre_save.
  destruct m; simpl;
    repeat match goal with |- context [if ?b then _ else _] => destruct b end;
    reflexivity.
Qed.

Lemma assignment_pre_save_project (now : JS.Date) (m : bool) (a : Assignment.t) :
  Assignment.project (Assignment.pre_save now m a) = Assignment.project a.
Proof.
  unfold Assignment.pre_save.
  destruct m; simpl;
    repeat match goal with |- context [if ?b then _ else _] => destruct b end;
    reflexivity.
Qed.

(** The hook stores the sum of the logged hours when the time entries are
    modified. *)
Lemma assignment_pre_save_actualHours (now : JS.Date) (a : Assignment.t) :
  Assignment.actualHours (Assignment.pre_save now true a)
  = Assignment.totalLoggedHours a.
Proof.
  unfold Assignment.pre_save; simpl.
  repeat match goal with |- context [if ?b then _ else _] => destruct b end;
    reflexivity.
Qed.

(** The hook completes an assignment whose progress is 100, and stamps
    [completedAt] when it was not completed before. *)
Lemma assignment_pre_save_auto_complete (now : JS.Date) (m : bool)
    (a : Assignment.t) :
  Assignment.progress a == 100 ->
  Assignment.status (Assignment.pre_save now m a) = "completed" /\
  (Assignment.status a <> "completed" ->
   Assignment.completedAt (Assignment.pre_save now m a) = Some now).
Proof.
  intros H. apply eqb_Qeq in H.
  destruct a as [i t d p ae ab st pr pg eh ah dl ca te].
  unfold Assignment.pre_save. cbn in H |- *.
  destruct (String.eqb st "completed") eqn:E.
  - apply String.eqb_eq in E. subst st.
    destruct m; cbn; rewrite H; cbn; rewrite andb_false_r; cbn;
      split; congruence.
  - destruct m; cbn; rewrite H, E; cbn; rewrite andb_false_r; cbn;
      split; reflexivity.
Qed.

(** Simplification of the hooks under the known outcomes of their tests. *)
Ltac hook_norm :=
  repeat first
    [ progress cbn [andb orb negb implb String.eqb Ascii.eqb Bool.eqb
        Assignment.set_actualHours Assignment.set_status
        Assignment.set_completedAt Assignment.progress Assignment.status
        Assignment.timeEntries Assignment.totalLoggedHours Assignment._id
        Assignment.title Assignment.description Assignment.project
        Assignment.assignee Assignment.assignedBy Assignment.priority
        Assignment.estimatedHours Assignment.actualHours Assignment.deadline
        Assignment.completedAt
        Project.set_status Project.set_progress Project.progress
        Project.status Project._id]
    | match goal with
      | H : ?b = true |- context [?b] => rewrite H
      | H : ?b = false |- context [?b] => rewrite H
      end ].

Ltac status_cases st :=
  destruct (String.eqb_spec st "completed") as [->|?Hc];
  [| destruct (String.eqb_spec st "pending") as [->|?Hp];
     [| destruct (String.eqb_spec st "active") as [->|?Ha];
        [| destruct (String.eqb_spec st "planning") as [->|?Hg]]]].

(** Running the assignment hook again changes nothing, whatever the time
    of the second run. *)
Lemma assignment_pre_save_twice (now now' : JS.Date) (m m' : bool)
    (a : Assignment.t) :
  implb m' m = true ->
  Assignment.pre_save now' m' (Assignment.pre_save now m a)
  = Assignment.pre_save now m a.
Proof.
  intros Hm. destruct a as [i t d p ae ab st pr pg eh ah dl ca te].
  unfold Assignment.pre_save.
  destruct m, m'; try discriminate Hm; clear Hm;
    destruct (JS.eqb pg 100) eqn:E100; destruct (JS.gtb pg 0) eqn:E0;
    status_cases st;
    repeat match goal with
           | H : ?x <> ?y |- _ => apply String.eqb_neq in H
           end;
    hook_norm; reflexivity.
Qed.


Lemma project_pre_save_id (p : Project.t) :
  Project._id (Project.pre_save p) = Project._id p.
Proof.
  unfold Project.pre_save.
  repeat match goal with |- context [if ?b then _ else _] => destruct b end;
    reflexivity.
Qed.

(** The project hook: 100 completes, a started project leaves planning. *)
Lemma project_pre_save_rules (p : Project.t) :
  (Project.progress p == 100 ->
   Project.status (Project.pre_save p) = "completed") /\
  (~ Project.progress p == 100 -> 0 < Project.progress p ->
   Project.status p = "planning" ->
   Project.status (Project.pre_save p) = "active").
Proof.
  destruct p as [i n d st pr pg dl b bu mg tm]. unfold Project.pre_save. cbn.
  split.
  - intros H. apply eqb_Qeq in H. rewrite H.
    destruct (String.eqb_spec st "completed") as [->|Hc]; cbn;
      [now rewrite andb_false_r | reflexivity].
  - intros H100 H0 ->. apply gtb_Qlt in H0. rewrite H0.
    destruct (JS.eqb pg 100) eqn:E; [now apply eqb_Qeq in E|]. reflexivity.
Qed.

(** The project hook only moves forward: a completed project stays
    completed, and no project is moved to a status other than completed or
    active. *)
Lemma project_pre_save_forward (p : Project.t) :
  (Project.status p = "completed" ->
   Project.status (Project.pre_save p) = "completed") /\
  (Project.status (Project.pre_save p) = Project.status p \/
   Project.status (Project.pre_save p) = "completed" \/
   (Project.status p = "planning" /\
    Project.status (Project.pre_save p) = "active")).
Proof.
  destruct p as [i n d st pr pg dl b bu mg tm]. unfold Project.pre_save. cbn.
  split.
  - intros ->. cbn. rewrite andb_false_r. cbn. rewrite andb_false_r. reflexivity.
  - destruct (JS.eqb pg 100 && negb (String.eqb st "completed"))%bool;
      [cbn; tauto|].
    destruct (JS.gtb pg 0); cbn; [|tauto].
    destruct (String.eqb_spec st "planning") as [->|]; cbn; tauto.
Qed.

Lemma project_pre_save_twice (p : Project.t) :
  Project.pre_save (Project.pre_save p) = Project.pre_save p.
Proof.
  destruct p as [i n d st pr pg dl b bu mg tm]. unfold Project.pre_save.
  destruct (JS.eqb pg 100) eqn:E100; destruct (JS.gtb pg 0) eqn:E0;
    status_cases st;
    repeat match goal with
           | H : ?x <> ?y |- _ => apply String.eqb_neq in H
           end;
    hook_norm; reflexivity.
Qed.

Lemma project_set_progress_pre_save (v : JS.Number) (p : Project.t) :
  Project.set_progress v (Project.pre_save (Project.set_progress v p))
  = Project.pre_save (Project.set_progress v p).
Proof.
  destruct p as [i n d st pr pg dl b bu mg tm]. unfold Project.pre_save. cbn.
  repeat match goal with |- context [if ?b then _ else _] => destruct b end;
    reflexivity.
Qed.

(** ** The cascade on the collections *)

Lemma with_projects_assignments (ps : list Project.t) (s : Store) :
  assignments (with_projects ps s) = assignments s.
Proof. reflexivity. Qed.

Lemma updateProgress_assignments (p : Project.t) (s : Store) :
  assignments (Models.Project_updateProgress p s) = assignments s.
Proof. reflexivity. Qed.

Lemma post_save_assignments (a : Assignment.t) (s : Store) :
  assignments (Models.Assignment_post_save a s) = assignments s.
Proof.
  unfold Models.Assignment_post_save.
  destruct (Db.findById _ _ _); reflexivity.
Qed.

Lemma length_zero_nil {A} (l : list A) : Nat.eqb (length l) 0 = true -> l = [].
Proof. destruct l; [reflexivity | discriminate]. Qed.


(** [updateProgress] stores [progressOf] of the assignments of the project
    and runs the status hook on it. *)
Lemma updateProgress_stores (p : Project.t) (s : Store) :
  Models.Project_updateProgress p s
  = with_projects
      (Db.replaceOne Project._id
         (Project.pre_save
            (Project.set_progress
               (progressOf (Models.Assignment_find_project (Project._id p) s)) p))
         (projects s)) s.
Proof.
  unfold Models.Project_updateProgress, Models.Project_save_unvalidated, progressOf.
  destruct (Nat.eqb _ 0); reflexivity.
Qed.

(** The cascade of the [PUT] route stores the same value, without the
    hook. *)
Lemma progressOf_or_zero (l : list Assignment.t) :
  (if Nat.ltb 0 (length l)
   then inject_Z (JS.Math_round
                    (foldl (fun sum a => sum + JS.or_zero (Assignment.progress a))
                           0 l
                     / inject_Z (Z.of_nat (length l))))
   else 0) = progressOf l.
Proof.
  unfold progressOf. destruct l as [|a r]; [reflexivity|].
  change (Nat.ltb 0 (length (a :: r))) with true.
  change (Nat.eqb (length (a :: r)) 0) with false. cbv iota.
  f_equal. apply Math_round_Qeq.
  rewrite (reduce_sum_or_zero Assignment.progress).
  rewrite (reduce_sum Assignment.progress). reflexivity.
Qed.

Lemma post_save_twice (a : Assignment.t) (s : Store) :
  Models.Assignment_post_save a (Models.Assignment_post_save a s)
  = Models.Assignment_post_save a s.
Proof.
  unfold Models.Assignment_post_save.
  destruct (Db.findById Project._id (Assignment.project a) (projects s))
    as [p|] eqn:F; [|now rewrite F].
  pose proof (findById_id _ _ _ _ F) as Hid.
  rewrite updateProgress_stores.
  set (v := progressOf (Models.Assignment_find_project (Project._id p) s)).
  set (p1 := Project.pre_save (Project.set_progress v p)).
  assert (Hid1 : Project._id p1 = Assignment.project a).
  { unfold p1. rewrite project_pre_save_id. destruct p; exact Hid. }
  cbn [projects with_projects].
  rewrite <- Hid1 at 1.
  rewrite findById_replaceOne by (rewrite Hid1, F; eauto).
  rewrite updateProgress_stores. cbn [projects with_projects].
  assert (Hv : progressOf
                 (Models.Assignment_find_project (Project._id p1)
                    (with_projects
                       (Db.replaceOne Project._id p1 (projects s)) s)) = v).
  { unfold v. rewrite Hid1, Hid. reflexivity. }
  rewrite Hv.
  assert (Hp1 : Project.pre_save (Project.set_progress v p1) = p1).
  { unfold p1.
    now rewrite project_set_progress_pre_save, project_pre_save_twice. }
  rewrite Hp1, replaceOne_twice. reflexivity.
Qed.

Lemma with_assignments_same (s : Store) : with_assignments (assignments s) s = s.
Proof. now destruct s. Qed.

Lemma assignment_write_twice (now now' : JS.Date) (m : bool)
    (a : Assignment.t) (s : Store) :
  Models.Assignment_write now' m
    (fst (Models.Assignment_write now m a s))
    (snd (Models.Assignment_write now m a s))
  = Models.Assignment_write now m a s.
Proof.
  unfold Models.Assignment_write. cbn [fst snd].
  rewrite assignment_pre_save_twice by (now destruct m).
  set (a1 := Assignment.pre_save now m a).
  rewrite post_save_assignments. cbn [assignments with_assignments].
  rewrite replaceOne_twice.
  set (s1 := with_assignments (Db.replaceOne Assignment._id a1 (assignments s)) s).
  replace (Db.replaceOne Assignment._id a1 (assignments s))
    with (assignments (Models.Assignment_post_save a1 s1))
    by (now rewrite post_save_assignments).
  rewrite with_assignments_same, post_save_twice. reflexivity.
Qed.

Lemma project_set_progress_twice (v : JS.Number) (p : Project.t) :
  Project.set_progress v (Project.set_progress v p) = Project.set_progress v p.
Proof. now destruct p. Qed.

Lemma put_cascade_twice (a : Assignment.t) (s : Store) :
  AssignmentsRoutes.update_project_progress a
    (AssignmentsRoutes.update_project_progress a s)
  = AssignmentsRoutes.update_project_progress a s.
Proof.
  unfold AssignmentsRoutes.update_project_progress.
  destruct (Db.findById Project._id (Assignment.project a) (projects s))
    as [p|] eqn:F; [|now rewrite F].
  pose proof (findById_id _ _ _ _ F) as Hid.
  rewrite progressOf_or_zero, Hid.
  set (v := progressOf (Models.Assignment_find_project (Assignment.project a) s)).
  set (p1 := Project.set_progress v p).
  assert (Hid1 : Project._id p1 = Assignment.project a)
    by (unfold p1; now destruct p).
  assert (E : Models.Project_findByIdAndUpdate_progress (Assignment.project a) v s
              = with_projects (Db.replaceOne Project._id p1 (projects s)) s).
  { unfold Models.Project_findByIdAndUpdate_progress. now rewrite F. }
  rewrite E. set (s1 := with_projects _ s).
  assert (F1 : Db.findById Project._id (Assignment.project a) (projects s1)
               = Some p1).
  { unfold s1. cbn [projects with_projects]. rewrite <- Hid1.
    apply findById_replaceOne. rewrite Hid1, F. eauto. }
  rewrite F1, progressOf_or_zero, Hid1.
  change (Models.Assignment_find_project (Assignment.project a) s1)
    with (Models.Assignment_find_project (Assignment.project a) s).
  fold v. unfold Models.Project_findByIdAndUpdate_progress. rewrite F1.
  unfold p1 at 1. rewrite project_set_progress_twice. fold p1.
  unfold s1. cbn [projects with_projects]. now rewrite replaceOne_twice.
Qed.

(** ** C8: the derivations are idempotent *)

(** C8.  Applying a derivation recompute a second time, with no data change
    in between, leaves every field as the first application did: the
    assignment hook (hours recompute and status rules) at any later time,
    the project status hook, the project progress recompute that follows a
    save, the whole cascade of a save (hook, write, project recompute),
    and the project recompute of [PUT /api/assignments/:id]. *)
Theorem C8_recompute_idempotent :
  (forall (now now' : JS.Date) (m : bool) (a : Assignment.t),
     Assignment.pre_save now' m (Assignment.pre_save now m a)
     = Assignment.pre_save now m a) /\
  (forall (now now' : JS.Date) (m : bool) (a : Assignment.t),
     Assignment.pre_save now' false (Assignment.pre_save now m a)
     = Assignment.pre_save now m a) /\
  (forall p : Project.t,
     Project.pre_save (Project.pre_save p) = Project.pre_save p) /\
  (forall (a : Assignment.t) (s : Store),
     Models.Assignment_post_save a (Models.Assignment_post_save a s)
     = Models.Assignment_post_save a s) /\
  (forall (now now' : JS.Date) (m : bool) (a : Assignment.t) (s : Store),
     Models.Assignment_write now' m
       (fst (Models.Assignment_write now m a s))
       (snd (Models.Assignment_write now m a s))
     = Models.Assignment_write now m a s) /\
  (forall (a : Assignment.t) (s : Store),
     AssignmentsRoutes.update_project_progress a
       (AssignmentsRoutes.update_project_progress a s)
     = AssignmentsRoutes.update_project_progress a s).
Proof.
  repeat split.
  - intros. apply assignment_pre_save_twice. now destruct m.
  - intros. apply assignment_pre_save_twice. reflexivity.
  - apply project_pre_save_twice.
  - apply post_save_twice.
  - apply assignment_write_twice.
  - apply put_cascade_twice.
Qed.

(** ** C3: the progress of a project is the rounded mean *)






(** The portal with assignments at 33 and 50 percent is stored at 42. *)
Example updateProgress_rounds_up :
  Db.findById Project._id "p1"
    (projects (Models.Project_updateProgress Sample.portal Sample.store2))
  = Some (Project.set_status "active" (Project.set_progress 42 Sample.portal)).
Proof. reflexivity. Qed.

(** ** C1, C2, C4: what [PUT /api/assignments/:id] leaves underived *)

(** On a successful [POST /api/assignments/:id/time-entries] the stored
    assignment has the new entry and its [actualHours] is the sum of the
    hours of its entries. *)
Lemma post_time_entries_actualHours (now : JS.Date) (caller : Caller)
    (id : JS.ObjectId) (body : JS.Body) (s s' : Store)
    (r : Response (list TimeEntry.t)) :
  AssignmentsRoutes.post_time_entries now caller id body s = (r, s') ->
  code r = 201%nat ->
  exists a',
    Db.findById Assignment._id id (assignments s') = Some a' /\
    data r = Some (Assignment.timeEntries a') /\
    Assignment.actualHours a' = Assignment.totalLoggedHours a' /\
    Assignment.actualHours a'
    == Spec.sum (map TimeEntry.hours (Assignment.timeEntries a')).
Proof.
  unfold AssignmentsRoutes.post_time_entries. intros H Hc.
  destruct (negb _ || negb _)%bool; [injection H as <- <-; discriminate|].
  destruct (Db.findById Assignment._id id (assignments s)) as [a|] eqn:F;
    [|injection H as <- <-; discriminate].
  destruct (negb _); [injection H as <- <-; discriminate|].
  unfold bind in H.
  destruct (AssignmentsRoutes.toDate _) as [|d];
    [injection H as <- <-; discriminate|].
  destruct (AssignmentsRoutes.parseFloat _) as [|h];
    [injection H as <- <-; discriminate|].
  destruct (AssignmentsRoutes.description_or_empty _) as [|t];
    [injection H as <- <-; discriminate|].
  unfold Models.Assignment_save in H.
  destruct (Assignment.invalid_paths _ _);
    [|injection H as <- <-; discriminate].
  unfold Models.Assignment_write in H. injection H as <- <-.
  set (a0 := Assignment.set_timeEntries _ a).
  set (a1 := Assignment.pre_save now true a0).
  exists a1. rewrite post_save_assignments. cbn [assignments with_assignments].
  assert (Hid : Assignment._id a1 = id).
  { unfold a1. rewrite assignment_pre_save_id. unfold a0.
    pose proof (findById_id _ _ _ _ F). now destruct a. }
  assert (Hsum : Assignment.actualHours a1 = Assignment.totalLoggedHours a1).
  { unfold a1 at 1. rewrite assignment_pre_save_actualHours.
    unfold Assignment.totalLoggedHours, a1.
    now rewrite assignment_pre_save_timeEntries. }
  repeat split.
  - rewrite <- Hid. apply findById_replaceOne. rewrite Hid, F. eauto.
  - exact Hsum.
  - rewrite Hsum. unfold Assignment.totalLoggedHours.
    rewrite (reduce_sum TimeEntry.hours). lra.
Qed.




(** ** C5: reads of one entity by its id *)




(** ** C6: the fields of a self-update *)

Lemma pick_lookup_acc (ks : list string) (body acc : JS.Body) (k : string) :
  foldl (fun out k =>
           match body !! k with
           | Some v => <[k := v]> out
           | None => out
           end) acc ks !! k
  = match (if decide (k ∈ ks) then body !! k else None) with
    | Some v => Some v
    | None => acc !! k
    end.
Proof.
  revert acc. induction ks as [|x r IH]; intros acc; cbn [foldl].
  - rewrite decide_False by apply not_elem_of_nil. reflexivity.
  - rewrite IH. destruct (decide (k ∈ r)) as [Hr|Hr].
    + rewrite decide_True by (now apply elem_of_cons; right).
      destruct (body !! k) eqn:Ek; [reflexivity|].
      destruct (body !! x) eqn:Ex; [|reflexivity].
      rewrite lookup_insert_ne; [reflexivity|]. congruence.
    + destruct (decide (k = x)) as [->|Hx].
      * rewrite decide_True by (apply elem_of_cons; now left).
        destruct (body !! x) eqn:Ex; [|reflexivity].
        now rewrite lookup_insert_eq.
      * rewrite decide_False
          by (intros [?|?]%elem_of_cons; [congruence | contradiction]).
        destruct (body !! x); [|reflexivity].
        rewrite lookup_insert_ne; [reflexivity|]. congruence.
Qed.

(** The picked body has the picked keys of the body and nothing else. *)
Lemma pick_lookup (ks : list string) (body : JS.Body) (k : string) :
  JS.pick ks body !! k = if decide (k ∈ ks) then body !! k else None.
Proof.
  unfold JS.pick. rewrite pick_lookup_acc.
  destruct (if decide (k ∈ ks) then body !! k else None); [reflexivity|].
  apply lookup_empty.
Qed.

Lemma pick_ext (ks : list string) (body body' : JS.Body) :
  (forall k, k ∈ ks -> body !! k = body' !! k) ->
  JS.pick ks body = JS.pick ks body'.
Proof.
  intros H. apply map_eq. intros k. rewrite !pick_lookup.
  destruct (decide (k ∈ ks)); [now apply H | reflexivity].
Qed.

Lemma assign_preserves {A B} (P : User.t -> B) (x : option A)
    (set : A -> User.t -> User.t) (d : User.t) :
  (forall a d, P (set a d) = P d) -> P (Schema.assign x set d) = P d.
Proof. intros H. destruct x; cbn; [apply H | reflexivity]. Qed.

Lemma castPath_absent {A} (update : JS.Body) (path : string)
    (f : string -> JS.Value -> Result A) (x : option A) :
  update !! path = None -> Schema.castPath update path f = inr x -> x = None.
Proof. unfold Schema.castPath. intros ->. now intros [= <-]. Qed.

(** An update without the paths [role], [department], [experienceLevel],
    [hourlyRate], [utilization], [efficiency] and [isActive] leaves them
    as they are. *)
Lemma user_update_frame (update : JS.Body) (U : User.Update) (d : User.t) :
  User.castUpdate update = inr U ->
  update !! "role" = None -> update !! "department" = None ->
  update !! "experienceLevel" = None -> update !! "hourlyRate" = None ->
  update !! "utilization" = None -> update !! "efficiency" = None ->
  update !! "isActive" = None ->
  User.protected (User.applyUpdate U d) = User.protected d /\
  User.department (User.applyUpdate U d) = User.department d /\
  User.experienceLevel (User.applyUpdate U d) = User.experienceLevel d.
Proof.
  unfold User.castUpdate, bind. intros H H1 H2 H3 H4 H5 H6 H7.
  repeat match type of H with
         | context [Schema.castPath ?u ?k ?f] =>
             let E := fresh "E" in
             destruct (Schema.castPath u k f) eqn:E; [discriminate H|]
         end.
  injection H as <-.
  repeat match goal with
         | E : Schema.castPath _ ?k _ = inr _, N : _ !! ?k = None |- _ =>
             apply (castPath_absent _ _ _ _ N) in E; subst
         end.
  unfold User.applyUpdate, User.protected.
  cbn [User.u_firstName User.u_lastName User.u_role User.u_department
       User.u_experienceLevel User.u_skills User.u_hourlyRate
       User.u_availability User.u_location User.u_phone User.u_utilization
       User.u_efficiency User.u_isActive Schema.assign].
  rewrite !(assign_preserves User._id) by (now intros ? []).
  rewrite !(assign_preserves User.role) by (now intros ? []).
  rewrite !(assign_preserves User.hourlyRate) by (now intros ? []).
  rewrite !(assign_preserves User.utilization) by (now intros ? []).
  rewrite !(assign_preserves User.efficiency) by (now intros ? []).
  rewrite !(assign_preserves User.isActive) by (now intros ? []).
  rewrite !(assign_preserves User.department) by (now intros ? []).
  rewrite !(assign_preserves User.experienceLevel) by (now intros ? []).
  repeat split.
Qed.

Lemma set_if_truthy_preserves {A B} (P : User.t -> B) (body : JS.Body)
    (path : string) (cast : string -> JS.Value -> Result A)
    (set : A -> User.t -> User.t) (u u' : User.t) :
  AuthRoutes.set_if_truthy body path cast set u = inr u' ->
  (forall a d, P (set a d) = P d) -> P u' = P u.
Proof.
  unfold AuthRoutes.set_if_truthy, bind. intros H HP.
  destruct (JS.truthy _); [|now injection H as <-].
  destruct (body !! path); [|now injection H as <-].
  destruct (cast path _); [discriminate|]. injection H as <-. apply HP.
Qed.

(** The branch of [PUT /api/users/:id] taken by an engineer on their own
    id. *)
Lemma users_put_self (caller : Caller) (body : JS.Body) (s : Store) (u : User.t) :
  caller_role caller = "engineer" ->
  Db.findById User._id (caller_id caller) (users s) = Some u ->
  UsersRoutes.put caller (caller_id caller) body s
  = match Models.User_findByIdAndUpdate (caller_id caller)
            (JS.pick UsersRoutes.allowedFields body) s with
    | inl e => (on_error e, s)
    | inr (user, s') =>
        (mkResponse 200 true "User updated successfully" user, s')
    end.
Proof.
  intros Hrole Hu. unfold UsersRoutes.put.
  rewrite Hu, Hrole, String.eqb_refl. reflexivity.
Qed.

Lemma users_put_self_frame (caller : Caller) (body : JS.Body) (s : Store)
    (u u' : User.t) :
  caller_role caller = "engineer" ->
  Db.findById User._id (caller_id caller) (users s) = Some u ->
  data (fst (UsersRoutes.put caller (caller_id caller) body s)) = Some u' ->
  User.protected u' = User.protected u /\
  User.department u' = User.department u /\
  User.experienceLevel u' = User.experienceLevel u.
Proof.
  intros Hrole Hu. rewrite (users_put_self _ _ _ _ Hrole Hu).
  unfold Models.User_findByIdAndUpdate, bind.
  destruct (User.castUpdate _) as [e|U] eqn:EU; [destruct e; discriminate|].
  destruct (User.invalid_update U); [|discriminate].
  rewrite Hu. cbn [fst data]. intros [= <-].
  apply (user_update_frame _ U u EU); rewrite pick_lookup; reflexivity.
Qed.

(** An engineer sends [{ department: "Design" }] to [PUT /api/auth/profile]:
    the department, which is not one of the six fields, changes. *)
Lemma C6_counterexample :
  ~ (forall (caller : Caller) (body : JS.Body) (s : Store) (u u' : User.t),
       caller_role caller = "engineer" ->
       Db.findById User._id (caller_id caller) (users s) = Some u ->
       data (fst (AuthRoutes.put_profile caller body s)) = Some u' ->
       User.department u' = User.department u).
Proof.
  intros H.
  specialize (H Sample.alex_caller {[ "department" := JS.Str "Design" ]}
                Sample.store Sample.alex
                (User.set_department "Design" Sample.alex)
                eq_refl eq_refl eq_refl).
  discriminate H.
Qed.

(** C6 (amended).  For a caller with role engineer:
    - [PUT /api/users/:id] on the caller's own id uses only the keys
      firstName, lastName, phone, location, skills and availability of the
      body: two bodies that agree on them have the same outcome, and the
      updated user has the role, department, experience level, hourly
      rate, utilization, efficiency, activity flag and id it had; the body
      [{ role: "admin", firstName: "X" }] changes the first name only;
    - [PUT /api/auth/profile] uses those six keys and also department and
      experienceLevel: two bodies that agree on the eight have the same
      outcome, and the updated user has the role, hourly rate,
      utilization, efficiency, activity flag and id it had; the body
      [{ role: "admin", firstName: "X" }] changes the first name only. *)
Theorem C6_self_update_fields (caller : Caller) (body body' : JS.Body)
    (s : Store) (u : User.t) :
  caller_role caller = "engineer" ->
  Db.findById User._id (caller_id caller) (users s) = Some u ->
  let example : JS.Body :=
    {[ "role" := JS.Str "admin"; "firstName" := JS.Str "X" ]} in
  let renamed := User.set_firstName "X" u in
  ((forall k, k ∈ UsersRoutes.allowedFields -> body !! k = body' !! k) ->
   UsersRoutes.put caller (caller_id caller) body s
   = UsersRoutes.put caller (caller_id caller) body' s) /\
  (forall u',
     data (fst (UsersRoutes.put caller (caller_id caller) body s)) = Some u' ->
     User.protected u' = User.protected u /\
     User.department u' = User.department u /\
     User.experienceLevel u' = User.experienceLevel u) /\
  UsersRoutes.put caller (caller_id caller) example s
  = (mkResponse 200 true "User updated successfully" (Some renamed),
     with_users (Db.replaceOne User._id renamed (users s)) s) /\
  ((forall k, k ∈ AuthRoutes.profileFields -> body !! k = body' !! k) ->
   AuthRoutes.put_profile caller body s = AuthRoutes.put_profile caller body' s) /\
  (forall u',
     data (fst (AuthRoutes.put_profile caller body s)) = Some u' ->
     User.protected u' = User.protected u) /\
  (User.invalid_paths u = [] ->
   AuthRoutes.put_profile caller example s
   = (ok 200 "Profile updated successfully" renamed,
      with_users (Db.replaceOne User._id renamed (users s)) s)).
Proof.
  intros Hrole Hu example renamed.
  repeat split; try intros u' Hd.
  - (* PUT /users/:id reads the six keys only *)
    intros Hagree. rewrite !(users_put_self _ _ _ _ Hrole Hu).
    now rewrite (pick_ext _ body body' Hagree).
  - (* PUT /users/:id leaves the other paths *)
    now apply (users_put_self_frame caller body s u u' Hrole Hu).
  - now apply (users_put_self_frame caller body s u u' Hrole Hu).
  - now apply (users_put_self_frame caller body s u u' Hrole Hu).
  - (* the example on PUT /users/:id *)
    rewrite (users_put_self _ _ _ _ Hrole Hu).
    unfold Models.User_findByIdAndUpdate.
    assert (User.castUpdate (JS.pick UsersRoutes.allowedFields example)
            = inr (User.mkUpdate (Some "X") None None None None None None
                     None None None None None None)) as ->
      by (vm_compute; reflexivity).
    cbn. rewrite Hu. reflexivity.
  - (* PUT /auth/profile reads the eight keys only *)
    intros Hagree. unfold AuthRoutes.put_profile. rewrite Hu.
    unfold AuthRoutes.set_if_truthy.
    assert (Hk : forall k, k ∈ AuthRoutes.profileFields ->
                           body !! k = body' !! k) by exact Hagree.
    rewrite (Hk "firstName"), (Hk "lastName"), (Hk "phone"), (Hk "location"),
      (Hk "skills"), (Hk "availability"), (Hk "department"),
      (Hk "experienceLevel");
      [reflexivity | ..];
      unfold AuthRoutes.profileFields;
      repeat (apply elem_of_cons; first [now left | right]).
  - (* PUT /auth/profile leaves the other paths *)
    revert Hd. unfold AuthRoutes.put_profile. rewrite Hu. unfold bind.
    repeat match goal with
           | |- context [AuthRoutes.set_if_truthy ?b ?k ?c ?f ?d] =>
               let E := fresh "E" in
               let e := fresh "e" in
               let x := fresh "x" in
               destruct (AuthRoutes.set_if_truthy b k c f d) as [e|x] eqn:E;
               [destruct e; discriminate|];
               apply (set_if_truthy_preserves User.protected) in E;
               [|now intros ? []]
           end.
    destruct (Models.User_save _ s) as [e|]; [destruct e; discriminate|].
    cbn. intros [= <-]. congruence.
  - (* the example on PUT /auth/profile *)
    intros Hvalid. unfold AuthRoutes.put_profile. rewrite Hu.
    unfold AuthRoutes.set_if_truthy, bind.
    change (example !! "firstName") with (Some (JS.Str "X")).
    change (example !! "lastName") with (@None JS.Value).
    change (example !! "phone") with (@None JS.Value).
    change (example !! "location") with (@None JS.Value).
    change (example !! "skills") with (@None JS.Value).
    change (example !! "availability") with (@None JS.Value).
    change (example !! "department") with (@None JS.Value).
    change (example !! "experienceLevel") with (@None JS.Value).
    cbn [JS.truthy negb String.eqb Ascii.eqb Bool.eqb Schema.castTrimmed
         Schema.castString bind].
    change (JS.trim "X") with "X". unfold Models.User_save.
    assert (User.invalid_paths (User.set_firstName "X" u) = []) as ->.
    { revert Hvalid. unfold User.invalid_paths. destruct u; cbn.
      destruct (User.valid_name firstName); cbn; [tauto | discriminate]. }
    reflexivity.
Qed.

Lemma C6_witness :
  let example : JS.Body :=
    {[ "role" := JS.Str "admin"; "firstName" := JS.Str "X" ]} in
  let renamed := User.set_firstName "X" Sample.alex in
  UsersRoutes.put Sample.alex_caller "u1" example Sample.store
  = (mkResponse 200 true "User updated successfully" (Some renamed),
     with_users (Db.replaceOne User._id renamed (users Sample.store))
       Sample.store) /\
  AuthRoutes.put_profile Sample.alex_caller example Sample.store
  = (ok 200 "Profile updated successfully" renamed,
     with_users (Db.replaceOne User._id renamed (users Sample.store))
       Sample.store).
Proof.
  pose proof (C6_self_update_fields Sample.alex_caller ∅ ∅ Sample.store
                Sample.alex eq_refl eq_refl) as (_ & _ & H1 & _ & _ & H2).
  split; [exact H1 | apply H2; reflexivity].
Defined.

(** ** C7: the workload of an engineer *)





(** [GET /api/engineers/:id/workload] on an engineer with 40 hours and
    assignments of 25 and 20 hours. *)
Example get_workload_sample :
  option_map EngineersRoutes.currentWorkload
    (data (EngineersRoutes.get_workload 0%Z Sample.sarah_caller "u1"
             (mkStore [Sample.alex] [Sample.portal]
                [Sample.task "a1" "u1" "active" 0 25;
                 Sample.task "a2" "u1" "in-progress" 50 20;
                 Sample.task "a3" "u1" "completed" 100 30])))
  = Some (EngineersRoutes.mkCurrentWorkload 2 45 0 113 true).
Proof. reflexivity. Qed.

(** ** C9: the last administrator *)

Lemma count_unique_id (f : User.t -> bool) (id : JS.ObjectId) (l : list User.t) :
  NoDup (map User._id l) ->
  (forall v, In v l -> f v = true -> User._id v = id) ->
  (Db.countDocuments f l <= 1)%nat.
Proof.
  unfold Db.countDocuments.
  induction l as [|x r IH]; cbn; intros Hnd Hall; [lia|].
  apply NoDup_cons in Hnd as [Hx Hnd].
  destruct (f x) eqn:Ex.
  - assert (List.filter f r = []) as ->; [|cbn; lia].
    destruct (List.filter f r) as [|y ys] eqn:Ef; [reflexivity|].
    exfalso. apply Hx.
    assert (Hy : In y (List.filter f r)) by (rewrite Ef; now left).
    apply filter_In in Hy as [Hy Hfy].
    rewrite (Hall x) by (auto; now left).
    rewrite <- (Hall y) by (auto; now right).
    apply list_elem_of_In, in_map, Hy.
  - apply IH; [exact Hnd|]. intros v Hv. apply Hall. now right.
Qed.

(** C9.  A delete request on a user with role admin who is the only active
    administrator is refused with 400 and "Cannot delete the last admin
    user", and the collections are left as they were: the user is still
    active and no assignment is touched. *)
Theorem C9_last_admin_refused (caller : Caller) (id : JS.ObjectId) (s : Store)
    (user : User.t) :
  Db.findById User._id id (users s) = Some user ->
  User.role user = "admin" ->
  User.isActive user = true ->
  NoDup (map User._id (users s)) ->
  (forall v, In v (users s) ->
             User.role v = "admin" -> User.isActive v = true -> User._id v = id) ->
  UsersRoutes.delete_user caller id s
  = (fail 400 "Cannot delete the last admin user", s) /\
  Db.findById User._id id (users (snd (UsersRoutes.delete_user caller id s)))
  = Some user /\
  assignments (snd (UsersRoutes.delete_user caller id s)) = assignments s.
Proof.
  intros Hu Hrole Hact Hnd Hall.
  assert (E : UsersRoutes.delete_user caller id s
              = (fail 400 "Cannot delete the last admin user", s)).
  { unfold UsersRoutes.delete_user. rewrite Hu, Hrole. cbn [String.eqb].
    change (String.eqb "admin" "admin") with true. cbv iota.
    assert (Nat.leb
              (Db.countDocuments
                 (fun u => String.eqb (User.role u) "admin" && User.isActive u)%bool
                 (users s)) 1 = true) as ->; [|reflexivity].
    apply Nat.leb_le. apply (count_unique_id _ id); [exact Hnd|].
    intros v Hv [Hr Ha]%andb_true_iff. apply Hall; auto.
    now apply String.eqb_eq. }
  rewrite E. cbn [snd]. auto.
Qed.

Lemma C9_witness :
  UsersRoutes.delete_user Sample.root_caller "r1" Sample.store
  = (fail 400 "Cannot delete the last admin user", Sample.store).
Proof.
  apply (C9_last_admin_refused Sample.root_caller "r1" Sample.store Sample.root).
  - reflexivity.
  - reflexivity.
  - reflexivity.
  - cbn. repeat (apply NoDup_cons; split;
                 [rewrite ?elem_of_cons, elem_of_nil; intuition discriminate|]).
    apply NoDup_nil. exact I.
  - cbn. intros v [<-|[<-|[<-|[<-|[]]]]]; cbn; intros; congruence.
Defined.

(** A second active administrator makes the same request succeed: the
    user is deactivated. *)
Example delete_admin_with_another :
  let s := mkStore [Sample.root; User.set_role "admin" Sample.sarah] [] [] in
  UsersRoutes.delete_user Sample.root_caller "r1" s
  = (mkResponse 200 true "User deactivated successfully" None,
     mkStore [User.set_isActive false Sample.root;
              User.set_role "admin" Sample.sarah] [] []).
Proof. reflexivity. Qed.

(** ** C10: the metrics of an engineer *)








(** A negative metric is stored as 0 and one above 100 as 100. *)
Example put_metrics_out_of_range :
  data (fst (EngineersRoutes.put_metrics Sample.sarah_caller "u1"
               {[ "utilization" := JS.Num (-5); "efficiency" := JS.Num 250 ]}
               Sample.store))
  = Some (EngineersRoutes.mkMetrics "u1" 0 100).
Proof. reflexivity. Qed.

(** * Further properties of the routes and models *)

(** ** Time entries *)



(** X2.  [POST /api/assignments/:id/time-entries] answers 400 when the date
    or the hours are missing (or 0), before it looks the assignment up; on
    an assignment that exists it answers 403 to every caller but the
    assignee, whatever the role; and an answer other than 201 leaves the
    collections as they were. *)
Theorem time_entry_rejections (now : JS.Date) (caller : Caller)
    (id : JS.ObjectId) (body : JS.Body) (s : Store) :
  let r := AssignmentsRoutes.post_time_entries now caller id body s in
  (JS.truthy (body !! "date") = false \/ JS.truthy (body !! "hours") = false ->
   r = (fail 400 "Date and hours are required", s)) /\
  (forall a,
     JS.truthy (body !! "date") = true -> JS.truthy (body !! "hours") = true ->
     Db.findById Assignment._id id (assignments s) = Some a ->
     Assignment.assignee a <> caller_id caller ->
     r = (fail 403 "Only the assignee can log time for this assignment", s)) /\
  (code (fst r) <> 201%nat -> snd r = s).
Proof.
  cbv zeta. unfold AssignmentsRoutes.post_time_entries. repeat split.
  - intros [-> | ->]; cbn; [reflexivity|].
    now rewrite orb_true_r.
  - intros a -> -> -> Hne. cbn.
    apply String.eqb_neq in Hne. now rewrite Hne.
  - destruct (negb _ || negb _)%bool; [reflexivity|].
    destruct (Db.findById Assignment._id id (assignments s)); [|reflexivity].
    destruct (negb _); [reflexivity|].
    match goal with |- context [match ?x with inl _ => _ | inr _ => _ end] =>
      destruct x as [e|[a' s']] end; [reflexivity|].
    cbn. congruence.
Qed.

Lemma time_entry_rejections_witness :
  AssignmentsRoutes.post_time_entries 1000%Z Sample.root_caller "a1"
    {[ "date" := JS.Num 500; "hours" := JS.Num 2 ]} Sample.store
  = (fail 403 "Only the assignee can log time for this assignment", Sample.store)
  /\
  AssignmentsRoutes.post_time_entries 1000%Z Sample.alex_caller "a9"
    {[ "date" := JS.Num 500; "hours" := JS.Num 0 ]} Sample.store
  = (fail 400 "Date and hours are required", Sample.store).
Proof.
  split.
  - apply (time_entry_rejections 1000%Z Sample.root_caller "a1"
             {[ "date" := JS.Num 500; "hours" := JS.Num 2 ]} Sample.store)
      with (a := Sample.task "a1" "u1" "active" 0 25);
      [reflexivity | reflexivity | reflexivity | discriminate].
  - apply (time_entry_rejections 1000%Z Sample.alex_caller "a9"
             {[ "date" := JS.Num 500; "hours" := JS.Num 0 ]} Sample.store).
    right. reflexivity.
Defined.

(** Case analysis on the tests of a hook, in the order it runs them. *)
Ltac no_if x :=
  lazymatch x with
  | context [if _ then _ else _] => fail
  | _ => idtac
  end.

Ltac hook_simpl :=
  cbn [andb orb negb
       Assignment.set_actualHours Assignment.set_status
       Assignment.set_completedAt Assignment.progress Assignment.status
       Assignment.timeEntries Assignment._id
       Assignment.title Assignment.description Assignment.project
       Assignment.assignee Assignment.assignedBy Assignment.priority
       Assignment.estimatedHours Assignment.actualHours Assignment.deadline
       Assignment.completedAt
       Project.set_status Project.progress Project.status].

Ltac hook_step :=
  hook_simpl;
  match goal with
  | |- context [JS.eqb ?x ?y] =>
      no_if x;
      let E := fresh "E" in
      destruct (JS.eqb x y) eqn:E;
      [apply eqb_Qeq in E
      | assert (~ x == y) by (intros ?%eqb_Qeq; congruence); clear E]
  | |- context [String.eqb ?x ?y] =>
      no_if x;
      let v := eval vm_compute in (String.eqb x y) in
      lazymatch v with
      | true => change (String.eqb x y) with true
      | false => change (String.eqb x y) with false
      | _ => destruct (String.eqb_spec x y) as [->|?]
      end
  | |- context [JS.gtb ?x ?y] =>
      no_if x;
      let E := fresh "E" in
      destruct (JS.gtb x y) eqn:E;
      [apply gtb_Qlt in E
      | assert (~ y < x) by (intros ?%gtb_Qlt; congruence); clear E]
  end.

(** ** The assignment document *)

(** X3.  After [AssignmentSchema.pre("save")] an assignment at 100 percent
    is completed and one with any progress is neither pending nor active.
    The hook moves the status only to completed or in-progress, stamps
    [completedAt] only when it completes the assignment, rewrites
    [actualHours] only when the time entries are modified, and leaves every
    other path. *)
Theorem assignment_hook_status (now : JS.Date) (m : bool) (a : Assignment.t) :
  let a' := Assignment.pre_save now m a in
  (Assignment.progress a == 100 -> Assignment.status a' = "completed") /\
  (0 < Assignment.progress a ->
   Assignment.status a' <> "pending" /\ Assignment.status a' <> "active") /\
  (Assignment.status a' = Assignment.status a \/
   Assignment.status a' = "completed" \/ Assignment.status a' = "in-progress") /\
  (Assignment.completedAt a' = Assignment.completedAt a \/
   (Assignment.completedAt a' = Some now /\ Assignment.status a' = "completed" /\
    Assignment.status a <> "completed")) /\
  (m = false -> Assignment.actualHours a' = Assignment.actualHours a) /\
  (Assignment._id a', Assignment.title a', Assignment.description a',
   Assignment.project a', Assignment.assignee a', Assignment.assignedBy a',
   Assignment.priority a', Assignment.progress a', Assignment.estimatedHours a',
   Assignment.deadline a', Assignment.timeEntries a')
  = (Assignment._id a, Assignment.title a, Assignment.description a,
     Assignment.project a, Assignment.assignee a, Assignment.assignedBy a,
     Assignment.priority a, Assignment.progress a, Assignment.estimatedHours a,
     Assignment.deadline a, Assignment.timeEntries a).
Proof.
  destruct a as [i t d p ae ab st pr pg eh ah dl ca te].
  cbv zeta. unfold Assignment.pre_save.
  destruct m; repeat hook_step; hook_simpl;
    (repeat split; intros; try reflexivity; try discriminate;
     try contradiction; try congruence;
     first [ left; reflexivity
           | right; left; reflexivity
           | right; right; reflexivity
           | right; repeat split;
             first [reflexivity | assumption | discriminate] ]).
Qed.

(** X4.  The virtual [efficiency] of an assignment with a positive estimate
    lies between 0 and 100, and is 100 as long as the logged hours do not
    exceed the estimate; it is 0 for an estimate of 0. *)
Theorem assignment_efficiency_bounds (a : Assignment.t) :
  (0 < Assignment.estimatedHours a ->
   (0 <= Assignment.efficiency a <= 100)%Z) /\
  (0 < Assignment.estimatedHours a ->
   Assignment.totalLoggedHours a <= Assignment.estimatedHours a ->
   Assignment.efficiency a = 100%Z) /\
  (Assignment.estimatedHours a == 0 -> Assignment.efficiency a = 0%Z).
Proof.
  unfold Assignment.efficiency.
  generalize (Assignment.estimatedHours a) (Assignment.totalLoggedHours a).
  unfold JS.Number. intros e l.
  split; [|split].
  - intros He.
    destruct (JS.eqb e 0) eqn:E0; [apply eqb_Qeq in E0; lra|].
    unfold JS.Math_max, JS.Math_round.
    pose proof (Q.le_max_r l e) as Hm.
    set (mx := Qmax l e) in *. clearbody mx.
    assert (Hr : 0 <= e / mx * 100 /\ e / mx * 100 <= 100).
    { assert (0 < mx) by lra.
      assert (0 < e / mx).
      { apply Qlt_shift_div_l; [assumption|]. now rewrite Qmult_0_l. }
      assert (e / mx <= 1).
      { apply Qle_shift_div_r; [assumption|]. now rewrite Qmult_1_l. }
      generalize dependent (e / mx). intros q ? ?. split; lra. }
    destruct Hr as [Hr0 Hr1]. split.
    + rewrite <- (Qfloor_Z 0). apply Qfloor_resp_le.
      change (inject_Z 0) with 0. lra.
    + apply Z.le_trans with (Qfloor (100 + (1 # 2))); [|discriminate].
      apply Qfloor_resp_le. lra.
  - intros He Hle.
    destruct (JS.eqb e 0) eqn:E0; [apply eqb_Qeq in E0; lra|].
    unfold JS.Math_max.
    assert (Hm : Qmax l e == e) by (now apply Q.max_r).
    transitivity (JS.Math_round 100); [|reflexivity].
    apply Math_round_Qeq. rewrite Hm. field. lra.
  - intros H0. apply eqb_Qeq in H0. now rewrite H0.
Qed.

Lemma assignment_efficiency_bounds_witness :
  let a := Sample.task "a1" "u1" "active" 0 25 in
  (0 <= Assignment.efficiency a <= 100)%Z.
Proof.
  apply (assignment_efficiency_bounds (Sample.task "a1" "u1" "active" 0 25)).
  reflexivity.
Defined.

Lemma ceiling_days_positive (d : Z) :
  (0 < Qceiling (inject_Z d / (1000 * 60 * 60 * 24)) <-> 0 < d)%Z.
Proof.
  set (x := inject_Z d / (1000 * 60 * 60 * 24)).
  assert (Hx : 0 < x <-> (0 < d)%Z).
  { unfold x. rewrite (Zlt_Qlt 0 d). change (inject_Z 0) with 0.
    set (q := inject_Z d).
    assert (Hq : q == q / (1000 * 60 * 60 * 24) * (1000 * 60 * 60 * 24))
      by (field; discriminate).
    set (y := q / (1000 * 60 * 60 * 24)) in *. split; intros; nra. }
  rewrite <- Hx. split; intros H.
  - pose proof (Qceiling_lt x) as Hc.
    assert (0 <= inject_Z (Qceiling x - 1)).
    { change 0 with (inject_Z 0). rewrite <- Zle_Qle. lia. }
    lra.
  - pose proof (Qle_ceiling x) as Hc.
    assert (0 < inject_Z (Qceiling x)) by lra.
    change 0 with (inject_Z 0) in H0. now rewrite <- Zlt_Qlt in H0.
Qed.

(** X5.  The virtual [daysUntilDeadline], of an assignment and of a project,
    is positive exactly while the deadline is in the future, and it is the
    number of days of 24 hours that covers the time left. *)
Theorem days_until_deadline (now : JS.Date) (a : Assignment.t) (p : Project.t) :
  ((0 < Assignment.daysUntilDeadline now a)%Z
   <-> (now < Assignment.deadline a)%Z) /\
  ((0 < Project.daysUntilDeadline now p)%Z <-> (now < Project.deadline p)%Z) /\
  ((Assignment.daysUntilDeadline now a - 1) * 86400000
   < Assignment.deadline a - now
   <= Assignment.daysUntilDeadline now a * 86400000)%Z.
Proof.
  unfold Assignment.daysUntilDeadline, Project.daysUntilDeadline.
  rewrite !ceiling_days_positive. split; [lia|]. split; [lia|].
  set (d := (Assignment.deadline a - now)%Z).
  set (x := inject_Z d / (1000 * 60 * 60 * 24)).
  pose proof (Qceiling_lt x) as Hlo. pose proof (Qle_ceiling x) as Hhi.
  assert (Hq : inject_Z d == x * 86400000) by (unfold x; field).
  set (c := Qceiling x) in *.
  assert (Hm : inject_Z (c - 1) == inject_Z c - 1).
  { unfold Z.sub. rewrite inject_Z_plus. change (inject_Z (- (1))) with (- (1)).
    ring. }
  rewrite Hm in Hlo.
  split.
  - rewrite Zlt_Qlt, inject_Z_mult, Hq, Hm.
    change (inject_Z 86400000) with 86400000.
    generalize dependent (inject_Z c). intros; lra.
  - rewrite Zle_Qle, inject_Z_mult, Hq.
    change (inject_Z 86400000) with 86400000.
    generalize dependent (inject_Z c). intros; lra.
Qed.

Lemma assignment_hook_status_witness :
  Assignment.status
    (Assignment.pre_save 5%Z false (Sample.task "a1" "u1" "active" 100 25))
  = "completed".
Proof.
  apply (assignment_hook_status 5%Z false (Sample.task "a1" "u1" "active" 100 25)).
  reflexivity.
Defined.

(** ** Deletions *)

Section DeleteFacts.
Context {A : Type} (id_of : A -> JS.ObjectId).

Lemma findById_deleteOne_other (id id' : JS.ObjectId) (l : list A) :
  id' <> id ->
  Db.findById id_of id' (Db.deleteOne id_of id l) = Db.findById id_of id' l.
Proof.
  intros Hne. induction l as [|x r IH]; simpl; [reflexivity|].
  destruct (String.eqb (id_of x) id) eqn:E.
  - apply String.eqb_eq in E.
    assert (String.eqb (id_of x) id' = false) as ->
      by (apply String.eqb_neq; congruence).
    reflexivity.
  - simpl. destruct (String.eqb (id_of x) id'); [reflexivity | exact IH].
Qed.

Lemma length_deleteOne (id : JS.ObjectId) (l : list A) (d : A) :
  Db.findById id_of id l = Some d ->
  length l = S (length (Db.deleteOne id_of id l)).
Proof.
  induction l as [|x r IH]; simpl; [discriminate|].
  destruct (String.eqb (id_of x) id); [reflexivity|].
  intros H. simpl. f_equal. now apply IH.
Qed.

Lemma findById_absent (id : JS.ObjectId) (l : list A) :
  id ∉ map id_of l -> Db.findById id_of id l = None.
Proof.
  induction l as [|x r IH]; simpl; [reflexivity|].
  intros H. apply not_elem_of_cons in H as [H1 H2].
  assert (String.eqb (id_of x) id = false) as ->
    by (apply String.eqb_neq; congruence).
  now apply IH.
Qed.

(** With one document for each [_id], the deleted one is gone. *)
Lemma findById_deleteOne (id : JS.ObjectId) (l : list A) :
  NoDup (map id_of l) -> Db.findById id_of id (Db.deleteOne id_of id l) = None.
Proof.
  induction l as [|x r IH]; simpl; [reflexivity|].
  intros H. apply NoDup_cons in H as [H1 H2].
  destruct (String.eqb_spec (id_of x) id) as [<-|Hne].
  - now apply findById_absent.
  - simpl. apply String.eqb_neq in Hne. rewrite Hne. now apply IH.
Qed.

End DeleteFacts.

(** X6.  [DELETE /api/assignments/:id] touches the assignments only: the
    users and the projects, the progress of the project of the deleted
    assignment included, are as before.  On 200 one document is gone, the
    one with the [_id] when the [_id]s are unique, and every other
    assignment is read back as before; any other answer leaves the
    collections as they were; a manager is refused on a project they do not
    manage. *)
Theorem delete_assignment_effects (caller : Caller) (id : JS.ObjectId)
    (s : Store) :
  let r := AssignmentsRoutes.delete_assignment caller id s in
  users (snd r) = users s /\ projects (snd r) = projects s /\
  (code (fst r) = 200%nat ->
   length (assignments s) = S (length (assignments (snd r))) /\
   (NoDup (map Assignment._id (assignments s)) ->
    Db.findById Assignment._id id (assignments (snd r)) = None) /\
   forall id', id' <> id ->
     Db.findById Assignment._id id' (assignments (snd r))
     = Db.findById Assignment._id id' (assignments s)) /\
  (code (fst r) <> 200%nat -> snd r = s) /\
  (forall a p,
     caller_role caller = "manager" ->
     Db.findById Assignment._id id (assignments s) = Some a ->
     Db.findById Project._id (Assignment.project a) (projects s) = Some p ->
     Project.manager p <> caller_id caller ->
     r = (fail 403 "You can only delete assignments from projects you manage",
          s)).
Proof.
  cbv zeta. unfold AssignmentsRoutes.delete_assignment.
  destruct (Db.findById Assignment._id id (assignments s)) as [a|] eqn:F.
  - set (denied := if String.eqb (caller_role caller) "manager" then _ else _).
    assert (Hd : forall p,
               caller_role caller = "manager" ->
               Db.findById Project._id (Assignment.project a) (projects s)
               = Some p ->
               Project.manager p <> caller_id caller -> denied = Some true).
    { intros p Hr Hp Hm. unfold denied. rewrite Hr, Hp.
      apply String.eqb_neq in Hm. now rewrite Hm. }
    destruct denied as [[]|]; cbn.
    + repeat split; try discriminate; try congruence.
    + repeat split; try discriminate; try congruence.
      * now apply (length_deleteOne _ _ _ a).
      * intros. now apply findById_deleteOne.
      * intros. now apply findById_deleteOne_other.
      * intros a' p Hr [= <-] Hp Hm. specialize (Hd p Hr Hp Hm). discriminate.
    + repeat split; try discriminate; try congruence.
      intros a' p Hr [= <-] Hp Hm. specialize (Hd p Hr Hp Hm). discriminate.
  - cbn. repeat split; try discriminate; try congruence.
Qed.

Lemma delete_assignment_effects_witness :
  AssignmentsRoutes.delete_assignment (mkCaller "m2" "manager") "a1" Sample.store
  = (fail 403 "You can only delete assignments from projects you manage",
     Sample.store)
  /\ Db.findById Assignment._id "a1"
       (assignments
          (snd (AssignmentsRoutes.delete_assignment Sample.sarah_caller "a1"
                  Sample.store)))
     = None.
Proof.
  split.
  - apply (delete_assignment_effects (mkCaller "m2" "manager") "a1" Sample.store)
      with (a := Sample.task "a1" "u1" "active" 0 25) (p := Sample.portal);
      [reflexivity | reflexivity | reflexivity | discriminate].
  - apply (delete_assignment_effects Sample.sarah_caller "a1" Sample.store);
      [reflexivity|].
    vm_compute. apply NoDup_cons. split; [apply not_elem_of_nil | apply NoDup_nil_2].
Defined.

Lemma find_project_deleteMany (id : JS.ObjectId) (l : list Assignment.t) :
  List.filter (fun a => String.eqb (Assignment.project a) id)
    (Db.deleteMany (fun a => String.eqb (Assignment.project a) id) l) = [].
Proof.
  unfold Db.deleteMany. induction l as [|a l IH]; cbn; [reflexivity|].
  destruct (String.eqb (Assignment.project a) id) eqn:E; cbn;
    [exact IH | rewrite E; exact IH].
Qed.

(** X7.  [DELETE /api/projects/:id] on 200 removes the project and every
    assignment that refers to it, and nothing else: the assignments of the
    other projects stay, in their order, the other projects are read back
    as before, the users are untouched.  An administrator is never refused
    on a project that exists, a manager is refused on a project they do not
    manage, and a refusal changes nothing. *)
Theorem delete_project_cascade (caller : Caller) (id : JS.ObjectId) (s : Store) :
  let r := ProjectsRoutes.delete_project caller id s in
  users (snd r) = users s /\
  (code (fst r) = 200%nat ->
   assignments (snd r)
   = List.filter (fun a => negb (String.eqb (Assignment.project a) id))
       (assignments s) /\
   (forall a, In a (assignments (snd r)) -> Assignment.project a <> id) /\
   Models.Assignment_find_project id (snd r) = [] /\
   length (projects s) = S (length (projects (snd r))) /\
   (NoDup (map Project._id (projects s)) ->
    Db.findById Project._id id (projects (snd r)) = None) /\
   forall id', id' <> id ->
     Db.findById Project._id id' (projects (snd r))
     = Db.findById Project._id id' (projects s)) /\
  (code (fst r) <> 200%nat -> snd r = s) /\
  (forall p, Db.findById Project._id id (projects s) = Some p ->
     (caller_role caller = "admin" -> code (fst r) = 200%nat) /\
     (caller_role caller = "manager" -> Project.manager p <> caller_id caller ->
      r = (fail 403 "You can only delete projects you manage", s)) /\
     (caller_role caller = "manager" -> Project.manager p = caller_id caller ->
      code (fst r) = 200%nat)).
Proof.
  cbv zeta. unfold ProjectsRoutes.delete_project, ProjectsRoutes.not_own.
  destruct (Db.findById Project._id id (projects s)) as [p|] eqn:F;
    [|cbn; repeat split; try discriminate; congruence].
  assert (Hdone :
    let s' :=
      with_projects (Db.deleteOne Project._id id (projects s))
        (with_assignments
           (Db.deleteMany (fun a => String.eqb (Assignment.project a) id)
              (assignments s)) s) in
    assignments s'
    = List.filter (fun a => negb (String.eqb (Assignment.project a) id))
        (assignments s) /\
    (forall a, In a (assignments s') -> Assignment.project a <> id) /\
    Models.Assignment_find_project id s' = [] /\
    length (projects s) = S (length (projects s')) /\
    (NoDup (map Project._id (projects s)) ->
     Db.findById Project._id id (projects s') = None) /\
    forall id', id' <> id ->
      Db.findById Project._id id' (projects s')
      = Db.findById Project._id id' (projects s)).
  { cbn. split; [reflexivity|]. split.
    { intros a Ha. apply filter_In in Ha as [_ Ha].
      apply negb_true_iff, String.eqb_neq in Ha. exact Ha. }
    split; [apply find_project_deleteMany|].
    split; [now apply (length_deleteOne _ _ _ p)|].
    split; [intros; now apply findById_deleteOne|].
    intros. now apply findById_deleteOne_other. }
  destruct (String.eqb_spec (caller_role caller) "manager") as [Hr|Hr];
    cbn [andb].
  - destruct (String.eqb_spec (Project.manager p) (caller_id caller))
      as [Hm|Hm]; cbn [negb fst snd code fail users with_projects
                       with_assignments].
    + split; [reflexivity|]. split; [intros _; exact Hdone|].
      split; [intros H; now elim H|].
      intros p' [= <-]. split; [reflexivity|]. split; [contradiction|reflexivity].
    + split; [reflexivity|]. split; [discriminate|]. split; [reflexivity|].
      intros p' [= <-]. split; [congruence|]. split; [reflexivity|contradiction].
  - cbn [negb fst snd code fail users with_projects with_assignments].
    split; [reflexivity|]. split; [intros _; exact Hdone|].
    split; [intros H; now elim H|].
    intros p' [= <-]. split; [reflexivity|]. split; contradiction.
Qed.

Lemma delete_project_cascade_witness :
  assignments
    (snd (ProjectsRoutes.delete_project Sample.sarah_caller "p1" Sample.store2))
  = []
  /\ ProjectsRoutes.delete_project (mkCaller "m2" "manager") "p1" Sample.store2
     = (fail 403 "You can only delete projects you manage", Sample.store2).
Proof.
  split.
  - apply (delete_project_cascade Sample.sarah_caller "p1" Sample.store2).
    reflexivity.
  - apply (delete_project_cascade (mkCaller "m2" "manager") "p1" Sample.store2)
      with (p := Sample.portal); [reflexivity | reflexivity | discriminate].
Defined.

(** ** The team of a project *)

Lemma project_pre_save_team (p : Project.t) :
  Project.teamMembers (Project.pre_save p) = Project.teamMembers p /\
  Project.manager (Project.pre_save p) = Project.manager p.
Proof.
  unfold Project.pre_save.
  repeat match goal with |- context [if ?b then _ else _] => destruct b end;
    split; reflexivity.
Qed.

(** A project whose save succeeds is read back, hook applied. *)
Lemma project_save_reads_back (now : JS.Date) (id : JS.ObjectId)
    (p0 p p' : Project.t) (s s' : Store) :
  Db.findById Project._id id (projects s) = Some p0 ->
  Project._id p = id ->
  Models.Project_save now p s = inr (p', s') ->
  p' = Project.pre_save p /\
  Project.invalid_paths now p = [] /\
  Db.findById Project._id id (projects s') = Some p' /\
  users s' = users s /\ assignments s' = assignments s.
Proof.
  intros F Hid. unfold Models.Project_save.
  destruct (Project.invalid_paths now p); [|discriminate].
  intros [= <- <-]. cbn. repeat split.
  rewrite <- Hid, <- (project_pre_save_id p).
  apply findById_replaceOne. rewrite project_pre_save_id, Hid, F. eauto.
Qed.

(** What a successful [POST /api/projects/:id/team-members] did. *)
Lemma add_team_member_stores (now : JS.Date) (caller : Caller)
    (id : JS.ObjectId) (body : JS.Body) (s : Store) :
  code (fst (ProjectsRoutes.add_team_member now caller id body s)) = 200%nat ->
  exists (p : Project.t) (m : TeamMember.t) (s' : Store),
    Db.findById Project._id id (projects s) = Some p /\
    ProjectsRoutes.not_own caller p = false /\
    ProjectsRoutes.existingMember body p = false /\
    ProjectsRoutes.new_member body = inr m /\
    body !! "userId" = Some (JS.Str (TeamMember.user m)) /\
    TeamMember.valid m = true /\
    ProjectsRoutes.add_team_member now caller id body s
    = (ok 200 "Team member added successfully"
          (Project.teamMembers p ++ [m])%list, s') /\
    exists p', Db.findById Project._id id (projects s') = Some p' /\
      Project.teamMembers p' = (Project.teamMembers p ++ [m])%list /\
      Project.manager p' = Project.manager p.
Proof.
  unfold ProjectsRoutes.add_team_member.
  destruct (Db.findById Project._id id (projects s)) as [p|] eqn:F;
    [|discriminate].
  destruct (ProjectsRoutes.not_own caller p) eqn:Eown; [discriminate|].
  destruct (ProjectsRoutes.existingMember body p) eqn:Eex; [discriminate|].
  unfold bind.
  destruct (ProjectsRoutes.new_member body) as [e|m] eqn:Em; [discriminate|].
  set (p1 := Project.set_teamMembers _ p).
  destruct (Models.Project_save now p1 s) as [e|[p' s']] eqn:Es; [discriminate|].
  intros _.
  assert (Hid : Project._id p1 = id).
  { unfold p1. pose proof (findById_id _ _ _ _ F). now destruct p. }
  destruct (project_save_reads_back _ _ _ _ _ _ _ F Hid Es)
    as (-> & Hv & Hs' & _ & _).
  destruct (project_pre_save_team p1) as [Ht Hm].
  assert (Ht1 : Project.teamMembers p1 = (Project.teamMembers p ++ [m])%list)
    by (unfold p1; now destruct p).
  assert (Hm1 : Project.manager p1 = Project.manager p)
    by (unfold p1; now destruct p).
  exists p, m, s'.
  do 4 (split; [first [reflexivity | eassumption]|]).
  split.
  { unfold ProjectsRoutes.new_member, bind in Em.
    destruct (body !! "userId") as [vu|] eqn:Eu; [|discriminate].
    destruct vu as [| | |u| |]; try discriminate. cbn in Em.
    destruct (body !! "role") as [vr|] eqn:Er; [|discriminate].
    destruct (Schema.castTrimmed "teamMembers.role" vr) as [|rl];
      [discriminate|].
    destruct (JS.truthy (body !! "hoursPerWeek"));
      [destruct (body !! "hoursPerWeek") as [vh|];
       [destruct (Schema.castNumber _ vh); [discriminate|]|]|];
      now injection Em as <-. }
  split.
  { unfold Project.invalid_paths in Hv. rewrite !app_nil in Hv.
    destruct Hv as (_ & _ & _ & _ & _ & _ & _ & _ & Hv).
    destruct (forallb TeamMember.valid (Project.teamMembers p1)) eqn:Ef;
      [|discriminate Hv].
    rewrite forallb_forall in Ef. apply Ef.
    rewrite Ht1. apply in_app_iff. right. now left. }
  split; [now rewrite Ht, Ht1|].
  exists (Project.pre_save p1). split; [exact Hs'|].
  split; [now rewrite Ht|]. now rewrite Hm.
Qed.

(** X8.  When [POST /api/projects/:id/team-members] answers 200, the user
    of the body was not on the team, the stored team is the former one
    followed by the new member, who works between 1 and 60 hours a week, 40
    when the body gives no hours (or 0); the answer carries that team, and
    the same request sent again is refused with 400 and changes nothing. *)
Theorem add_team_member_effects (now now' : JS.Date) (caller : Caller)
    (id : JS.ObjectId) (body : JS.Body) (s : Store) :
  let r := ProjectsRoutes.add_team_member now caller id body s in
  code (fst r) = 200%nat ->
  exists (p p' : Project.t) (m : TeamMember.t),
    Db.findById Project._id id (projects s) = Some p /\
    body !! "userId" = Some (JS.Str (TeamMember.user m)) /\
    (forall x, In x (Project.teamMembers p) ->
               TeamMember.user x <> TeamMember.user m) /\
    (JS.truthy (body !! "hoursPerWeek") = false ->
     TeamMember.hoursPerWeek m = 40) /\
    1 <= TeamMember.hoursPerWeek m <= 60 /\
    Db.findById Project._id id (projects (snd r)) = Some p' /\
    Project.teamMembers p' = (Project.teamMembers p ++ [m])%list /\
    data (fst r) = Some (Project.teamMembers p') /\
    ProjectsRoutes.add_team_member now' caller id body (snd r)
    = (fail 400 "User is already a team member", snd r).
Proof.
  cbv zeta. intros H.
  destruct (add_team_member_stores _ _ _ _ _ H)
    as (p & m & s' & F & Eown & Eex & Em & Eu & Hvalid & -> & p' & F' & Ht & Hm).
  cbn [fst snd data ok].
  exists p, p', m. split; [exact F|]. split; [exact Eu|].
  split.
  { intros x Hx Heq. unfold ProjectsRoutes.existingMember in Eex.
    rewrite Eu in Eex.
    assert (existsb
              (fun member =>
                 String.eqb (TeamMember.user member) (TeamMember.user m))
              (Project.teamMembers p) = true); [|congruence].
    apply existsb_exists. exists x. split; [exact Hx|].
    now apply String.eqb_eq. }
  split.
  { intros Hf. unfold ProjectsRoutes.new_member, bind in Em.
    rewrite Hf in Em.
    destruct (match body !! "userId" with Some _ => _ | None => _ end);
      [discriminate|].
    destruct (match body !! "role" with Some _ => _ | None => _ end);
      [discriminate|].
    now injection Em as <-. }
  split.
  { unfold TeamMember.valid in Hvalid.
    apply andb_true_iff in Hvalid as [[_ H1]%andb_true_iff H2].
    apply leb_Qle in H1, H2. now split. }
  split; [exact F'|]. split; [exact Ht|]. split; [now rewrite Ht|].
  unfold ProjectsRoutes.add_team_member. rewrite F'.
  assert (ProjectsRoutes.not_own caller p' = false) as ->.
  { unfold ProjectsRoutes.not_own in *. now rewrite Hm. }
  assert (ProjectsRoutes.existingMember body p' = true) as ->.
  { unfold ProjectsRoutes.existingMember. rewrite Eu, Ht.
    rewrite existsb_app. cbn. rewrite String.eqb_refl.
    now rewrite orb_true_r. }
  reflexivity.
Qed.

Lemma add_team_member_effects_witness :
  let body : JS.Body :=
    {[ "userId" := JS.Str "u2"; "role" := JS.Str "Tester" ]} in
  let r :=
    ProjectsRoutes.add_team_member 1000%Z Sample.sarah_caller "p1" body
      Sample.store in
  exists (p p' : Project.t) (m : TeamMember.t),
    Db.findById Project._id "p1" (projects Sample.store) = Some p /\
    body !! "userId" = Some (JS.Str (TeamMember.user m)) /\
    (forall x, In x (Project.teamMembers p) ->
               TeamMember.user x <> TeamMember.user m) /\
    (JS.truthy (body !! "hoursPerWeek") = false ->
     TeamMember.hoursPerWeek m = 40) /\
    1 <= TeamMember.hoursPerWeek m <= 60 /\
    Db.findById Project._id "p1" (projects (snd r)) = Some p' /\
    Project.teamMembers p' = (Project.teamMembers p ++ [m])%list /\
    data (fst r) = Some (Project.teamMembers p') /\
    ProjectsRoutes.add_team_member 2000%Z Sample.sarah_caller "p1" body (snd r)
    = (fail 400 "User is already a team member", snd r).
Proof.
  apply (add_team_member_effects 1000%Z 2000%Z Sample.sarah_caller "p1"
           {[ "userId" := JS.Str "u2"; "role" := JS.Str "Tester" ]}
           Sample.store).
  vm_compute. reflexivity.
Defined.

(** What a successful [DELETE /api/projects/:id/team-members/:userId]
    did. *)
Lemma remove_team_member_stores (now : JS.Date) (caller : Caller)
    (id userId : JS.ObjectId) (s : Store) :
  code (fst (ProjectsRoutes.remove_team_member now caller id userId s))
  = 200%nat ->
  exists p p', Db.findById Project._id id (projects s) = Some p /\
    Db.findById Project._id id
      (projects (snd (ProjectsRoutes.remove_team_member now caller id userId s)))
    = Some p' /\
    data (fst (ProjectsRoutes.remove_team_member now caller id userId s))
    = Some (Project.teamMembers p') /\
    Project.teamMembers p'
    = List.filter (fun m => negb (String.eqb (TeamMember.user m) userId))
        (Project.teamMembers p).
Proof.
  unfold ProjectsRoutes.remove_team_member.
  destruct (Db.findById Project._id id (projects s)) as [p|] eqn:F;
    [|discriminate].
  destruct (ProjectsRoutes.not_own caller p); [discriminate|].
  set (p1 := Project.set_teamMembers _ p).
  destruct (Models.Project_save now p1 s) as [e|[p' s']] eqn:Es;
    [discriminate|].
  intros _. cbn [fst snd data ok].
  assert (Hid : Project._id p1 = id).
  { unfold p1. pose proof (findById_id _ _ _ _ F). now destruct p. }
  destruct (project_save_reads_back _ _ _ _ _ _ _ F Hid Es)
    as (-> & _ & Hs' & _ & _).
  destruct (project_pre_save_team p1) as [Ht _].
  exists p, (Project.pre_save p1). split; [reflexivity|].
  split; [exact Hs'|]. split; [reflexivity|].
  rewrite Ht. unfold p1. now destruct p.
Qed.

(** X9.  A member added through [POST /api/projects/:id/team-members] and
    removed again through [DELETE /api/projects/:id/team-members/:userId]
    leaves the team as it was: the answer of the removal is the team the
    project had before the addition.  In general a removal that answers 200
    stores the team without the members of that user, the others in their
    order, and a removal that does not answer 200 changes nothing. *)
Theorem team_member_round_trip (now now' : JS.Date) (caller caller' : Caller)
    (id userId : JS.ObjectId) (body : JS.Body) (s : Store) :
  let r1 := ProjectsRoutes.add_team_member now caller id body s in
  let r2 := ProjectsRoutes.remove_team_member now' caller' id userId (snd r1) in
  let r := ProjectsRoutes.remove_team_member now' caller' id userId s in
  (body !! "userId" = Some (JS.Str userId) ->
   code (fst r1) = 200%nat -> code (fst r2) = 200%nat ->
   exists p, Db.findById Project._id id (projects s) = Some p /\
             data (fst r2) = Some (Project.teamMembers p)) /\
  (code (fst r) = 200%nat ->
   exists p p', Db.findById Project._id id (projects s) = Some p /\
     Db.findById Project._id id (projects (snd r)) = Some p' /\
     Project.teamMembers p'
     = List.filter (fun m => negb (String.eqb (TeamMember.user m) userId))
         (Project.teamMembers p) /\
     (forall m, In m (Project.teamMembers p') -> TeamMember.user m <> userId)) /\
  (code (fst r) <> 200%nat -> snd r = s).
Proof.
  cbv zeta. split; [|split].
  - intros Hb H1.
    destruct (add_team_member_stores _ _ _ _ _ H1)
      as (p & m & s' & F & _ & Eex & _ & Eu & _ & -> & p' & F' & Ht & _).
    cbn [snd]. intros H2.
    destruct (remove_team_member_stores _ _ _ _ _ H2)
      as (q & q' & Fq & _ & Hd & Hf).
    rewrite F' in Fq. injection Fq as <-.
    exists p. split; [exact F|]. rewrite Hd, Hf, Ht. f_equal.
    rewrite Hb in Eu. injection Eu as Hu.
    rewrite List.filter_app. cbn. rewrite <- Hu, String.eqb_refl. cbn.
    rewrite app_nil_r.
    unfold ProjectsRoutes.existingMember in Eex. rewrite Hb in Eex.
    clear -Eex. induction (Project.teamMembers p) as [|x l IH];
      cbn; [reflexivity|].
    cbn in Eex. apply orb_false_iff in Eex as [-> E2]. cbn.
    f_equal. now apply IH.
  - intros H. destruct (remove_team_member_stores _ _ _ _ _ H)
      as (p & p' & F & F' & _ & Hf).
    exists p, p'. repeat split; try assumption.
    intros m Hm. rewrite Hf in Hm. apply filter_In in Hm as [_ Hm].
    now apply negb_true_iff, String.eqb_neq in Hm.
  - unfold ProjectsRoutes.remove_team_member.
    destruct (Db.findById Project._id id (projects s)); [|reflexivity].
    destruct (ProjectsRoutes.not_own caller' _); [reflexivity|].
    destruct (Models.Project_save _ _ _) as [|[]]; [reflexivity|].
    cbn. congruence.
Qed.

Lemma team_member_round_trip_witness :
  let body : JS.Body :=
    {[ "userId" := JS.Str "u2"; "role" := JS.Str "Tester" ]} in
  exists p, Db.findById Project._id "p1" (projects Sample.store) = Some p /\
    data (fst (ProjectsRoutes.remove_team_member 2000%Z Sample.root_caller "p1"
                 "u2"
                 (snd (ProjectsRoutes.add_team_member 1000%Z Sample.sarah_caller
                         "p1" body Sample.store))))
    = Some (Project.teamMembers p).
Proof.
  apply (team_member_round_trip 1000%Z 2000%Z Sample.sarah_caller
           Sample.root_caller "p1" "u2"
           {[ "userId" := JS.Str "u2"; "role" := JS.Str "Tester" ]}
           Sample.store);
    vm_compute; reflexivity.
Defined.

(** ** Deactivated users *)

Section UniqueIds.
Context {A : Type} (id_of : A -> JS.ObjectId).

(** With one document for each [_id], a document of the collection is the
    one [findById] returns for its [_id]. *)
Lemma findById_unique (l : list A) (d : A) :
  NoDup (map id_of l) -> In d l -> Db.findById id_of (id_of d) l = Some d.
Proof.
  induction l as [|x r IH]; cbn; [contradiction|].
  intros Hnd [->|Hin]; [now rewrite String.eqb_refl|].
  apply NoDup_cons in Hnd as [Hx Hnd].
  destruct (String.eqb_spec (id_of x) (id_of d)) as [E|_]; [|now apply IH].
  exfalso. apply Hx. rewrite E. now apply list_elem_of_In, in_map.
Qed.

(** A write keeps the [_id]s of the collection. *)
Lemma map_id_replaceOne (d : A) (l : list A) :
  map id_of (Db.replaceOne id_of d l) = map id_of l.
Proof.
  induction l as [|x r IH]; simpl; [reflexivity|].
  destruct (String.eqb_spec (id_of x) (id_of d)) as [E|E]; simpl;
    [now rewrite E | now rewrite IH].
Qed.

End UniqueIds.

(** [User.findOne({ _id, role: "engineer", isActive: true })] finds nobody
    when the user with the [_id] is not an active engineer. *)
Lemma findEngineer_none (id : JS.ObjectId) (s : Store) :
  NoDup (map User._id (users s)) ->
  (forall u, Db.findById User._id id (users s) = Some u ->
             User.role u <> "engineer" \/ User.isActive u = false) ->
  Models.User_findEngineer id s = None.
Proof.
  intros Hnd Hu.
  destruct (Models.User_findEngineer id s) as [e|] eqn:F; [|reflexivity].
  exfalso. unfold Models.User_findEngineer in F.
  apply find_some in F as [Hin Hp].
  apply andb_true_iff in Hp as [[Hid Hr]%andb_true_iff Ha].
  apply String.eqb_eq in Hid, Hr.
  pose proof (findById_unique User._id _ _ Hnd Hin) as Hf. rewrite Hid in Hf.
  destruct (Hu _ Hf); congruence.
Qed.

(** X10.  When [DELETE /api/users/:id] answers 200 the user is kept and
    stored inactive, every other path as it was; the other users and the
    projects are untouched; no assignment is removed, none of the user is
    left active or in progress, and the assignments of other users and the
    ones that were pending, completed or cancelled are kept as they are.
    The engineer routes answer 404 for that user from then on. *)
Theorem delete_user_effects (caller caller' : Caller) (id : JS.ObjectId)
    (now : JS.Date) (body : JS.Body) (s : Store) :
  let r := UsersRoutes.delete_user caller id s in
  code (fst r) = 200%nat ->
  exists u,
    Db.findById User._id id (users s) = Some u /\
    Db.findById User._id id (users (snd r)) = Some (User.set_isActive false u) /\
    (forall id', id' <> id ->
       Db.findById User._id id' (users (snd r))
       = Db.findById User._id id' (users s)) /\
    projects (snd r) = projects s /\
    length (assignments (snd r)) = length (assignments s) /\
    (forall a, In a (assignments (snd r)) -> Assignment.assignee a = id ->
       Assignment.status a <> "active" /\ Assignment.status a <> "in-progress") /\
    (forall a, In a (assignments s) ->
       Assignment.assignee a <> id \/
       (Assignment.status a <> "active" /\ Assignment.status a <> "in-progress") ->
       In a (assignments (snd r))) /\
    (NoDup (map User._id (users s)) ->
     EngineersRoutes.get_workload now caller' id (snd r)
     = fail 404 "Engineer not found" /\
     EngineersRoutes.put_metrics caller' id body (snd r)
     = (fail 404 "Engineer not found", snd r)).
Proof.
  cbv zeta. unfold UsersRoutes.delete_user.
  destruct (Db.findById User._id id (users s)) as [u|] eqn:F; [|discriminate].
  match goal with |- context [if ?b then (fail 400 _, _) else _] =>
    destruct b end; [discriminate|].
  unfold Models.User_save.
  destruct (User.invalid_paths (User.set_isActive false u)); [|discriminate].
  intros _. cbn [fst snd users projects assignments with_users with_assignments].
  set (u' := User.set_isActive false u).
  assert (Hid : User._id u' = id).
  { unfold u'. pose proof (findById_id _ _ _ _ F). now destruct u. }
  assert (F' : Db.findById User._id id (Db.replaceOne User._id u' (users s))
               = Some u').
  { rewrite <- Hid. apply findById_replaceOne. rewrite Hid, F. eauto. }
  exists u. split; [reflexivity|]. split; [exact F'|].
  split.
  { intros id' Hne. apply findById_replaceOne_other. congruence. }
  split; [reflexivity|].
  split; [unfold Db.updateMany; apply length_map|].
  split.
  { intros a Ha Has. unfold Db.updateMany in Ha.
    apply in_map_iff in Ha as (a0 & <- & _). cbv beta in *. revert Has.
    destruct (String.eqb (Assignment.assignee a0) id
              && Schema.oneOf ["active"; "in-progress"] (Assignment.status a0))%bool
      eqn:E; intros Has.
    - destruct a0; cbn; split; discriminate.
    - apply String.eqb_eq in Has. rewrite Has in E.
      cbn in E. unfold Schema.oneOf in E. apply bool_decide_eq_false in E.
      split; intros Hs; apply E; rewrite Hs;
        [apply elem_of_cons; now left
        | apply elem_of_cons; right; apply elem_of_cons; now left]. }
  split.
  { intros a Ha Hkeep. unfold Db.updateMany. apply in_map_iff. exists a.
    split; [|exact Ha].
    destruct Hkeep as [Hne|[H1 H2]].
    - apply String.eqb_neq in Hne. now rewrite Hne.
    - assert (Schema.oneOf ["active"; "in-progress"] (Assignment.status a)
              = false) as ->; [|now rewrite andb_false_r].
      apply bool_decide_eq_false.
      rewrite !elem_of_cons, elem_of_nil. tauto. }
  intros Hnd.
  assert (Hnone : Models.User_findEngineer id
                    (mkStore (Db.replaceOne User._id u' (users s)) (projects s)
                       (Db.updateMany
                          (fun a =>
                             String.eqb (Assignment.assignee a) id
                             && Schema.oneOf ["active"; "in-progress"]
                                  (Assignment.status a))%bool
                          (Assignment.set_status "cancelled") (assignments s)))
                  = None).
  { apply findEngineer_none; cbn [users].
    - now rewrite map_id_replaceOne.
    - intros v Hv. rewrite F' in Hv. injection Hv as <-. right.
      unfold u'. now destruct u. }
  unfold EngineersRoutes.get_workload, EngineersRoutes.put_metrics,
    with_assignments, with_users.
  cbn [users projects assignments]. rewrite Hnone. split; reflexivity.
Qed.

Lemma delete_user_effects_witness :
  let r := UsersRoutes.delete_user Sample.root_caller "u1" Sample.store2 in
  exists u,
    Db.findById User._id "u1" (users Sample.store2) = Some u /\
    Db.findById User._id "u1" (users (snd r)) = Some (User.set_isActive false u) /\
    (forall id', id' <> "u1" ->
       Db.findById User._id id' (users (snd r))
       = Db.findById User._id id' (users Sample.store2)) /\
    projects (snd r) = projects Sample.store2 /\
    length (assignments (snd r)) = length (assignments Sample.store2) /\
    (forall a, In a (assignments (snd r)) -> Assignment.assignee a = "u1" ->
       Assignment.status a <> "active" /\ Assignment.status a <> "in-progress") /\
    (forall a, In a (assignments Sample.store2) ->
       Assignment.assignee a <> "u1" \/
       (Assignment.status a <> "active" /\ Assignment.status a <> "in-progress") ->
       In a (assignments (snd r))) /\
    (NoDup (map User._id (users Sample.store2)) ->
     EngineersRoutes.get_workload 1000%Z Sample.sarah_caller "u1" (snd r)
     = fail 404 "Engineer not found" /\
     EngineersRoutes.put_metrics Sample.sarah_caller "u1" ∅ (snd r)
     = (fail 404 "Engineer not found", snd r)).
Proof.
  apply (delete_user_effects Sample.root_caller Sample.sarah_caller "u1" 1000%Z
           ∅ Sample.store2).
  vm_compute. reflexivity.
Defined.

(** X11.  [GET /api/engineers/:id/workload] and [PUT
    /api/engineers/:id/metrics] answer 404 for an [_id] that is unknown or
    that of a user who is not an engineer or not active, and the second
    changes nothing then; an engineer is refused with 403 the workload of
    another engineer, whatever it is. *)
Theorem engineer_routes_access (now : JS.Date) (caller : Caller)
    (id : JS.ObjectId) (body : JS.Body) (s : Store) :
  NoDup (map User._id (users s)) ->
  ((forall u, Db.findById User._id id (users s) = Some u ->
              User.role u <> "engineer" \/ User.isActive u = false) ->
   EngineersRoutes.get_workload now caller id s = fail 404 "Engineer not found" /\
   EngineersRoutes.put_metrics caller id body s
   = (fail 404 "Engineer not found", s)) /\
  (forall u, Db.findById User._id id (users s) = Some u ->
     User.role u = "engineer" -> User.isActive u = true ->
     caller_role caller = "engineer" -> caller_id caller <> id ->
     EngineersRoutes.get_workload now caller id s
     = fail 403 "Not authorized to view this workload analysis").
Proof.
  intros Hnd. split.
  - intros Hu. unfold EngineersRoutes.get_workload, EngineersRoutes.put_metrics.
    rewrite (findEngineer_none id s Hnd Hu). split; reflexivity.
  - intros u F Hr Ha Hc Hne. unfold EngineersRoutes.get_workload.
    assert (Models.User_findEngineer id s = Some u) as ->.
    { unfold Models.User_findEngineer. unfold Db.findById in F.
      clear Hnd. induction (users s) as [|x l IH]; cbn in *; [discriminate|].
      destruct (String.eqb (User._id x) id) eqn:E; cbn.
      - injection F as ->. now rewrite Hr, Ha.
      - now apply IH. }
    rewrite Hc. apply String.eqb_neq in Hne. now rewrite Hne.
Qed.

Lemma engineer_routes_access_witness :
  EngineersRoutes.get_workload 1000%Z Sample.root_caller "m1" Sample.store
  = fail 404 "Engineer not found" /\
  EngineersRoutes.get_workload 1000%Z Sample.maya_caller "u1" Sample.store
  = fail 403 "Not authorized to view this workload analysis".
Proof.
  assert (Hnd : NoDup (map User._id (users Sample.store))).
  { cbn. repeat (apply NoDup_cons; split;
                 [rewrite ?elem_of_cons, elem_of_nil; intuition discriminate|]).
    apply NoDup_nil. exact I. }
  split.
  - apply (engineer_routes_access 1000%Z Sample.root_caller "m1" ∅ Sample.store
             Hnd).
    intros u [= <-]. left. discriminate.
  - apply (engineer_routes_access 1000%Z Sample.maya_caller "u1" ∅ Sample.store
             Hnd) with (u := Sample.alex);
      [reflexivity | reflexivity | reflexivity | reflexivity | discriminate].
Defined.

(** ** The lists *)

Lemma existsb_eqb_In (x : string) (l : list string) :
  existsb (String.eqb x) l = true <-> In x l.
Proof.
  rewrite existsb_exists. split.
  - intros (y & Hy & E). apply String.eqb_eq in E. now subst.
  - intros H. exists x. split; [exact H | apply String.eqb_refl].
Qed.



(** X13.  [GET /api/projects] answers a manager with projects they manage
    only, and an engineer with exactly the projects (of the status asked
    for, if any) that one of their assignments refers to, whether or not
    they are on the team; [GET /api/projects/:id] decides by the team
    instead, so it refuses with 403 a listed project whose team the
    engineer is not on. *)
Theorem projects_list_scope (caller : Caller) (status : option string)
    (s : Store) (l : list Project.t) :
  data (ProjectsRoutes.get_list caller status s) = Some l ->
  (caller_role caller = "manager" ->
   forall p, In p l -> Project.manager p = caller_id caller) /\
  (caller_role caller = "engineer" ->
   forall p, In p l <->
     In p (projects s) /\
     (exists a, In a (assignments s) /\
                Assignment.assignee a = caller_id caller /\
                Assignment.project a = Project._id p) /\
     (forall st, status = Some st -> st <> "" -> Project.status p = st)) /\
  (caller_role caller = "engineer" ->
   forall p, In p l ->
     Db.findById Project._id (Project._id p) (projects s) = Some p ->
     ProjectsRoutes.isTeamMember (users s) (caller_id caller)
       (Project.teamMembers p) = Some false ->
     ProjectsRoutes.get_by_id caller (Project._id p) s
     = fail 403 "Not authorized to access this project").
Proof.
  unfold ProjectsRoutes.get_list. cbn [data ok]. intros [= <-].
  split; [|split].
  - intros Hr p Hp. apply filter_In in Hp as [_ Hp].
    unfold ProjectsRoutes.matches, ProjectsRoutes.build_query in Hp.
    cbn [ProjectsRoutes.query_manager] in Hp. rewrite Hr in Hp.
    change (String.eqb "manager" "manager") with true in Hp. cbv iota in Hp.
    apply andb_true_iff in Hp as [[Hp _]%andb_true_iff _].
    now apply String.eqb_eq.
  - intros Hr p. rewrite filter_In.
    unfold ProjectsRoutes.matches, ProjectsRoutes.build_query.
    cbn [ProjectsRoutes.query_manager ProjectsRoutes.query_id
         ProjectsRoutes.query_status].
    rewrite Hr.
    change (String.eqb "engineer" "manager") with false.
    change (String.eqb "engineer" "engineer") with true. cbv iota.
    rewrite andb_true_l, andb_true_iff, existsb_eqb_In.
    assert (Hass :
      In (Project._id p) (ProjectsRoutes.assignedProjects (caller_id caller) s)
      <-> exists a, In a (assignments s) /\
                    Assignment.assignee a = caller_id caller /\
                    Assignment.project a = Project._id p).
    { unfold ProjectsRoutes.assignedProjects. split.
      - intros H.
        apply list_elem_of_In, elem_of_remove_dups, list_elem_of_In,
          in_map_iff in H as (a & Hpa & Hfa).
        apply filter_In in Hfa as [Hia Has]. apply String.eqb_eq in Has.
        exists a. auto.
      - intros (a & Hia & Has & Hpa).
        apply list_elem_of_In, elem_of_remove_dups, list_elem_of_In, in_map_iff.
        exists a. split; [exact Hpa|]. apply filter_In. split; [exact Hia|].
        now apply String.eqb_eq. }
    rewrite Hass. clear Hass.
    assert (Hst :
      match (if AssignmentsRoutes.given status then status else None) with
      | Some st => String.eqb (Project.status p) st
      | None => true
      end = true
      <-> (forall st, status = Some st -> st <> "" -> Project.status p = st)).
    { destruct status as [st|]; cbn; [|split; [intros _ ? [=]|reflexivity]].
      destruct (String.eqb_spec st "") as [->|Hne]; cbn.
      - split; [intros _ ? [= <-] H; now elim H | reflexivity].
      - destruct (String.eqb_spec (Project.status p) st) as [E|E].
        + split; [intros _ ? [= <-] _; exact E | reflexivity].
        + split; [discriminate|].
          intros H. elim E. now apply H. }
    rewrite Hst. tauto.
  - intros Hr p _ F Hteam. unfold ProjectsRoutes.get_by_id.
    rewrite F, Hr.
    change (String.eqb "engineer" "manager") with false.
    change (String.eqb "engineer" "engineer") with true. cbv iota.
    now rewrite Hteam.
Qed.

Lemma projects_list_scope_witness :
  let s :=
    mkStore [Sample.alex; Sample.sarah; Sample.maya] [Sample.portal]
      [Sample.task "a1" "u2" "active" 0 25] in
  In Sample.portal [Sample.portal] /\
  ProjectsRoutes.get_by_id Sample.maya_caller "p1" s
  = fail 403 "Not authorized to access this project".
Proof.
  cbv zeta.
  pose proof (projects_list_scope Sample.maya_caller None
                (mkStore [Sample.alex; Sample.sarah; Sample.maya] [Sample.portal]
                   [Sample.task "a1" "u2" "active" 0 25])
                [Sample.portal] eq_refl) as (_ & Hlist & Hget).
  assert (Hin : In Sample.portal [Sample.portal]).
  { apply Hlist; [reflexivity|]. split; [now left|]. split.
    - exists (Sample.task "a1" "u2" "active" 0 25).
      split; [now left | split; reflexivity].
    - discriminate. }
  split; [exact Hin|].
  apply (Hget eq_refl Sample.portal Hin); reflexivity.
Defined.

(** ** The recommendations of the workload analysis *)



(** ** The lockout of an account *)

Lemma failures_snoc (env : UserLogin.Env) (times : list JS.Date) (t : JS.Date)
    (u : UserLogin.t) :
  UserLogin.failures env (times ++ [t]) u
  = UserLogin.incLoginAttempts env t (UserLogin.failures env times u).
Proof. unfold UserLogin.failures. now rewrite foldl_app. Qed.

(** Below the maximum the failures are counted and nothing is locked. *)
Lemma failures_counted (env : UserLogin.Env) (times : list JS.Date)
    (u : UserLogin.t) :
  UserLogin.lockUntil u = None ->
  (UserLogin.loginAttempts u + Z.of_nat (length times)
   < UserLogin.or_default (UserLogin.MAX_LOGIN_ATTEMPTS env) 5)%Z ->
  UserLogin.failures env times u
  = UserLogin.mk (UserLogin.loginAttempts u + Z.of_nat (length times)) None
      (UserLogin.lastLogin u).
Proof.
  revert u. induction times as [|t r IH]; intros [n lk ll]; cbn [length];
    cbn [UserLogin.lockUntil UserLogin.loginAttempts UserLogin.lastLogin];
    intros -> Hlt.
  - cbn. f_equal. lia.
  - change (UserLogin.failures env (t :: r) (UserLogin.mk n None ll))
      with (UserLogin.failures env r
              (UserLogin.incLoginAttempts env t (UserLogin.mk n None ll))).
    unfold UserLogin.incLoginAttempts at 1.
    cbn [UserLogin.lockUntil UserLogin.loginAttempts UserLogin.lastLogin].
    assert (Z.leb (UserLogin.or_default (UserLogin.MAX_LOGIN_ATTEMPTS env) 5)
              (n + 1) = false) as -> by (apply Z.leb_gt; lia).
    cbn [andb]. rewrite IH; cbn; [f_equal; lia | reflexivity | lia].
Qed.

(** X15.  An account without failures and without a lock is not locked by
    fewer failed attempts than [MAX_LOGIN_ATTEMPTS] (5 by default), whenever
    they happen; the failure that reaches the maximum locks it for
    [LOCKOUT_TIME] minutes (30 by default) from the time of that failure,
    and until then only. *)
Theorem lockout_at_max_attempts (env : UserLogin.Env) (times : list JS.Date)
    (t : JS.Date) (u : UserLogin.t) :
  UserLogin.lockUntil u = None -> UserLogin.loginAttempts u = 0%Z ->
  let maxAttempts := UserLogin.or_default (UserLogin.MAX_LOGIN_ATTEMPTS env) 5 in
  let lockoutTime := UserLogin.or_default (UserLogin.LOCKOUT_TIME env) 30 in
  ((Z.of_nat (length times) < maxAttempts)%Z ->
   UserLogin.loginAttempts (UserLogin.failures env times u)
   = Z.of_nat (length times) /\
   forall now, UserLogin.isLocked now (UserLogin.failures env times u) = false) /\
  ((Z.of_nat (length times) + 1 = maxAttempts)%Z ->
   let u' := UserLogin.failures env (times ++ [t]) u in
   UserLogin.loginAttempts u' = maxAttempts /\
   UserLogin.lockUntil u' = Some (t + lockoutTime * 60 * 1000)%Z /\
   forall now, UserLogin.isLocked now u' = true
               <-> (now < t + lockoutTime * 60 * 1000)%Z).
Proof.
  intros Hl Hn. cbv zeta. split.
  - intros Hlt. rewrite failures_counted by (rewrite ?Hn; auto; lia).
    cbn. split; [lia | reflexivity].
  - intros Hmax. rewrite failures_snoc, failures_counted
      by (rewrite ?Hn; auto; lia).
    unfold UserLogin.incLoginAttempts, UserLogin.isLocked.
    cbn [UserLogin.lockUntil UserLogin.loginAttempts UserLogin.lastLogin].
    assert (Z.leb (UserLogin.or_default (UserLogin.MAX_LOGIN_ATTEMPTS env) 5)
              (UserLogin.loginAttempts u + Z.of_nat (length times) + 1) = true)
      as -> by (apply Z.leb_le; lia).
    cbn [andb negb UserLogin.lockUntil UserLogin.loginAttempts].
    split; [lia|]. split; [reflexivity|]. intros now. apply Z.ltb_lt.
Qed.

Lemma lockout_at_max_attempts_witness :
  let u' :=
    UserLogin.failures (UserLogin.mkEnv None None)
      ([10; 20; 30; 40]%Z ++ [50%Z])%list (UserLogin.mk 0 None None) in
  UserLogin.loginAttempts u' = 5%Z /\
  UserLogin.lockUntil u' = Some (50 + 30 * 60 * 1000)%Z /\
  forall now, UserLogin.isLocked now u' = true <-> (now < 50 + 30 * 60 * 1000)%Z.
Proof.
  apply (lockout_at_max_attempts (UserLogin.mkEnv None None) [10; 20; 30; 40]%Z
           50%Z (UserLogin.mk 0 None None)); reflexivity.
Defined.

(** X16.  While an account is locked, failed attempts are counted but the
    lock is kept as it is: it is never extended.  The first failure after
    the lock has expired removes it and restarts the count at 1. *)
Theorem lock_kept_until_expiry (env : UserLogin.Env) (times : list JS.Date)
    (now l : JS.Date) (u : UserLogin.t) :
  UserLogin.lockUntil u = Some l ->
  (forall t, In t times -> (t < l)%Z) ->
  UserLogin.failures env times u
  = UserLogin.mk (UserLogin.loginAttempts u + Z.of_nat (length times)) (Some l)
      (UserLogin.lastLogin u) /\
  ((l < now)%Z ->
   UserLogin.failures env (times ++ [now]) u
   = UserLogin.mk 1 None (UserLogin.lastLogin u)).
Proof.
  intros Hl Ht.
  assert (Hrun : UserLogin.failures env times u
                 = UserLogin.mk
                     (UserLogin.loginAttempts u + Z.of_nat (length times))
                     (Some l) (UserLogin.lastLogin u)).
  { revert u Hl. induction times as [|t r IH]; intros [n lk ll]; cbn [length];
      cbn [UserLogin.lockUntil UserLogin.loginAttempts UserLogin.lastLogin];
      intros ->.
    - cbn. f_equal. lia.
    - change (UserLogin.failures env (t :: r) (UserLogin.mk n (Some l) ll))
        with (UserLogin.failures env r
                (UserLogin.incLoginAttempts env t (UserLogin.mk n (Some l) ll))).
      unfold UserLogin.incLoginAttempts at 1, UserLogin.isLocked.
      cbn [UserLogin.lockUntil UserLogin.loginAttempts UserLogin.lastLogin].
      assert (Hlt : (t < l)%Z) by (apply Ht; now left).
      assert (Z.ltb l t = false) as -> by (apply Z.ltb_ge; lia).
      assert (Z.ltb t l = true) as -> by (now apply Z.ltb_lt).
      rewrite andb_false_r.
      rewrite IH; cbn; [f_equal; lia | | reflexivity].
      intros t' Ht'. apply Ht. now right. }
  split; [exact Hrun|].
  intros Hexp. rewrite failures_snoc, Hrun.
  unfold UserLogin.incLoginAttempts.
  cbn [UserLogin.lockUntil UserLogin.lastLogin].
  assert (Z.ltb l now = true) as -> by (now apply Z.ltb_lt). reflexivity.
Qed.

Lemma lock_kept_until_expiry_witness :
  UserLogin.failures (UserLogin.mkEnv None None) [60; 70; 80]%Z
    (UserLogin.mk 5 (Some 1000%Z) None)
  = UserLogin.mk 8 (Some 1000%Z) None /\
  UserLogin.failures (UserLogin.mkEnv None None) ([60; 70; 80]%Z ++ [2000%Z])%list
    (UserLogin.mk 5 (Some 1000%Z) None)
  = UserLogin.mk 1 None None.
Proof.
  pose proof (lock_kept_until_expiry (UserLogin.mkEnv None None) [60; 70; 80]%Z
                2000%Z 1000%Z (UserLogin.mk 5 (Some 1000%Z) None) eq_refl)
    as [H1 H2].
  - cbn. intros t [<-|[<-|[<-|[]]]]; reflexivity.
  - split; [exact H1 | apply H2; reflexivity].
Defined.

(** ** Login *)

Section LoginFacts.
Context (matchPassword : string -> string -> bool)
        (getSignedJwtToken : User.t -> string)
        (savedPassword : string -> string).

Lemma findOne_relogin (f : UserLogin.t -> UserLogin.t) (e : string)
    (accounts : list AuthLogin.Account) :
  AuthLogin.findOne e
    (map (fun a => AuthLogin.set_login (f (AuthLogin.login a)) a) accounts)
  = option_map (fun a => AuthLogin.set_login (f (AuthLogin.login a)) a)
      (AuthLogin.findOne e accounts).
Proof.
  unfold AuthLogin.findOne. induction accounts as [|a r IH]; cbn; [reflexivity|].
  destruct (String.eqb (AuthLogin.email a) e); [reflexivity | exact IH].
Qed.

Lemma findOne_write (a : AuthLogin.Account) (accounts : list AuthLogin.Account) :
  is_Some (AuthLogin.findOne (AuthLogin.email a) accounts) ->
  AuthLogin.findOne (AuthLogin.email a) (AuthLogin.write a accounts) = Some a.
Proof.
  unfold AuthLogin.findOne. induction accounts as [|x r IH]; cbn.
  - intros [? H]. discriminate H.
  - destruct (String.eqb (AuthLogin.email x) (AuthLogin.email a)) eqn:E; cbn.
    + now rewrite String.eqb_refl.
    + rewrite E. exact IH.
Qed.

(** X17.  [POST /api/auth/login] neither reads nor counts failed attempts:
    its answer is the same whatever the login bookkeeping of the accounts
    says, so a locked account logs in with the right password, and an
    answer other than 200 leaves every account as it was.  An unknown
    address and a wrong password get the same 401, an account that is not
    active gets its own 401 before the password is looked at, and a login
    that succeeds stores the time and clears the count and the lock. *)
Theorem login_ignores_lockout (now : JS.Date) (body : JS.Body)
    (accounts : list AuthLogin.Account) (f : UserLogin.t -> UserLogin.t)
    (e pw : string) :
  body !! "email" = Some (JS.Str e) -> body !! "password" = Some (JS.Str pw) ->
  e <> "" -> pw <> "" ->
  let r :=
    AuthLogin.post_login matchPassword getSignedJwtToken savedPassword now body
      accounts in
  fst (AuthLogin.post_login matchPassword getSignedJwtToken savedPassword now
         body
         (map (fun a => AuthLogin.set_login (f (AuthLogin.login a)) a) accounts))
  = fst r /\
  (code (fst r) <> 200%nat -> snd r = accounts) /\
  (AuthLogin.findOne (AuthLogin.toLowerCase e) accounts = None ->
   fst r = fail 401 "Invalid credentials") /\
  (forall a, AuthLogin.findOne (AuthLogin.toLowerCase e) accounts = Some a ->
     (User.isActive (AuthLogin.user a) = false ->
      fst r = fail 401 "Account has been deactivated") /\
     (User.isActive (AuthLogin.user a) = true ->
      matchPassword pw (AuthLogin.password a) = false ->
      fst r = fail 401 "Invalid credentials") /\
     (User.isActive (AuthLogin.user a) = true ->
      matchPassword pw (AuthLogin.password a) = true ->
      code (fst r) = 200%nat /\
      exists a',
        AuthLogin.findOne (AuthLogin.toLowerCase e) (snd r) = Some a' /\
        AuthLogin.user a' = AuthLogin.user a /\
        AuthLogin.login a' = UserLogin.mk 0 None (Some now))).
Proof.
  intros He Hp Hne Hnp. cbv zeta. unfold AuthLogin.post_login.
  rewrite He, Hp.
  assert (JS.truthy (Some (JS.Str e)) = true) as ->.
  { cbn. apply String.eqb_neq in Hne. now rewrite Hne. }
  assert (JS.truthy (Some (JS.Str pw)) = true) as ->.
  { cbn. apply String.eqb_neq in Hnp. now rewrite Hnp. }
  cbn [negb orb]. rewrite findOne_relogin.
  destruct (AuthLogin.findOne (AuthLogin.toLowerCase e) accounts)
    as [a|] eqn:F; cbn [option_map].
  - assert (Hmail : AuthLogin.email a = AuthLogin.toLowerCase e).
    { unfold AuthLogin.findOne in F. apply find_some in F as [_ F].
      now apply String.eqb_eq. }
    destruct a as [em ph us lg]. cbn [AuthLogin.user AuthLogin.password
      AuthLogin.set_login AuthLogin.login AuthLogin.email] in *.
    destruct (User.isActive us) eqn:Eact; cbn [negb].
    + destruct (matchPassword pw ph) eqn:Epw; cbn [negb fst snd code fail ok].
      * split; [reflexivity|]. split; [intros H; now elim H|].
        split; [discriminate|]. intros a [= <-].
        cbn [AuthLogin.user AuthLogin.password].
        split; [congruence|]. split; [congruence|]. intros _ _.
        split; [reflexivity|].
        unfold UserLogin.updateLastLogin. subst em.
        exists (AuthLogin.mkAccount (AuthLogin.toLowerCase e) (savedPassword ph)
                  us (UserLogin.mk 0 None (Some now))).
        split; [|split; reflexivity].
        apply (findOne_write
                 (AuthLogin.mkAccount (AuthLogin.toLowerCase e)
                    (savedPassword ph) us (UserLogin.mk 0 None (Some now)))).
        cbn [AuthLogin.email]. rewrite F. eauto.
      * split; [reflexivity|]. split; [reflexivity|].
        split; [discriminate|]. intros a [= <-].
        cbn [AuthLogin.user AuthLogin.password].
        split; [congruence|]. split; [reflexivity|]. congruence.
    + cbn [fst snd code fail]. split; [reflexivity|]. split; [reflexivity|].
      split; [discriminate|]. intros a [= <-].
      cbn [AuthLogin.user AuthLogin.password].
      split; [reflexivity|]. split; congruence.
  - cbn [fst snd code fail]. split; [reflexivity|]. split; [reflexivity|].
    split; [reflexivity|]. discriminate.
Qed.

End LoginFacts.

Lemma login_ignores_lockout_witness :
  let accounts :=
    [AuthLogin.mkAccount "alex@example.com" "hash" Sample.alex
       (UserLogin.mk 7 (Some 5000%Z) None)] in
  let body : JS.Body :=
    {[ "email" := JS.Str "Alex@Example.com"; "password" := JS.Str "secret" ]} in
  let r :=
    AuthLogin.post_login (fun pw h => true) (fun u => "jwt") (fun h => h)
      1000%Z body accounts in
  code (fst r) = 200%nat /\
  exists a',
    AuthLogin.findOne (AuthLogin.toLowerCase "Alex@Example.com") (snd r)
    = Some a' /\
    AuthLogin.user a' = Sample.alex /\
    AuthLogin.login a' = UserLogin.mk 0 None (Some 1000%Z).
Proof.
  cbv zeta.
  pose proof (login_ignores_lockout (fun pw h => true) (fun u => "jwt")
                (fun h => h) 1000%Z
                {[ "email" := JS.Str "Alex@Example.com";
                   "password" := JS.Str "secret" ]}
                [AuthLogin.mkAccount "alex@example.com" "hash" Sample.alex
                   (UserLogin.mk 7 (Some 5000%Z) None)]
                (fun l => l) "Alex@Example.com" "secret")
    as H.
  assert (H1 : ({[ "email" := JS.Str "Alex@Example.com";
                   "password" := JS.Str "secret" ]} : JS.Body) !! "email"
               = Some (JS.Str "Alex@Example.com")) by reflexivity.
  assert (H2 : ({[ "email" := JS.Str "Alex@Example.com";
                   "password" := JS.Str "secret" ]} : JS.Body) !! "password"
               = Some (JS.Str "secret")) by reflexivity.
  destruct (H H1 H2 ltac:(discriminate) ltac:(discriminate))
    as (_ & _ & _ & Hok).
  apply (Hok (AuthLogin.mkAccount "alex@example.com" "hash" Sample.alex
                (UserLogin.mk 7 (Some 5000%Z) None)));
    reflexivity.
Defined.

(** ** The connection to the database *)

Ltac all_below H :=
  pose proof (H 0%nat); pose proof (H 1%nat); pose proof (H 2%nat);
  pose proof (H 3%nat); pose proof (H 4%nat); clear H;
  repeat match goal with
         | H : (?i < ?k)%nat -> _ |- _ =>
             first [ specialize (H ltac:(lia)) | clear H ]
         end.

(** X18.  [connectDB] makes at most five attempts: it ends connected at
    the first attempt that succeeds, after waiting 2, 4, 8, ... seconds
    between the attempts before it, and it exits the process exactly when
    the first five attempts fail, without a wait after the fifth; the loop
    never ends in any other way. *)
Theorem connectDB_outcomes (connects : nat -> bool) :
  let r := Server.connectDB connects in
  fst r <> Server.NotConnected /\
  (fst r = Server.Exited <-> forall i, (i < 5)%nat -> connects i = false) /\
  (forall k, fst r = Server.Connected k
             <-> (k < 5)%nat /\ connects k = true /\
                 forall i, (i < k)%nat -> connects i = false) /\
  (forall k, fst r = Server.Connected k ->
     snd r = map (fun i => 2 ^ Z.of_nat i * 1000)%Z (seq 1 k)) /\
  (fst r = Server.Exited -> snd r = [2000; 4000; 8000; 16000]%Z).
Proof.
  cbv zeta. unfold Server.connectDB, Server.maxRetries.
  cbn [Server.connectFrom].
  destruct (connects 0%nat) eqn:E0;
    [|destruct (connects 1%nat) eqn:E1;
      [|destruct (connects 2%nat) eqn:E2;
        [|destruct (connects 3%nat) eqn:E3;
          [|destruct (connects 4%nat) eqn:E4]]]];
  cbn [Nat.eqb Server.maxRetries fst snd];
  (split; [discriminate|]); (split; [|split; [|split]]).
  all: repeat match goal with
              | |- forall k : nat, _ => intros k
              | |- _ <-> _ => split
              end.
  all: try discriminate.
  all: try (intros [= <-]).
  all: try reflexivity.
  all: try (intros _; reflexivity).
  all: try (split; [lia | split; [assumption|]]).
  all: try (intros i Hi; destruct i as [|[|[|[|[|]]]]]; solve [assumption | lia]).
  all: try (intros _ i Hi; destruct i as [|[|[|[|[|]]]]]; solve [assumption | lia]).
  all: try (intros (Hk & Hc & Hall);
            destruct k as [|[|[|[|[|]]]]]; try lia; try reflexivity;
            all_below Hall; congruence).
  all: intros H; all_below H; congruence.
Qed.

Lemma connectDB_outcomes_witness :
  Server.connectDB (fun _ => false)
  = (Server.Exited, [2000; 4000; 8000; 16000]%Z).
Proof.
  pose proof (connectDB_outcomes (fun _ => false)) as (_ & [_ H] & _ & _ & Hw).
  specialize (H (fun _ _ => eq_refl)).
  destruct (Server.connectDB (fun _ => false)) as [c w]. cbn in *.
  now rewrite H, (Hw H).
Defined.

(** ** New assignments *)

Lemma findById_insert {A} (id_of : A -> JS.ObjectId) (id : JS.ObjectId) (d : A)
    (l : list A) :
  Db.findById id_of id (Db.insert d l)
  = match Db.findById id_of id l with
    | Some x => Some x
    | None => if String.eqb (id_of d) id then Some d else None
    end.
Proof.
  unfold Db.findById, Db.insert. induction l as [|x r IH]; cbn; [reflexivity|].
  destruct (String.eqb (id_of x) id); [reflexivity | exact IH].
Qed.

Lemma post_save_users (a : Assignment.t) (s : Store) :
  users (Models.Assignment_post_save a s) = users s.
Proof.
  unfold Models.Assignment_post_save.
  destruct (Db.findById _ _ _); [|reflexivity].
  now rewrite updateProgress_stores.
Qed.




(** ** Updates of users *)

(** X20.  [PUT /api/users/:id] answers 404 for an unknown user and 403 to
    a caller who is neither an administrator nor that user, changing
    nothing; the [password] of the body is dropped for every caller.  The
    allow-list holds for engineers only: a manager who updates their own
    record with [{ role }] is stored with that role, every other path
    unchanged. *)
Theorem users_put_access (caller : Caller) (id : JS.ObjectId) (body : JS.Body)
    (s : Store) :
  let r := UsersRoutes.put caller id body s in
  (Db.findById User._id id (users s) = None ->
   r = (fail 404 "User not found", s)) /\
  (is_Some (Db.findById User._id id (users s)) ->
   caller_role caller <> "admin" -> caller_id caller <> id ->
   r = (fail 403 "Not authorized to update this user", s)) /\
  UsersRoutes.put caller id (delete "password" body) s = r /\
  (forall u role,
     caller_role caller = "manager" -> caller_id caller = id ->
     Db.findById User._id id (users s) = Some u ->
     Schema.oneOf User.role_enum role = true ->
     UsersRoutes.put caller id {[ "role" := JS.Str role ]} s
     = (mkResponse 200 true "User updated successfully"
          (Some (User.set_role role u)),
        with_users (Db.replaceOne User._id (User.set_role role u) (users s)) s)).
Proof.
  cbv zeta. split; [|split; [|split]].
  - intros F. unfold UsersRoutes.put. now rewrite F.
  - intros [u F] Hr Hne. unfold UsersRoutes.put. rewrite F.
    apply String.eqb_neq in Hr, Hne. now rewrite Hr, Hne.
  - unfold UsersRoutes.put.
    destruct (Db.findById User._id id (users s)); [|reflexivity].
    destruct (negb _); [reflexivity|].
    destruct (String.eqb (caller_role caller) "engineer"
              && String.eqb (caller_id caller) id)%bool.
    + rewrite (pick_ext _ (delete "password" body) body); [reflexivity|].
      intros k Hk. apply lookup_delete_ne. intros <-.
      unfold UsersRoutes.allowedFields in Hk.
      rewrite !elem_of_cons, elem_of_nil in Hk. intuition discriminate.
    + now rewrite delete_delete_eq.
  - intros u role Hr Hid F Hrole. unfold UsersRoutes.put.
    rewrite F, Hr, Hid, String.eqb_refl.
    change (String.eqb "manager" "admin") with false.
    change (String.eqb "manager" "engineer") with false.
    cbn [orb andb negb].
    unfold Models.User_findByIdAndUpdate.
    assert (Hcast : User.castUpdate (delete "password" {[ "role" := JS.Str role ]})
                    = inr (User.mkUpdate None None (Some role) None None None
                             None None None None None None None)).
    { rewrite delete_singleton_ne by discriminate. reflexivity. }
    rewrite Hcast. cbn [bind].
    unfold User.invalid_update.
    cbn [User.u_firstName User.u_lastName User.u_role User.u_department
         User.u_experienceLevel User.u_skills User.u_hourlyRate
         User.u_availability User.u_location User.u_phone User.u_utilization
         User.u_efficiency User.u_isActive Schema.checkSet app].
    rewrite Hrole. cbn [Schema.check app]. rewrite F. reflexivity.
Qed.

Lemma users_put_access_witness :
  UsersRoutes.put Sample.sarah_caller "m1" {[ "role" := JS.Str "admin" ]}
    Sample.store
  = (mkResponse 200 true "User updated successfully"
       (Some (User.set_role "admin" Sample.sarah)),
     with_users
       (Db.replaceOne User._id (User.set_role "admin" Sample.sarah)
          (users Sample.store)) Sample.store)
  /\ UsersRoutes.put Sample.sarah_caller "u1" {[ "role" := JS.Str "admin" ]}
       Sample.store
     = (fail 403 "Not authorized to update this user", Sample.store).
Proof.
  split.
  - pose proof (users_put_access Sample.sarah_caller "m1" ∅ Sample.store)
      as (_ & _ & _ & H).
    apply H; reflexivity.
  - pose proof (users_put_access Sample.sarah_caller "u1"
                  {[ "role" := JS.Str "admin" ]} Sample.store)
      as (_ & H & _).
    apply H; [now exists Sample.alex | discriminate | discriminate].
Defined.

Lemma bind_ext {A B} (r r' : Result A) (k k' : A -> Result B) :
  r = r' -> (forall x, k x = k' x) -> bind r k = bind r' k'.
Proof. intros <- H. destruct r; cbn; [reflexivity | apply H]. Qed.

Lemma set_if_truthy_falsy {A} (body : JS.Body) (k path : string)
    (cast : string -> JS.Value -> Result A) (set : A -> User.t -> User.t)
    (user : User.t) :
  JS.truthy (body !! k) = false ->
  AuthRoutes.set_if_truthy (delete k body) path cast set user
  = AuthRoutes.set_if_truthy body path cast set user.
Proof.
  intros H. unfold AuthRoutes.set_if_truthy.
  destruct (decide (path = k)) as [->|Hne].
  - rewrite lookup_delete_eq, H. reflexivity.
  - rewrite lookup_delete_ne by congruence. reflexivity.
Qed.

(** X21.  [PUT /api/auth/profile] takes a field of the body only when its
    value is truthy: a body with an empty string, 0, [false] or [null] on a
    key is handled as the body without that key, so the route cannot empty
    the phone or the location of a user, and a key that is absent changes
    nothing either. *)
Theorem profile_ignores_falsy (caller : Caller) (body : JS.Body) (k : string)
    (s : Store) :
  JS.truthy (body !! k) = false ->
  AuthRoutes.put_profile caller body s
  = AuthRoutes.put_profile caller (delete k body) s.
Proof.
  intros H. unfold AuthRoutes.put_profile.
  destruct (Db.findById User._id (caller_id caller) (users s)); [|reflexivity].
  match goal with
  | |- match ?x with inl _ => _ | inr _ => _ end
       = match ?y with inl _ => _ | inr _ => _ end =>
      assert (E : x = y); [|now rewrite E]
  end.
  repeat (apply bind_ext;
          [symmetry; apply set_if_truthy_falsy; exact H | intros ?]).
  reflexivity.
Qed.

Lemma profile_ignores_falsy_witness :
  AuthRoutes.put_profile Sample.alex_caller
    {[ "location" := JS.Str ""; "firstName" := JS.Str "Al" ]} Sample.store
  = AuthRoutes.put_profile Sample.alex_caller
      (delete "location"
         ({[ "location" := JS.Str ""; "firstName" := JS.Str "Al" ]} : JS.Body))
      Sample.store.
Proof.
  apply (profile_ignores_falsy Sample.alex_caller
           {[ "location" := JS.Str ""; "firstName" := JS.Str "Al" ]} "location"
           Sample.store).
  reflexivity.
Defined.

(** ** Updates of assignments *)







(** ** The statistics *)

Section Aggregates.
Context {A : Type}.

Lemma sum_of_spec (f : A -> JS.Number) (l : list A) :
  AssignmentsRoutes.sum_of f l == Spec.sum (map f l).
Proof. unfold AssignmentsRoutes.sum_of. rewrite (reduce_sum f). lra. Qed.

Lemma count_disjoint (f g : A -> bool) (l : list A) :
  (forall x, f x = true -> g x = false) ->
  (Db.countDocuments f l + Db.countDocuments g l <= length l)%nat.
Proof.
  intros H. unfold Db.countDocuments.
  induction l as [|x r IH]; cbn; [lia|].
  destruct (f x) eqn:E; [rewrite (H x E)|destruct (g x)]; cbn; lia.
Qed.


Lemma avg_of_spec (f : A -> JS.Number) (l : list A) :
  AssignmentsRoutes.avg_of f l == Spec.mean (map f l).
Proof.
  unfold AssignmentsRoutes.avg_of, Spec.mean.
  now rewrite sum_of_spec, length_map.
Qed.


End Aggregates.




Lemma projects_stats_query (caller : Caller) (s : Store) :
  ProjectsRoutes.stats_query caller s
  = ProjectsRoutes.build_query caller None s.
Proof.
  unfold ProjectsRoutes.stats_query, ProjectsRoutes.build_query.
  cbn [AssignmentsRoutes.given].
  destruct (String.eqb_spec (caller_role caller) "manager") as [->|_];
    [reflexivity|].
  destruct (String.eqb (caller_role caller) "engineer"); reflexivity.
Qed.

(** X24.  [GET /api/projects/stats/overview] counts exactly the projects
    that [GET /api/projects] lists for the caller when the request names no
    status: the total is their number, the budgets are their sums, whose
    difference is the sum of the [budgetRemaining] of the projects, the
    average progress is their mean, and the active and the completed ones
    together are no more than the total; with nothing to count every figure
    is 0. *)
Theorem project_stats_cover_list (caller : Caller) (s : Store)
    (l : list Project.t) (o : ProjectsRoutes.Overview) :
  data (ProjectsRoutes.get_list caller None s) = Some l ->
  data (ProjectsRoutes.get_stats caller s) = Some o ->
  ProjectsRoutes.totalProjects o = length l /\
  (ProjectsRoutes.activeProjects o + ProjectsRoutes.completedProjects o
   <= ProjectsRoutes.totalProjects o)%nat /\
  ProjectsRoutes.totalBudget o == Spec.sum (map Project.budget l) /\
  ProjectsRoutes.totalBudgetUsed o == Spec.sum (map Project.budgetUsed l) /\
  ProjectsRoutes.totalBudget o - ProjectsRoutes.totalBudgetUsed o
  == Spec.sum (map Project.budgetRemaining l) /\
  (l <> [] ->
   ProjectsRoutes.averageProgress o == Spec.mean (map Project.progress l)) /\
  (l = [] -> o = ProjectsRoutes.mkOverview 0 0 0 0 0 0).
Proof.
  unfold ProjectsRoutes.get_list, ProjectsRoutes.get_stats.
  rewrite projects_stats_query. cbn [data ok]. intros [= <-].
  set (l := List.filter _ (projects s)). clearbody l. intros [= <-].
  assert (Hrem : Spec.sum (map Project.budget l)
                 - Spec.sum (map Project.budgetUsed l)
                 == Spec.sum (map Project.budgetRemaining l)).
  { unfold Spec.sum. induction l as [|p r IH]; simpl; [lra|].
    unfold Project.budgetRemaining at 1. lra. }
  destruct l as [|p r]; cbn [ProjectsRoutes.aggregate].
  - cbn. repeat split; try reflexivity; try lra; try lia.
    all: try (intros H; now elim H).
  - set (l := p :: r) in *.
    cbn [ProjectsRoutes.totalProjects ProjectsRoutes.activeProjects
         ProjectsRoutes.completedProjects ProjectsRoutes.totalBudget
         ProjectsRoutes.totalBudgetUsed ProjectsRoutes.averageProgress].
    split; [reflexivity|].
    split.
    { apply count_disjoint. intros x Hx. apply String.eqb_eq in Hx.
      rewrite Hx. reflexivity. }
    split; [apply sum_of_spec|]. split; [apply sum_of_spec|].
    split; [now rewrite !sum_of_spec|].
    split; [intros _; apply avg_of_spec | discriminate].
Qed.

Lemma project_stats_cover_list_witness :
  exists o,
    data (ProjectsRoutes.get_stats Sample.sarah_caller Sample.store) = Some o /\
    ProjectsRoutes.totalProjects o = 1%nat /\
    ProjectsRoutes.totalBudget o - ProjectsRoutes.totalBudgetUsed o == 50000.
Proof.
  eexists. split; [reflexivity|].
  pose proof (project_stats_cover_list Sample.sarah_caller Sample.store
                _ _ eq_refl eq_refl) as (H1 & _ & _ & _ & H2 & _).
  split; [exact H1|]. rewrite H2. reflexivity.
Defined.

(** ** Updates of projects *)





(** ** Comments *)

(** X26.  [POST /api/assignments/:id/comments] saves the assignment, so the
    save hook runs: when the answer is 201 the stored assignment is the
    former one after the hook, and an assignment that was stored at 100
    percent without being completed (as [PUT /api/assignments/:id] leaves
    it) is completed by the comment, at the time of the comment.  The
    logged hours and the time entries are untouched, an engineer comments
    on their own assignments only, and any other answer changes nothing. *)
Theorem comment_saves_assignment (now : JS.Date) (caller : Caller)
    (id : JS.ObjectId) (body : JS.Body) (s : Store) :
  let r := AssignmentsRoutes.post_comment now caller id body s in
  (code (fst r) <> 201%nat -> snd r = s) /\
  (code (fst r) = 201%nat ->
   exists a a',
     Db.findById Assignment._id id (assignments s) = Some a /\
     Db.findById Assignment._id id (assignments (snd r)) = Some a' /\
     a' = Assignment.pre_save now false a /\
     (caller_role caller = "engineer" ->
      Assignment.assignee a = caller_id caller) /\
     (Assignment.progress a == 100 -> Assignment.status a' = "completed") /\
     (Assignment.progress a == 100 -> Assignment.status a <> "completed" ->
      Assignment.completedAt a' = Some now) /\
     Assignment.actualHours a' = Assignment.actualHours a /\
     Assignment.timeEntries a' = Assignment.timeEntries a /\
     users (snd r) = users s).
Proof.
  cbv zeta. unfold AssignmentsRoutes.post_comment.
  destruct (negb (JS.truthy (body !! "text"))); [split; [reflexivity|discriminate]|].
  destruct (body !! "text") as [[| | |text| |]|];
    try (split; [reflexivity|discriminate]).
  destruct (Nat.eqb _ 0); [split; [reflexivity|discriminate]|].
  destruct (Db.findById Assignment._id id (assignments s)) as [a|] eqn:F;
    [|split; [reflexivity|discriminate]].
  destruct (String.eqb (caller_role caller) "engineer"
            && negb (String.eqb (Assignment.assignee a) (caller_id caller)))%bool
    eqn:Eacc; [split; [reflexivity|discriminate]|].
  destruct (Schema.maxlength 500 (JS.trim text));
    [|split; [reflexivity|discriminate]].
  unfold Models.Assignment_save.
  destruct (Assignment.invalid_paths now a); [|split; [reflexivity|discriminate]].
  unfold Models.Assignment_write. cbn [fst snd code].
  split; [intros H; now elim H|]. intros _.
  set (a' := Assignment.pre_save now false a).
  assert (Hid : Assignment._id a' = id).
  { unfold a'. rewrite assignment_pre_save_id. apply (findById_id _ _ _ _ F). }
  exists a, a'. split; [reflexivity|].
  rewrite post_save_assignments, post_save_users.
  cbn [assignments users with_assignments].
  split; [rewrite <- Hid; apply findById_replaceOne; rewrite Hid, F; eauto|].
  split; [reflexivity|].
  split.
  { intros Hr. rewrite Hr in Eacc. cbn in Eacc.
    apply negb_false_iff in Eacc. now apply String.eqb_eq. }
  split; [intros H; now apply assignment_pre_save_auto_complete|].
  split; [intros H; now apply assignment_pre_save_auto_complete|].
  split; [|split; [now apply assignment_pre_save_timeEntries | reflexivity]].
  unfold a', Assignment.pre_save.
  repeat match goal with |- context [if ?b then _ else _] => destruct b end;
    now destruct a.
Qed.

Lemma comment_saves_assignment_witness :
  let s := mkStore [Sample.alex] [Sample.portal]
             [Sample.task "a1" "u1" "active" 100 25] in
  let r := AssignmentsRoutes.post_comment 1000%Z Sample.alex_caller "a1"
             {[ "text" := JS.Str "done" ]} s in
  exists a a',
    Db.findById Assignment._id "a1" (assignments s) = Some a /\
    Db.findById Assignment._id "a1" (assignments (snd r)) = Some a' /\
    a' = Assignment.pre_save 1000%Z false a /\
    (caller_role Sample.alex_caller = "engineer" ->
     Assignment.assignee a = caller_id Sample.alex_caller) /\
    (Assignment.progress a == 100 -> Assignment.status a' = "completed") /\
    (Assignment.progress a == 100 -> Assignment.status a <> "completed" ->
     Assignment.completedAt a' = Some 1000%Z) /\
    Assignment.actualHours a' = Assignment.actualHours a /\
    Assignment.timeEntries a' = Assignment.timeEntries a /\
    users (snd r) = users s.
Proof.
  apply (comment_saves_assignment 1000%Z Sample.alex_caller "a1"
           {[ "text" := JS.Str "done" ]}
           (mkStore [Sample.alex] [Sample.portal]
              [Sample.task "a1" "u1" "active" 100 25])).
  vm_compute. reflexivity.
Defined.

(** ** The routers *)

(** X27.  In the router of the users, [GET /available-engineers] is
    registered after [GET /:id], which matches every path of one segment:
    no request reaches the handler of the available engineers, the request
    for it is handled as the read of the user with the id
    ["available-engineers"].  Every other route of the routers of the
    users, engineers, assignments and projects is reached by some
    request. *)
Theorem available_engineers_shadowed :
  (forall m path,
     Express.dispatch Express.users m path
     <> Some (Express.GET, [Express.Lit "available-engineers"])) /\
  Express.dispatch Express.users Express.GET ["available-engineers"]
  = Some (Express.GET, [Express.Param "id"]) /\
  (forall r, In r Express.users ->
     r <> (Express.GET, [Express.Lit "available-engineers"]) ->
     exists path, Express.dispatch Express.users (fst r) path = Some r) /\
  (forall r, In r Express.engineers ->
     exists path, Express.dispatch Express.engineers (fst r) path = Some r) /\
  (forall r, In r Express.assignments ->
     exists path, Express.dispatch Express.assignments (fst r) path = Some r) /\
  (forall r, In r Express.projects ->
     exists path, Express.dispatch Express.projects (fst r) path = Some r).
Proof.
  split; [|split; [reflexivity|]].
  - intros m path. unfold Express.dispatch, Express.users.
    destruct m; destruct path as [|x [|y [|z rest]]];
      cbn [find Express.method_eqb Express.matchPath fst snd andb];
      repeat match goal with
             | |- context [String.eqb ?a ?b] =>
                 destruct (String.eqb a b);
                 cbn [find Express.method_eqb Express.matchPath fst snd andb]
             end;
      discriminate.
  - repeat split; intros r Hr; cbn in Hr;
      repeat (destruct Hr as [<-|Hr];
              [first [ intros H; now elim H
                     | try intros _;
                       match goal with
                       | |- exists path, Express.dispatch _ (fst ?r) path = _ =>
                           exists (map (fun seg => match seg with
                                                   | Express.Lit x => x
                                                   | Express.Param _ => "x"
                                                   end) (snd r))
                       end;
                       reflexivity ]|]);
      contradiction.
Qed.

Lemma available_engineers_shadowed_witness :
  exists path,
    Express.dispatch Express.engineers Express.GET path
    = Some (Express.GET, [Express.Lit "overview"]).
Proof.
  pose proof available_engineers_shadowed as (_ & _ & _ & H & _).
  apply (H (Express.GET, [Express.Lit "overview"])).
  cbn. tauto.
Defined.

(** ** New projects *)

(** X28.  When [POST /api/projects] answers 201 the project is stored as
    the answer shows it, in planning, at 0 percent, with nothing of the
    budget used and a deadline in the future.  Its manager is the caller,
    whatever the body says, unless the caller is an administrator who names
    one; the other projects, the assignments and the users are as before.
    A manager finds the project they created in [GET /api/projects]. *)
Theorem project_created (now : JS.Date) (fresh : JS.ObjectId) (caller : Caller)
    (body : JS.Body) (s : Store) :
  Db.findById Project._id fresh (projects s) = None ->
  let r := ProjectsRoutes.post now fresh caller body s in
  code (fst r) = 201%nat ->
  exists p : Project.t,
    data (fst r) = Some p /\
    Db.findById Project._id fresh (projects (snd r)) = Some p /\
    projects (snd r) = (projects s ++ [p])%list /\
    users (snd r) = users s /\ assignments (snd r) = assignments s /\
    (Project._id p, Project.status p, Project.progress p, Project.budgetUsed p)
    = (fresh, "planning", 0, 0) /\
    (now < Project.deadline p)%Z /\ 0 <= Project.budget p /\
    (caller_role caller <> "admin" -> Project.manager p = caller_id caller) /\
    (caller_role caller = "admin" -> JS.truthy (body !! "manager") = true ->
     body !! "manager" = Some (JS.Str (Project.manager p))) /\
    (caller_role caller = "manager" ->
     forall l, data (ProjectsRoutes.get_list caller None (snd r)) = Some l ->
               In p l).
Proof.
  intros Hfresh. cbv zeta. unfold ProjectsRoutes.post.
  set (manager := if String.eqb (caller_role caller) "admin" then _ else _).
  destruct manager as [m|] eqn:Em; [|discriminate]. cbn [mbind option_bind].
  destruct (ProjectsRoutes.new_project fresh m body) as [doc|] eqn:Ed;
    [|discriminate].
  unfold Models.Project_create.
  destruct (Project.invalid_paths now doc) eqn:Ev; [|discriminate].
  intros _. cbn [fst snd data ok].
  assert (Hdoc : exists name description priority deadline budget teamMembers,
            doc = Project.mk fresh name description "planning" priority 0
                    deadline budget 0 m teamMembers).
  { unfold ProjectsRoutes.new_project in Ed.
    repeat match type of Ed with
           | context [match ?x with _ => _ end] =>
               destruct x; try discriminate Ed
           end;
      injection Ed as <-; eauto 10. }
  destruct Hdoc as (name & description & priority & deadline & budget
                    & teamMembers & ->).
  assert (Hpre : forall n d pr dl b tm,
            Project.pre_save
              (Project.mk fresh n d "planning" pr 0 dl b 0 m tm)
            = Project.mk fresh n d "planning" pr 0 dl b 0 m tm)
    by reflexivity.
  rewrite Hpre.
  set (p := Project.mk _ _ _ _ _ _ _ _ _ _ _).
  exists p. split; [reflexivity|].
  cbn [projects users assignments with_projects].
  split; [rewrite findById_insert, Hfresh; cbn; now rewrite String.eqb_refl|].
  split; [reflexivity|]. split; [reflexivity|]. split; [reflexivity|].
  split; [reflexivity|].
  unfold Project.invalid_paths in Ev. rewrite !app_nil in Ev.
  destruct Ev as (_ & _ & _ & _ & _ & Hd & Hb & _). cbn in Hd, Hb.
  split.
  { destruct (Z.ltb now deadline) eqn:E; [|discriminate Hd].
    now apply Z.ltb_lt. }
  split.
  { destruct (JS.leb 0 budget) eqn:E; [|discriminate Hb]. now apply leb_Qle. }
  split.
  { intros Hr. unfold manager in Em. apply String.eqb_neq in Hr.
    rewrite Hr in Em. now injection Em as <-. }
  split.
  { intros Hr Ht. unfold manager in Em. rewrite Hr, Ht in Em.
    change (String.eqb "admin" "admin") with true in Em. cbv iota in Em.
    destruct (body !! "manager") as [[]|]; try discriminate Em.
    now injection Em as ->. }
  intros Hr l. unfold ProjectsRoutes.get_list. cbn [data ok]. intros [= <-].
  apply filter_In. split.
  { unfold Db.insert. cbn [projects]. apply in_app_iff. right. now left. }
  unfold ProjectsRoutes.matches, ProjectsRoutes.build_query.
  cbn [ProjectsRoutes.query_manager ProjectsRoutes.query_id
       ProjectsRoutes.query_status AssignmentsRoutes.given].
  rewrite Hr. change (String.eqb "manager" "manager") with true.
  change (String.eqb "manager" "engineer") with false. cbv iota.
  unfold manager in Em. rewrite Hr in Em.
  change (String.eqb "manager" "admin") with false in Em. cbv iota in Em.
  injection Em as <-. change (Project.manager p) with (caller_id caller).
  now rewrite String.eqb_refl.
Qed.

Lemma project_created_witness :
  let body : JS.Body :=
    {[ "name" := JS.Str "Billing"; "description" := JS.Str "Invoices";
       "deadline" := JS.Num 900000; "budget" := JS.Num 1000;
       "manager" := JS.Str "r1" ]} in
  let r := ProjectsRoutes.post 1000%Z "p2" Sample.sarah_caller body Sample.store in
  exists p : Project.t,
    data (fst r) = Some p /\
    Db.findById Project._id "p2" (projects (snd r)) = Some p /\
    projects (snd r) = (projects Sample.store ++ [p])%list /\
    users (snd r) = users Sample.store /\
    assignments (snd r) = assignments Sample.store /\
    (Project._id p, Project.status p, Project.progress p, Project.budgetUsed p)
    = ("p2", "planning", 0, 0) /\
    (1000 < Project.deadline p)%Z /\ 0 <= Project.budget p /\
    (caller_role Sample.sarah_caller <> "admin" ->
     Project.manager p = caller_id Sample.sarah_caller) /\
    (caller_role Sample.sarah_caller = "admin" ->
     JS.truthy (body !! "manager") = true ->
     body !! "manager" = Some (JS.Str (Project.manager p))) /\
    (caller_role Sample.sarah_caller = "manager" ->
     forall l,
       data (ProjectsRoutes.get_list Sample.sarah_caller None (snd r)) = Some l ->
       In p l).
Proof.
  apply (project_created 1000%Z "p2" Sample.sarah_caller
           {[ "name" := JS.Str "Billing"; "description" := JS.Str "Invoices";
              "deadline" := JS.Num 900000; "budget" := JS.Num 1000;
              "manager" := JS.Str "r1" ]} Sample.store);
    vm_compute; reflexivity.
Defined.

(** ** A change of password *)

Section PasswordFacts.
Context (matchPassword : string -> string -> bool)
        (getSignedJwtToken : User.t -> string)
        (savedPassword hashPassword : string -> string).

Lemma findOne_write_id (a a' : AuthLogin.Account) (id : JS.ObjectId)
    (accounts : list AuthLogin.Account) :
  AuthLogin.findById id accounts = Some a ->
  AuthLogin.findOne (AuthLogin.email a) accounts = Some a ->
  AuthLogin.email a' = AuthLogin.email a ->
  AuthLogin.user a' = AuthLogin.user a ->
  AuthLogin.findOne (AuthLogin.email a) (AuthLogin.write_id a' accounts)
  = Some a'.
Proof.
  intros Hid Hmail He Hu. unfold AuthLogin.findById, AuthLogin.findOne in *.
  induction accounts as [|x r IH]; cbn in *; [discriminate|].
  rewrite Hu.
  destruct (String.eqb_spec (User._id (AuthLogin.user x)) id) as [Ex|Ex].
  - injection Hid as ->. rewrite String.eqb_refl. cbn.
    now rewrite He, String.eqb_refl.
  - assert (Ha : User._id (AuthLogin.user a) = id).
    { apply find_some in Hid as [_ Hid]. now apply String.eqb_eq in Hid. }
    assert (String.eqb (User._id (AuthLogin.user x))
              (User._id (AuthLogin.user a)) = false) as ->
      by (apply String.eqb_neq; congruence).
    cbn.
    destruct (String.eqb (AuthLogin.email x) (AuthLogin.email a)) eqn:Em.
    + injection Hmail as ->. congruence.
    + apply IH; assumption.
Qed.

(** X29.  [PUT /api/auth/change-password] answers 400 and changes nothing
    when the current password does not match, and no answer but 200 changes
    an account.  When it answers 200 the current password matched and the
    new one has 6 characters or more, and the change is effective at once:
    with a hash that [bcrypt.compare] accepts for the new password, a login
    with the new password succeeds, and one with the old password is
    refused unless it matches the new hash too. *)
Theorem password_change_round_trip (now : JS.Date) (caller : Caller)
    (body loginBody oldBody : JS.Body) (accounts : list AuthLogin.Account)
    (a : AuthLogin.Account) (cur new : string) :
  let r :=
    AuthLogin.put_change_password matchPassword hashPassword caller body
      accounts in
  let login b :=
    AuthLogin.post_login matchPassword getSignedJwtToken savedPassword now b
      (snd r) in
  body !! "currentPassword" = Some (JS.Str cur) -> cur <> "" ->
  body !! "newPassword" = Some (JS.Str new) -> new <> "" ->
  AuthLogin.findById (caller_id caller) accounts = Some a ->
  (matchPassword cur (AuthLogin.password a) = false ->
   r = (fail 400 "Current password is incorrect", accounts)) /\
  (code (fst r) <> 200%nat -> snd r = accounts) /\
  (code (fst r) = 200%nat ->
   matchPassword cur (AuthLogin.password a) = true /\
   (6 <= String.length new)%nat /\
   (AuthLogin.findOne (AuthLogin.email a) accounts = Some a ->
    AuthLogin.toLowerCase (AuthLogin.email a) = AuthLogin.email a ->
    AuthLogin.email a <> "" ->
    User.isActive (AuthLogin.user a) = true ->
    (matchPassword new (hashPassword new) = true ->
     loginBody !! "email" = Some (JS.Str (AuthLogin.email a)) ->
     loginBody !! "password" = Some (JS.Str new) ->
     code (fst (login loginBody)) = 200%nat) /\
    (matchPassword cur (hashPassword new) = false ->
     oldBody !! "email" = Some (JS.Str (AuthLogin.email a)) ->
     oldBody !! "password" = Some (JS.Str cur) ->
     fst (login oldBody) = fail 401 "Invalid credentials"))).
Proof.
  cbv zeta. intros Hc Hcne Hn Hnne F. unfold AuthLogin.put_change_password.
  rewrite Hc, Hn, F.
  assert (JS.truthy (Some (JS.Str cur)) = true) as ->.
  { cbn. apply String.eqb_neq in Hcne. now rewrite Hcne. }
  assert (JS.truthy (Some (JS.Str new)) = true) as ->.
  { cbn. apply String.eqb_neq in Hnne. now rewrite Hnne. }
  cbn [negb orb].
  destruct (matchPassword cur (AuthLogin.password a)) eqn:Em; cbn [negb].
  2: { split; [reflexivity|]. split; [reflexivity|discriminate]. }
  destruct (Nat.leb 6 (String.length new)) eqn:El; unfold Schema.check;
    cbn [app].
  2: { cbn. split; [discriminate|]. split; [reflexivity|discriminate]. }
  destruct (User.invalid_paths (AuthLogin.user a)) eqn:Ev.
  2: { cbn. split; [discriminate|]. split; [reflexivity|discriminate]. }
  cbn [fst snd code]. split; [discriminate|]. split; [intros H; now elim H|].
  intros _. split; [reflexivity|]. split; [now apply Nat.leb_le|].
  intros Hmail Hlow Hene Hact.
  set (a' := AuthLogin.mkAccount (AuthLogin.email a) (hashPassword new)
               (AuthLogin.user a) (AuthLogin.login a)).
  assert (F' : AuthLogin.findOne (AuthLogin.email a)
                 (AuthLogin.write_id a' accounts) = Some a')
    by (now apply (findOne_write_id a a' (caller_id caller))).
  assert (Hlogin : forall b pw, pw <> "" ->
            b !! "email" = Some (JS.Str (AuthLogin.email a)) ->
            b !! "password" = Some (JS.Str pw) ->
            AuthLogin.post_login matchPassword getSignedJwtToken savedPassword
              now b (AuthLogin.write_id a' accounts)
            = if negb (matchPassword pw (hashPassword new))
              then (fail 401 "Invalid credentials",
                    AuthLogin.write_id a' accounts)
              else
                (ok 200 "Login successful"
                    (AuthLogin.mkSession (getSignedJwtToken (AuthLogin.user a))
                       (User._id (AuthLogin.user a))),
                 AuthLogin.write
                   (AuthLogin.mkAccount (AuthLogin.email a)
                      (savedPassword (hashPassword new)) (AuthLogin.user a)
                      (UserLogin.updateLastLogin now (AuthLogin.login a)))
                   (AuthLogin.write_id a' accounts))).
  { intros b pw Hpw He Hp. unfold AuthLogin.post_login. rewrite He, Hp.
    assert (JS.truthy (Some (JS.Str (AuthLogin.email a))) = true) as ->.
    { cbn. apply String.eqb_neq in Hene. now rewrite Hene. }
    assert (JS.truthy (Some (JS.Str pw)) = true) as ->.
    { cbn. apply String.eqb_neq in Hpw. now rewrite Hpw. }
    cbn [negb orb]. rewrite Hlow, F'.
    unfold a'. cbn [AuthLogin.user AuthLogin.password AuthLogin.email
                    AuthLogin.login].
    rewrite Hact. reflexivity. }
  split.
  - intros Hok He Hp. pose proof (Hlogin loginBody new Hnne He Hp) as E.
    rewrite E, Hok. reflexivity.
  - intros Hno He Hp. pose proof (Hlogin oldBody cur Hcne He Hp) as E.
    rewrite E, Hno. reflexivity.
Qed.

End PasswordFacts.

Lemma password_change_round_trip_witness :
  let matchPassword pw h := String.eqb ("#" +:+ pw) h in
  let hashPassword pw := "#" +:+ pw in
  let accounts :=
    [AuthLogin.mkAccount "alex@example.com" "#secret" Sample.alex
       (UserLogin.mk 0 None None)] in
  let r :=
    AuthLogin.put_change_password matchPassword hashPassword Sample.alex_caller
      {[ "currentPassword" := JS.Str "secret";
         "newPassword" := JS.Str "hunter22" ]} accounts in
  code (fst (AuthLogin.post_login matchPassword (fun u => "jwt") (fun h => h)
               2000%Z
               {[ "email" := JS.Str "alex@example.com";
                  "password" := JS.Str "hunter22" ]} (snd r))) = 200%nat /\
  fst (AuthLogin.post_login matchPassword (fun u => "jwt") (fun h => h)
         2000%Z
         {[ "email" := JS.Str "alex@example.com";
            "password" := JS.Str "secret" ]} (snd r))
  = fail 401 "Invalid credentials".
Proof.
  cbv zeta.
  pose proof (password_change_round_trip
                (fun pw h => String.eqb ("#" +:+ pw) h) (fun u => "jwt")
                (fun h => h) (fun pw => "#" +:+ pw) 2000%Z Sample.alex_caller
                {[ "currentPassword" := JS.Str "secret";
                   "newPassword" := JS.Str "hunter22" ]}
                {[ "email" := JS.Str "alex@example.com";
                   "password" := JS.Str "hunter22" ]}
                {[ "email" := JS.Str "alex@example.com";
                   "password" := JS.Str "secret" ]}
                [AuthLogin.mkAccount "alex@example.com" "#secret" Sample.alex
                   (UserLogin.mk 0 None None)]
                (AuthLogin.mkAccount "alex@example.com" "#secret" Sample.alex
                   (UserLogin.mk 0 None None))
                "secret" "hunter22") as H.
  cbv zeta in H.
  destruct H as (_ & _ & H);
    [reflexivity | discriminate | reflexivity | discriminate | reflexivity |].
  destruct (H eq_refl) as (_ & _ & H2).
  destruct H2 as [Hnew Hold];
    [reflexivity | reflexivity | discriminate | reflexivity |].
  split; [apply Hnew | apply Hold]; reflexivity.
Defined.
